(** * Verification of the AVI RIFF timestamp patcher of image-tools

    Shallow embedding of
    - [avi_riff_utils.py]      : [find_idit_chunk], [parse_canon_date], [format_canon_date]
    - [avi_riff_date_fixer.py] : [fix_avi_date_inplace], the time parser of [main]
    - [metadata_time_changer.py] : [parse_time_adjustment],
      [write_avi_metadata_safe_inplace_modify], [_find_idit_chunk]

    Python [str] values are modelled as [list ascii] (ASCII text), [bytes] and
    [bytearray] as [list byte], integers as [Z], a [datetime] as a record of
    its fields, a [timedelta] as its total number of microseconds. *)

From Stdlib Require Import ZArith Ascii String List Bool Lia.
From Stdlib Require Import Init.Byte.
Import ListNotations.
Open Scope Z_scope.

(** ** Python runtime: exceptions and results *)

Module Py.

Inductive exn :=
| OSError            (* file system failures, including FileNotFoundError *)
| StructError        (* struct.error *)
| OverflowError
| ValueError
| UnicodeEncodeError
| TimeParsingError.

Inductive result (A : Type) :=
| Ok (a : A)
| Exc (e : exn).
Arguments Ok {A} a.
Arguments Exc {A} e.

Definition rbind {A B} (r : result A) (k : A -> result B) : result B :=
  match r with Ok a => k a | Exc e => Exc e end.

(** Character classes of Python [str] on ASCII characters. *)
Definition code (c : ascii) : Z := Z.of_nat (nat_of_ascii c).

(** [str.isspace]: tab, line feed, vertical tab, form feed, carriage
    return, the separators 0x1c-0x1f and space. *)
Definition is_space (c : ascii) : bool :=
  let n := code c in ((9 <=? n) && (n <=? 13)) || ((28 <=? n) && (n <=? 32)).

Definition is_digit (c : ascii) : bool :=
  let n := code c in (48 <=? n) && (n <=? 57).

Definition is_alpha (c : ascii) : bool :=
  let n := code c in ((65 <=? n) && (n <=? 90)) || ((97 <=? n) && (n <=? 122)).

Definition digit_val (c : ascii) : Z := code c - 48.

Definition lower_char (c : ascii) : ascii :=
  let n := nat_of_ascii c in
  if ((65 <=? n)%nat && (n <=? 90)%nat) then ascii_of_nat (n + 32) else c.

Definition upper_char (c : ascii) : ascii :=
  let n := nat_of_ascii c in
  if ((97 <=? n)%nat && (n <=? 122)%nat) then ascii_of_nat (n - 32) else c.

Definition lower (s : list ascii) : list ascii := map lower_char s.
Definition upper (s : list ascii) : list ascii := map upper_char s.

Fixpoint drop_while {A} (p : A -> bool) (l : list A) : list A :=
  match l with
  | [] => []
  | x :: l' => if p x then drop_while p l' else l
  end.

Definition lstrip_by (p : ascii -> bool) (s : list ascii) := drop_while p s.
Definition rstrip_by (p : ascii -> bool) (s : list ascii) := rev (drop_while p (rev s)).

(** [s.strip()] *)
Definition strip (s : list ascii) : list ascii := rstrip_by is_space (lstrip_by is_space s).

Definition is_nul (c : ascii) : bool := Ascii.eqb c (ascii_of_nat 0).

(** [s.isdigit()]: non-empty and every character a digit. *)
Definition isdigit (s : list ascii) : bool :=
  match s with [] => false | _ => forallb is_digit s end.

Definition starts_with (c : ascii) (s : list ascii) : bool :=
  match s with d :: _ => Ascii.eqb c d | [] => false end.

Definition ends_with (c : ascii) (s : list ascii) : bool :=
  match rev s with d :: _ => Ascii.eqb c d | [] => false end.

(** Value of a non-empty run of decimal digits. *)
Definition digits_value (s : list ascii) : Z :=
  fold_left (fun acc c => acc * 10 + digit_val c) s 0.

(** [int(s)] in base 10: surrounding whitespace, an optional sign, then
    digits, single underscores allowed between digits.  More than 4300
    digits (leading zeros included) raise [ValueError]: the default of
    [sys.get_int_max_str_digits()]. *)
Fixpoint underscore_digits_ok (s : list ascii) : bool :=
  match s with
  | [] => true
  | c :: s' =>
      if is_digit c then underscore_digits_ok s'
      else if Ascii.eqb c "_"%char then
        match s' with d :: _ => is_digit d && underscore_digits_ok s' | [] => false end
      else false
  end.

Definition py_int (s : list ascii) : result Z :=
  let t := strip s in
  let '(sgn, body) :=
    match t with
    | c :: t' => if Ascii.eqb c "+"%char then (1, t')
                 else if Ascii.eqb c "-"%char then (-1, t') else (1, t)
    | [] => (1, t)
    end in
  match body with
  | d :: _ =>
      if is_digit d && underscore_digits_ok body
      then if (4300 <? length (filter is_digit body))%nat then Exc ValueError
           else Ok (sgn * digits_value (filter is_digit body))
      else Exc ValueError
  | [] => Exc ValueError
  end.

(** [bytes.decode("ascii", errors="ignore")] *)
Definition decode_ascii_ignore (b : list byte) : list ascii :=
  map ascii_of_byte (filter (fun x => (Byte.to_nat x <? 128)%nat) b).

(** [str.encode("ascii")] *)
Definition encode_ascii (s : list ascii) : result (list byte) :=
  if forallb (fun c => (nat_of_ascii c <? 128)%nat) s
  then Ok (map byte_of_ascii s) else Exc UnicodeEncodeError.

Fixpoint bytes_prefix (pat data : list byte) : bool :=
  match pat, data with
  | [], _ => true
  | p :: pat', d :: data' => Byte.eqb p d && bytes_prefix pat' data'
  | _ :: _, [] => false
  end.

(** [bytes.find(pat)]: index of the first occurrence. *)
Fixpoint find_sub_from (pat data : list byte) (i : nat) : option nat :=
  match data with
  | [] => match pat with [] => Some i | _ => None end
  | _ :: data' =>
      if bytes_prefix pat data then Some i
      else find_sub_from pat data' (S i)
  end.

Definition find_sub (pat data : list byte) : option nat := find_sub_from pat data 0.

(** [data[a:b]] for 0 <= a, b *)
Definition slice {A} (l : list A) (a b : nat) : list A := firstn (b - a) (skipn a l).

(** [data[a:b] = x] for 0 <= a <= b *)
Definition slice_assign {A} (l : list A) (a b : nat) (x : list A) : list A :=
  firstn a l ++ x ++ skipn b l.

(** [struct.unpack("<L", b)[0]] *)
Definition unpack_le32 (b : list byte) : result Z :=
  match b with
  | [b0; b1; b2; b3] =>
      Ok (Z.of_nat (Byte.to_nat b0) + 256 * Z.of_nat (Byte.to_nat b1)
          + 65536 * Z.of_nat (Byte.to_nat b2) + 16777216 * Z.of_nat (Byte.to_nat b3))
  | _ => Exc StructError
  end.


(** A [dict] with [str] keys, in insertion order. *)
Definition dict (V : Type) := list (string * V).

(** [d[k]] ([None] when [k not in d]) *)
Fixpoint dict_get {V} (d : dict V) (k : string) : option V :=
  match d with
  | [] => None
  | (k', v) :: d' => if String.eqb k k' then Some v else dict_get d' k
  end.

(** [d[k] = v]: an existing key keeps its place, a new key goes last. *)
Fixpoint dict_set {V} (d : dict V) (k : string) (v : V) : dict V :=
  match d with
  | [] => [(k, v)]
  | (k', v') :: d' => if String.eqb k k' then (k', v) :: d' else (k', v') :: dict_set d' k v
  end.

End Py.

Import Py.

(** ** Python [float]: IEEE 754 binary64, rounding to nearest, ties to even *)

Module Float.

(** A float: a finite value [m * 2^e], an infinity or a NaN.  The sign of
    a zero is not kept; nothing below depends on it. *)
Inductive float := Fin (m e : Z) | Inf (negative : bool) | NaN.

(** [floor(log2(a / den))] for [a > 0] and [den > 0]. *)
Definition log2_ratio (a den : Z) : Z :=
  let k := Z.log2 a - Z.log2 den in
  if (if 0 <=? k then den * 2 ^ k <=? a else den <=? a * 2 ^ (- k)) then k else k - 1.

(** [num / den] (with [den > 0]) rounded to a binary64 value: a 53-bit
    significand whose last bit has exponent at least -1074, ties to even.
    [Some (m, e)] stands for [m * 2^e]; [None] when the rounded magnitude
    reaches 2^1024. *)
Definition round_div (num den : Z) : option (Z * Z) :=
  if num =? 0 then Some (0, 0) else
  let a := Z.abs num in
  let e := Z.max (log2_ratio a den - 52) (-1074) in
  let '(n, d) := if 0 <=? e then (a, den * 2 ^ e) else (a * 2 ^ (- e), den) in
  let q := n / d in
  let r := n mod d in
  let q := if (d <? 2 * r) || ((2 * r =? d) && Z.odd q) then q + 1 else q in
  if (0 <=? e) && (2 ^ 1024 <=? q * 2 ^ e) then None
  else Some (Z.sgn num * q, e).

Definition of_round (negative : bool) (x : option (Z * Z)) : float :=
  match x with Some (m, e) => Fin m e | None => Inf negative end.

(** [x + y]: the exact sum, rounded once; an overflow gives an infinity. *)
Definition add (x y : float) : float :=
  match x, y with
  | NaN, _ | _, NaN => NaN
  | Inf a, Inf b => if Bool.eqb a b then Inf a else NaN
  | Inf a, Fin _ _ | Fin _ _, Inf a => Inf a
  | Fin m1 e1, Fin m2 e2 =>
      let e := Z.min e1 e2 in
      let num := m1 * 2 ^ (e1 - e) + m2 * 2 ^ (e2 - e) in
      if 0 <=? e then of_round (num <? 0) (round_div (num * 2 ^ e) 1)
      else of_round (num <? 0) (round_div num (2 ^ (- e)))
  end.

(** [-x] *)
Definition opp (x : float) : float :=
  match x with Fin m e => Fin (- m) e | Inf b => Inf (negb b) | NaN => NaN end.

(** [float(n)] for an [int] [n] ([PyLong_AsDouble]): [OverflowError]
    when [n] rounds beyond the float range. *)
Definition of_int (n : Z) : result float :=
  match round_div n 1 with Some (m, e) => Ok (Fin m e) | None => Exc OverflowError end.

(** [a / b] for [int]s, [b <> 0] ([long_true_divide]): the exact quotient
    rounded once; [OverflowError] when it is too large for a float. *)
Definition int_truediv (a b : Z) : result float :=
  match round_div (Z.sgn b * a) (Z.abs b) with
  | Some (m, e) => Ok (Fin m e)
  | None => Exc OverflowError
  end.

End Float.

(** ** [datetime] and [timedelta] (CPython [datetime.py]) *)

Module Datetime.

Record datetime := mkDT {
  year : Z; month : Z; day : Z;
  hour : Z; minute : Z; second : Z; microsecond : Z }.

Definition MINYEAR := 1.
Definition MAXYEAR := 9999.
Definition MAXORDINAL := 3652059.

Definition at_ (l : list Z) (i : Z) : Z := nth (Z.to_nat i) l (-1).

Definition _DAYS_IN_MONTH := [-1; 31; 28; 31; 30; 31; 30; 31; 31; 30; 31; 30; 31].
Definition _DAYS_BEFORE_MONTH := [-1; 0; 31; 59; 90; 120; 151; 181; 212; 243; 273; 304; 334].

Definition _is_leap (y : Z) : bool :=
  (y mod 4 =? 0) && (negb (y mod 100 =? 0) || (y mod 400 =? 0)).

Definition _days_before_year (y : Z) : Z :=
  let y1 := y - 1 in y1 * 365 + y1 / 4 - y1 / 100 + y1 / 400.

Definition _days_in_month (y m : Z) : Z :=
  if (m =? 2) && _is_leap y then 29 else at_ _DAYS_IN_MONTH m.

Definition _days_before_month (y m : Z) : Z :=
  at_ _DAYS_BEFORE_MONTH m + (if (m >? 2) && _is_leap y then 1 else 0).

Definition _ymd2ord (y m d : Z) : Z :=
  _days_before_year y + _days_before_month y m + d.

Definition _DI400Y := 146097.
Definition _DI100Y := 36524.
Definition _DI4Y := 1461.

Definition _ord2ymd (n0 : Z) : Z * Z * Z :=
  let n := n0 - 1 in
  let n400 := n / _DI400Y in let n := n mod _DI400Y in
  let year := n400 * 400 + 1 in
  let n100 := n / _DI100Y in let n := n mod _DI100Y in
  let n4 := n / _DI4Y in let n := n mod _DI4Y in
  let n1 := n / 365 in let n := n mod 365 in
  let year := year + n100 * 100 + n4 * 4 + n1 in
  if (n1 =? 4) || (n100 =? 4) then (year - 1, 12, 31)
  else
    let leapyear := (n1 =? 3) && (negb (n4 =? 24) || (n100 =? 3)) in
    let month := Z.shiftr (n + 50) 5 in
    let preceding := at_ _DAYS_BEFORE_MONTH month
                     + (if (month >? 2) && leapyear then 1 else 0) in
    let '(month, preceding) :=
      if preceding >? n then
        let month := month - 1 in
        (month, preceding - (at_ _DAYS_IN_MONTH month
                             + (if (month =? 2) && leapyear then 1 else 0)))
      else (month, preceding) in
    (year, month, n - preceding + 1).

(** [_check_date_fields] and [_check_time_fields] of the constructor. *)
Definition valid_date (y m d : Z) : bool :=
  (MINYEAR <=? y) && (y <=? MAXYEAR) && (1 <=? m) && (m <=? 12)
  && (1 <=? d) && (d <=? _days_in_month y m).

Definition valid_time (h mi s us : Z) : bool :=
  (0 <=? h) && (h <=? 23) && (0 <=? mi) && (mi <=? 59)
  && (0 <=? s) && (s <=? 59) && (0 <=? us) && (us <=? 999999).

Definition valid_datetime (t : datetime) : bool :=
  valid_date (year t) (month t) (day t)
  && valid_time (hour t) (minute t) (second t) (microsecond t).

(** [datetime(y, m, d, h, mi, s, us)] *)
Definition mk_datetime (y m d h mi s us : Z) : result datetime :=
  if valid_date y m d && valid_time h mi s us then Ok (mkDT y m d h mi s us)
  else Exc ValueError.

Definition toordinal (t : datetime) : Z := _ymd2ord (year t) (month t) (day t).

(** [weekday()]: Monday is 0. *)
Definition weekday (t : datetime) : Z := (toordinal t + 6) mod 7.

(** A [timedelta] is its number of microseconds; the constructor
    normalises to (days, seconds, microseconds) and raises
    [OverflowError] when [|days| > 999999999]. *)
Definition US_PER_DAY := 86400000000.
Definition MAX_DELTA_DAYS := 999999999.

Definition mk_timedelta (us : Z) : result Z :=
  let d := us / US_PER_DAY in
  if (- MAX_DELTA_DAYS <=? d) && (d <=? MAX_DELTA_DAYS) then Ok us else Exc OverflowError.

Definition td_days (td : Z) : Z := td / US_PER_DAY.
Definition td_seconds (td : Z) : Z := (td mod US_PER_DAY) / 1000000.
Definition td_microseconds (td : Z) : Z := td mod 1000000.

(** [datetime.__add__(self, other)] with [other] a [timedelta]. *)
Definition dt_add (t : datetime) (other : Z) : result datetime :=
  rbind (mk_timedelta (toordinal t * US_PER_DAY
           + ((hour t * 3600 + minute t * 60 + second t) * 1000000 + microsecond t)))
  (fun delta =>
  rbind (mk_timedelta (delta + other)) (fun delta =>
  let hour := td_seconds delta / 3600 in
  let rem := td_seconds delta mod 3600 in
  let minute := rem / 60 in
  let second := rem mod 60 in
  if (0 <? td_days delta) && (td_days delta <=? MAXORDINAL) then
    let '(y, m, d) := _ord2ymd (td_days delta) in
    Ok (mkDT y m d hour minute second (td_microseconds delta))
  else Exc OverflowError)).

End Datetime.

Import Datetime.

(** ** [datetime.strftime] and [datetime.strptime] for the format
    ["%a %b %d %H:%M:%S %Y"] in the C locale *)

Module Strftime.

Definition digit (n : Z) : ascii := ascii_of_nat (48 + Z.to_nat n).

(** ["%02d"] *)
Definition pad2 (n : Z) : list ascii := [digit (n / 10); digit (n mod 10)].

(** [str(n)] for [0 <= n < 10^20]. *)
Fixpoint dec_aux (fuel : nat) (n : Z) (acc : list ascii) : list ascii :=
  match fuel with
  | O => acc
  | S f => let acc' := digit (n mod 10) :: acc in
           if n <? 10 then acc' else dec_aux f (n / 10) acc'
  end.

Definition dec (n : Z) : list ascii := dec_aux 20 n [].

Definition weekday_abbr : list (list ascii) :=
  map list_ascii_of_string ["Mon"; "Tue"; "Wed"; "Thu"; "Fri"; "Sat"; "Sun"]%string.

Definition month_abbr : list (list ascii) :=
  map list_ascii_of_string
    [""; "Jan"; "Feb"; "Mar"; "Apr"; "May"; "Jun"; "Jul"; "Aug"; "Sep"; "Oct"; "Nov"; "Dec"]%string.

(** [dt.strftime("%a %b %d %H:%M:%S %Y")]; glibc writes [%Y] without
    padding. *)
Definition strftime_canon (t : datetime) : list ascii :=
  nth (Z.to_nat (weekday t)) weekday_abbr []
  ++ [" "%char] ++ nth (Z.to_nat (month t)) month_abbr []
  ++ [" "%char] ++ pad2 (day t)
  ++ [" "%char] ++ pad2 (hour t)
  ++ [":"%char] ++ pad2 (minute t)
  ++ [":"%char] ++ pad2 (second t)
  ++ [" "%char] ++ dec (year t).

(** [dt.strftime("%Y:%m:%d %H:%M:%S")] *)
Definition strftime_exif (t : datetime) : list ascii :=
  dec (year t) ++ ":"%char :: pad2 (month t) ++ ":"%char :: pad2 (day t)
  ++ " "%char :: pad2 (hour t) ++ ":"%char :: pad2 (minute t) ++ ":"%char :: pad2 (second t).

End Strftime.

Module Strptime.

(** Backtracking regular expressions: all matches of a pattern at the
    start of the input, in the order [re] tries them. *)
Definition parser (A : Type) := list ascii -> list (A * list ascii).

Definition ret {A} (a : A) : parser A := fun s => [(a, s)].
Definition bind {A B} (p : parser A) (k : A -> parser B) : parser B :=
  fun s => flat_map (fun ar => k (fst ar) (snd ar)) (p s).
Definition alt {A} (p q : parser A) : parser A := fun s => p s ++ q s.
Definition fail {A} : parser A := fun _ => [].

Local Notation "x <- p ;; k" := (bind p (fun x => k)) (at level 61, p at next level, right associativity).

Definition cls (f : ascii -> bool) : parser unit :=
  fun s => match s with c :: r => if f c then [(tt, r)] else [] | [] => [] end.

Definition seq (p q : parser unit) : parser unit := _ <- p ;; q.

Definition rng (lo hi : ascii) : parser unit :=
  cls (fun c => (code lo <=? code c) && (code c <=? code hi)).
Definition chr (a : ascii) : parser unit := rng a a.
Definition dgt : parser unit := cls is_digit.

(** A literal word under [re.IGNORECASE]. *)
Definition lit_ci (w : list ascii) : parser unit :=
  fold_right (fun c p => seq (cls (fun x => Ascii.eqb (lower_char x) (lower_char c))) p) (ret tt) w.

Definition alts (ws : list (list ascii)) : parser unit :=
  fold_right (fun w p => alt (lit_ci w) p) fail ws.

(** A named group [(?P<name>...)]: the text the pattern consumed. *)
Definition capture (p : parser unit) : parser (list ascii) :=
  fun s => map (fun ur => (firstn (List.length s - List.length (snd ur)) s, snd ur)) (p s).

(** [[...]*] and [[...]+], greedy: longest match first. *)
Fixpoint cls_star (f : ascii -> bool) (s : list ascii) : list (unit * list ascii) :=
  match s with
  | c :: r => if f c then cls_star f r ++ [(tt, s)] else [(tt, s)]
  | [] => [(tt, [])]
  end.

Definition cls_plus (f : ascii -> bool) : parser unit :=
  fun s => match s with c :: r => if f c then cls_star f r else [] | [] => [] end.

(** [\s+] *)
Definition ws_plus : parser unit := cls_plus is_space.

(** [LocaleTime().a_weekday] and [LocaleTime().a_month] (lower case). *)
Definition a_weekday : list (list ascii) := map lower Strftime.weekday_abbr.
Definition a_month : list (list ascii) := map lower Strftime.month_abbr.

(** [_strptime]'s directive patterns; [__seqToRE] puts longer names first,
    so the empty month name comes last. *)
Definition re_a : parser unit := alts a_weekday.
Definition re_b : parser unit := alts (tl a_month ++ [[]]).
Definition re_d : parser unit :=
  alt (seq (chr "3") (rng "0" "1"))
  (alt (seq (rng "1" "2") dgt)
  (alt (seq (chr "0") (rng "1" "9"))
  (alt (rng "1" "9")
       (seq (chr " ") (rng "1" "9"))))).
Definition re_H : parser unit :=
  alt (seq (chr "2") (rng "0" "3")) (alt (seq (rng "0" "1") dgt) dgt).
Definition re_M : parser unit := alt (seq (rng "0" "5") dgt) dgt.
Definition re_S : parser unit :=
  alt (seq (chr "6") (rng "0" "1")) (alt (seq (rng "0" "5") dgt) dgt).
Definition re_Y : parser unit := seq dgt (seq dgt (seq dgt dgt)).

Record found := mkFound {
  f_a : list ascii; f_b : list ascii; f_d : list ascii;
  f_H : list ascii; f_M : list ascii; f_S : list ascii; f_Y : list ascii }.

(** The compiled format: each space became [\s+]. *)
Definition canon_regex : parser found :=
  a <- capture re_a ;; _ <- ws_plus ;;
  b <- capture re_b ;; _ <- ws_plus ;;
  d <- capture re_d ;; _ <- ws_plus ;;
  H <- capture re_H ;; _ <- chr ":" ;;
  M <- capture re_M ;; _ <- chr ":" ;;
  S <- capture re_S ;; _ <- ws_plus ;;
  Y <- capture re_Y ;;
  ret (mkFound a b d H M S Y).

(** [format_regex.match(data_string)]: the first match. *)
Definition regex_match (s : list ascii) : option (found * list ascii) :=
  hd_error (canon_regex s).

Fixpoint index_from (l : list (list ascii)) (x : list ascii) (i : Z) : result Z :=
  match l with
  | [] => Exc ValueError
  | y :: l' => if list_eq_dec ascii_dec x y then Ok i else index_from l' x (i + 1)
  end.

(** [list.index] *)
Definition index (l : list (list ascii)) (x : list ascii) : result Z := index_from l x 0.

(** [_strptime_datetime(datetime, data_string, format)] *)
Definition _strptime_datetime (s : list ascii) : result datetime :=
  match regex_match s with
  | None => Exc ValueError
  | Some (fd, rest) =>
      match rest with
      | _ :: _ => Exc ValueError  (* unconverted data remains *)
      | [] =>
        rbind (py_int (f_Y fd)) (fun year =>
        rbind (index a_month (lower (f_b fd))) (fun month =>
        rbind (py_int (f_d fd)) (fun day =>
        rbind (py_int (f_H fd)) (fun hour =>
        rbind (py_int (f_M fd)) (fun minute =>
        rbind (py_int (f_S fd)) (fun second =>
        rbind (index a_weekday (lower (f_a fd))) (fun _weekday =>
        (* julian = datetime_date(year, month, day).toordinal() - ... *)
        if valid_date year month day
        then mk_datetime year month day hour minute second 0
        else Exc ValueError)))))))
      end
  end.

Definition re_m : parser unit :=
  alt (seq (chr "1") (rng "0" "2")) (alt (seq (chr "0") (rng "1" "9")) (rng "1" "9")).

Record found_num := mkFoundNum {
  g_Y : list ascii; g_m : list ascii; g_d : list ascii;
  g_H : list ascii; g_M : list ascii; g_S : list ascii }.

(** The compiled format ["%Y:%m:%d %H:%M:%S"]. *)
Definition exif_regex : parser found_num :=
  Y <- capture re_Y ;; _ <- chr ":" ;;
  m <- capture re_m ;; _ <- chr ":" ;;
  d <- capture re_d ;; _ <- ws_plus ;;
  H <- capture re_H ;; _ <- chr ":" ;;
  M <- capture re_M ;; _ <- chr ":" ;;
  S <- capture re_S ;;
  ret (mkFoundNum Y m d H M S).

(** [_strptime_datetime(datetime, data_string, "%Y:%m:%d %H:%M:%S")] *)
Definition _strptime_exif (s : list ascii) : result datetime :=
  match hd_error (exif_regex s) with
  | None => Exc ValueError
  | Some (fd, rest) =>
      match rest with
      | _ :: _ => Exc ValueError
      | [] =>
        rbind (py_int (g_Y fd)) (fun year =>
        rbind (py_int (g_m fd)) (fun month =>
        rbind (py_int (g_d fd)) (fun day =>
        rbind (py_int (g_H fd)) (fun hour =>
        rbind (py_int (g_M fd)) (fun minute =>
        rbind (py_int (g_S fd)) (fun second =>
        if valid_date year month day
        then mk_datetime year month day hour minute second 0
        else Exc ValueError))))))
      end
  end.

End Strptime.

(** ** [avi_riff_utils.py] *)

Module AviRiffUtils.

Definition IDIT : list byte := list_byte_of_string "IDIT".

(** [find_idit_chunk(data)]: [Ok None] is [(None, None)]. *)
Definition find_idit_chunk (data : list byte) : result (option (nat * list byte)) :=
  match find_sub IDIT data with
  | None => Ok None
  | Some pos =>
      if (length data <=? pos + 4)%nat then Ok None
      else
        let size_bytes := slice data (pos + 4) (pos + 8) in
        if negb (length size_bytes =? 4)%nat then Ok None
        else
          rbind (unpack_le32 size_bytes) (fun chunk_size =>
          let date_start := (pos + 8)%nat in
          let date_end := (date_start + Z.to_nat chunk_size)%nat in
          if (length data <? date_end)%nat then Ok None
          else Ok (Some (pos, slice data date_start date_end)))
  end.

(** [parse_canon_date(date_str)]; [_strptime] only raises [ValueError]. *)
Definition parse_canon_date (date_str : list ascii) : option datetime :=
  let clean_date := strip (rstrip_by is_nul (strip date_str)) in
  match Strptime._strptime_datetime clean_date with
  | Ok dt => Some dt
  | Exc _ => None
  end.

(** [format_canon_date(dt)] *)
Definition format_canon_date (dt : datetime) : list ascii :=
  upper (Strftime.strftime_canon dt).

End AviRiffUtils.

Import AviRiffUtils.

(** ** The file system seen by one patch: the target file and its backup
    sibling ([file_path.with_suffix(...)]), as a state and exception monad.
    Failures of the target's I/O are injected by a fault plan. *)

Module FileSystem.

Record fs := mkFS { file : option (list byte); backup : option (list byte) }.

(** Which I/O call of the operation raises: the backup copy, the read,
    the write (after [j] bytes reached the file, [open(..., "wb")] having
    truncated it), the removal of the backup on the normal path. The
    recovery in the [except] handlers is not subject to injected faults. *)
Record faults := mkFaults {
  f_copy : bool; f_read : bool; f_write : option nat; f_unlink : bool }.

Definition no_faults := mkFaults false false None false.

Definition M (A : Type) := fs -> result A * fs.

Definition ret {A} (a : A) : M A := fun s => (Ok a, s).
Definition bind {A B} (m : M A) (k : A -> M B) : M B :=
  fun s => match m s with
           | (Ok a, s') => k a s'
           | (Exc e, s') => (Exc e, s')
           end.
Definition lift {A} (r : result A) : M A := fun s => (r, s).
(** [try: m except Exception: h] *)
Definition catch {A} (m : M A) (h : exn -> M A) : M A :=
  fun s => match m s with
           | (Exc e, s') => h e s'
           | r => r
           end.

Notation "x <- m ;; k" := (bind m (fun x => k)) (at level 61, m at next level, right associativity).
Notation "m ;;; k" := (bind m (fun _ => k)) (at level 61, right associativity).

(** [shutil.copy2(file_path, backup_path)] *)
Definition copy_to_backup (flt : faults) : M unit :=
  fun s => if f_copy flt then (Exc OSError, s) else
           match file s with
           | Some c => (Ok tt, mkFS (Some c) (Some c))
           | None => (Exc OSError, s)
           end.

(** [open(file_path, "rb").read()] *)
Definition read_file (flt : faults) : M (list byte) :=
  fun s => if f_read flt then (Exc OSError, s) else
           match file s with
           | Some c => (Ok c, s)
           | None => (Exc OSError, s)
           end.

(** [open(file_path, "wb").write(data)] *)
Definition write_file (flt : faults) (data : list byte) : M unit :=
  fun s => match f_write flt with
           | Some j => (Exc OSError, mkFS (Some (firstn j data)) (backup s))
           | None => (Ok tt, mkFS (Some data) (backup s))
           end.

(** [backup_path.exists()] *)
Definition backup_exists : M bool :=
  fun s => (Ok (match backup s with Some _ => true | None => false end), s).

(** [backup_path.unlink()] on the normal path. *)
Definition unlink_backup (flt : faults) : M unit :=
  fun s => if f_unlink flt then (Exc OSError, s) else
           match backup s with
           | Some _ => (Ok tt, mkFS (file s) None)
           | None => (Exc OSError, s)
           end.

(** [shutil.copy2(backup_path, file_path)] in a handler. *)
Definition restore_copy : M unit :=
  fun s => match backup s with
           | Some c => (Ok tt, mkFS (Some c) (Some c))
           | None => (Exc OSError, s)
           end.

(** [backup_path.unlink()] in a handler. *)
Definition remove_backup : M unit :=
  fun s => match backup s with
           | Some _ => (Ok tt, mkFS (file s) None)
           | None => (Exc OSError, s)
           end.

End FileSystem.

Import FileSystem.

(** Pad with NUL bytes or truncate to [original_size]. *)
Definition pad_or_truncate (new_date_bytes : list byte) (original_size : nat) : list byte :=
  if (length new_date_bytes <? original_size)%nat
  then new_date_bytes ++ repeat x00 (original_size - length new_date_bytes)
  else if (original_size <? length new_date_bytes)%nat
  then firstn original_size new_date_bytes
  else new_date_bytes.

(** ** [avi_riff_date_fixer.py] *)

Module AviRiffDateFixer.

(** Its [find_idit_chunk], [parse_canon_date] and [format_canon_date] are
    textual copies of those of [avi_riff_utils.py] (the parse failure
    message only goes to stdout). *)
Definition find_idit_chunk := AviRiffUtils.find_idit_chunk.
Definition parse_canon_date := AviRiffUtils.parse_canon_date.
Definition format_canon_date := AviRiffUtils.format_canon_date.

(** The body of the second [try] of [fix_avi_date_inplace]. Console
    output is not modelled. *)
Definition fix_body (flt : faults) (time_delta : Z) : M bool :=
  data <- read_file flt ;;
  found <- lift (find_idit_chunk data) ;;
  match found with
  | None =>
      ex <- backup_exists ;;
      (if ex then unlink_backup flt else ret tt) ;;;
      ret false
  | Some (idit_pos, date_data) =>
      let current_date_str := decode_ascii_ignore date_data in
      match parse_canon_date current_date_str with
      | None => ret false
      | Some current_date =>
          new_date <- lift (dt_add current_date time_delta) ;;
          let new_date_str := format_canon_date new_date in
          let original_size := length date_data in
          new_date_bytes <- lift (encode_ascii new_date_str) ;;
          let new_date_bytes := pad_or_truncate new_date_bytes original_size in
          let date_start := (idit_pos + 8)%nat in
          let date_end := (date_start + original_size)%nat in
          let data := slice_assign data date_start date_end new_date_bytes in
          write_file flt data ;;;
          unlink_backup flt ;;;
          ret true
      end
  end.

(** [except Exception]: restore from the backup. *)
Definition fix_restore : M bool :=
  catch (restore_copy ;;; remove_backup) (fun _ => ret tt) ;;;
  ret false.

Definition fix_avi_date_inplace (flt : faults) (time_delta : Z) : M bool :=
  created <- catch (copy_to_backup flt ;;; ret true) (fun _ => ret false) ;;
  if negb created then ret false
  else catch (fix_body flt time_delta) (fun _ => fix_restore).

(** The time parser of [main] (the [try] block); [ValueError] makes
    [main] exit with status 1. *)
Definition main_time_delta (time_str : list ascii) : result Z :=
  let '(time_str, multiplier) :=
    if starts_with "+" time_str then (tl time_str, 1)
    else if starts_with "-" time_str then (tl time_str, -1)
    else (time_str, 1) in
  if ends_with "d" time_str then
    rbind (py_int (removelast time_str)) (fun days =>
      mk_timedelta (days * multiplier * US_PER_DAY))
  else if ends_with "h" time_str then
    rbind (py_int (removelast time_str)) (fun hours =>
      mk_timedelta (hours * multiplier * 3600000000))
  else if ends_with "m" time_str then
    rbind (py_int (removelast time_str)) (fun minutes =>
      mk_timedelta (minutes * multiplier * 60000000))
  else
    rbind (py_int time_str) (fun days =>
      mk_timedelta (days * multiplier * US_PER_DAY)).

End AviRiffDateFixer.

(** ** [metadata_time_changer.py] *)

Module MetadataTimeChanger.

(** [re.findall(r"(\d+)([a-zA-Z])", s)] *)
Definition pair_re : Strptime.parser (list ascii * list ascii) :=
  Strptime.bind (Strptime.capture (Strptime.cls_plus is_digit)) (fun v =>
  Strptime.bind (Strptime.capture (Strptime.cls is_alpha)) (fun u =>
  Strptime.ret (v, u))).

Fixpoint findall_aux (fuel : nat) (s : list ascii) : list (list ascii * list ascii) :=
  match fuel with
  | O => []
  | S fuel' =>
      match s with
      | [] => []
      | _ :: r =>
          match hd_error (pair_re s) with
          | Some (m, rest) => m :: findall_aux fuel' rest
          | None => findall_aux fuel' r
          end
      end
  end.

Definition findall (s : list ascii) : list (list ascii * list ascii) :=
  findall_aux (length s) s.

(** A Python number: an [int] or a [float]. *)
Inductive number := Int (z : Z) | Flt (f : Float.float).

(** [x + y]: an [int] meeting a [float] is converted to [float] first. *)
Definition num_add (x y : number) : result number :=
  match x, y with
  | Int a, Int b => Ok (Int (a + b))
  | Flt f, Flt g => Ok (Flt (Float.add f g))
  | Flt f, Int b => rbind (Float.of_int b) (fun g => Ok (Flt (Float.add f g)))
  | Int a, Flt g => rbind (Float.of_int a) (fun f => Ok (Flt (Float.add f g)))
  end.

(** [-x] *)
Definition num_neg (x : number) : number :=
  match x with Int a => Int (- a) | Flt f => Flt (Float.opp f) end.

(** [timedelta(days=total_days)] (CPython's [delta_new] and [accum]).  An
    [int] is multiplied exactly.  A [float] is split by [modf] into an
    integer part, multiplied exactly, and a fraction; the fraction times
    [us_per_day] is rounded to a float, split again by [modf], and its
    fraction [leftover_us] is rounded to a whole microsecond, ties to even
    on the sum so far.  An infinity makes [PyLong_FromDouble] raise
    [OverflowError], a NaN [ValueError]. *)
Definition timedelta_days (total_days : number) : result Z :=
  match total_days with
  | Int d => mk_timedelta (d * US_PER_DAY)
  | Flt (Float.Inf _) => Exc OverflowError
  | Flt Float.NaN => Exc ValueError
  | Flt (Float.Fin m e) =>
      if 0 <=? e then mk_timedelta (m * 2 ^ e * US_PER_DAY)
      else
        let intpart := Z.quot m (2 ^ (- e)) in
        let fracpart := Z.rem m (2 ^ (- e)) in
        let x := intpart * US_PER_DAY in
        if fracpart =? 0 then mk_timedelta x
        else
          match Float.round_div (US_PER_DAY * fracpart) (2 ^ (- e)) with
          | None => Exc OverflowError
          | Some (m2, e2) =>
              let '(intpart2, leftover, scale) :=
                if 0 <=? e2 then (m2 * 2 ^ e2, 0, 1)
                else (Z.quot m2 (2 ^ (- e2)), Z.rem m2 (2 ^ (- e2)), 2 ^ (- e2)) in
              let x := x + intpart2 in
              let whole_us :=
                if scale <? 2 * Z.abs leftover then Z.sgn leftover
                else if (2 * Z.abs leftover =? scale) && Z.odd x then Z.sgn leftover
                else 0 in
              mk_timedelta (x + whole_us)
          end
  end.

(** The [for value_str, unit in matches] loop. *)
Fixpoint sum_units (total_days : number) (matches : list (list ascii * list ascii)) : result number :=
  match matches with
  | [] => Ok total_days
  | (value_str, unit) :: ms =>
      rbind (py_int value_str) (fun value =>
      let add v := rbind (num_add total_days v) (fun t => sum_units t ms) in
      if list_eq_dec ascii_dec unit ["y"%char] then add (Int (value * 365))
      else if list_eq_dec ascii_dec unit ["m"%char] then add (Int (value * 30))
      else if list_eq_dec ascii_dec unit ["w"%char] then add (Int (value * 7))
      else if list_eq_dec ascii_dec unit ["d"%char] then add (Int value)
      else if list_eq_dec ascii_dec unit ["h"%char] then
        rbind (Float.int_truediv value 24) (fun v => add (Flt v))
      else Exc TimeParsingError)
  end.

(** [MetadataTimeChanger.parse_time_adjustment(self, time_string)] *)
Definition parse_time_adjustment (time_string : list ascii) : result Z :=
  let time_string := strip time_string in
  if negb (starts_with "+" time_string || starts_with "-" time_string)
  then Exc TimeParsingError
  else
    let is_positive := starts_with "+" time_string in
    let time_string := tl time_string in
    if isdigit time_string then
      rbind (py_int time_string) (fun days =>
        timedelta_days (Int (if is_positive then days else - days)))
    else
      match findall (lower time_string) with
      | [] => Exc TimeParsingError
      | matches =>
          rbind (sum_units (Int 0) matches) (fun total_days =>
            timedelta_days (if is_positive then total_days else num_neg total_days))
      end.

(** [_find_idit_chunk(self, data)] *)
Definition _find_idit_chunk (data : list byte) : result (option (nat * list byte)) :=
  match find_sub AviRiffUtils.IDIT data with
  | None => Ok None
  | Some pos =>
      if (length data <=? pos + 4)%nat then Ok None
      else
        rbind (unpack_le32 (slice data (pos + 4) (pos + 8))) (fun chunk_size =>
        let date_start := (pos + 8)%nat in
        let date_end := (date_start + Z.to_nat chunk_size)%nat in
        if (length data <? date_end)%nat then Ok None
        else Ok (Some (pos, slice data date_start date_end)))
  end.

(** [_parse_canon_date] and [_format_canon_date] have the text of the
    [avi_riff_utils.py] functions; the appended error messages of
    [self.errors] are not modelled. *)
Definition _parse_canon_date := AviRiffUtils.parse_canon_date.
Definition _format_canon_date := AviRiffUtils.format_canon_date.

(** The inner [try] of [write_avi_metadata_safe_inplace_modify]. *)
Definition write_body (flt : faults) (timestamp : datetime) : M bool :=
  data <- read_file flt ;;
  found <- lift (_find_idit_chunk data) ;;
  match found with
  | None =>
      ex <- backup_exists ;;
      (if ex then unlink_backup flt else ret tt) ;;;
      ret false
  | Some (idit_pos, date_data) =>
      let current_date_str := decode_ascii_ignore date_data in
      match _parse_canon_date current_date_str with
      | None =>
          ex <- backup_exists ;;
          (if ex then unlink_backup flt else ret tt) ;;;
          ret false
      | Some _ =>
          let new_date_str := _format_canon_date timestamp in
          new_date_bytes <- lift (encode_ascii new_date_str) ;;
          let original_size := length date_data in
          let new_date_bytes := pad_or_truncate new_date_bytes original_size in
          let date_start := (idit_pos + 8)%nat in
          let date_end := (date_start + original_size)%nat in
          let data := slice_assign data date_start date_end new_date_bytes in
          write_file flt data ;;;
          ex <- backup_exists ;;
          (if ex then unlink_backup flt else ret tt) ;;;
          ret true
      end
  end.

(** Its [except Exception] handler. *)
Definition write_restore : M bool :=
  ex <- backup_exists ;;
  (if ex then restore_copy ;;; remove_backup else ret tt) ;;;
  ret false.

Definition write_avi_metadata_safe_inplace_modify
    (flt : faults) (dry_run : bool) (timestamp : datetime) : M bool :=
  if dry_run then ret true
  else catch (copy_to_backup flt ;;;
              catch (write_body flt timestamp) (fun _ => write_restore))
             (fun _ => ret false).

(** [_parse_exif_datetime_string(self, date_string)] *)
Definition _parse_exif_datetime_string (date_string : list ascii) : option datetime :=
  match Strptime._strptime_exif date_string with
  | Ok dt => Some dt
  | Exc _ => None
  end.

(** [adjust_timestamps(self, timestamps)]: the adjusted dict and the
    names of the fields reported in [self.errors]. *)
Definition adjust_timestamps (time_delta : Z) (timestamps : dict (option datetime))
    : dict (option datetime) * list string :=
  fold_left (fun (st : dict (option datetime) * list string) (item : string * option datetime) =>
    let '(adjusted_timestamps, errors) := st in
    let '(field_name, timestamp_value) := item in
    match timestamp_value with
    | Some t =>
        match dt_add t time_delta with
        | Ok t' => (dict_set adjusted_timestamps field_name (Some t'), errors)
        | Exc _ => (dict_set adjusted_timestamps field_name (Some t), errors ++ [field_name])
        end
    | None => (dict_set adjusted_timestamps field_name None, errors)
    end) timestamps ([], []).

Definition timestamp_priority : list string :=
  ["creation_time"; "recorded_date"; "date"; "encoded_date"; "tagged_date"; "mastered_date"]%string.

(** The [for field_name in timestamp_priority] loop. *)
Fixpoint primary_timestamp (fields : list string) (timestamps : dict (option datetime)) : option datetime :=
  match fields with
  | [] => None
  | field_name :: fields' =>
      match dict_get timestamps field_name with
      | Some (Some t) => Some t
      | _ => primary_timestamp fields' timestamps
      end
  end.

(** [write_video_metadata_timestamps(self, file_path, timestamps)];
    [suffix] is [file_path.suffix], [ffmpeg] stands for
    [write_video_metadata_with_ffmpeg]. *)
Definition write_video_metadata_timestamps (ffmpeg : datetime -> M bool) (flt : faults)
    (dry_run : bool) (suffix : list ascii) (timestamps : dict (option datetime)) : M bool :=
  match primary_timestamp timestamp_priority timestamps with
  | None => ret false
  | Some primary =>
      if list_eq_dec ascii_dec (lower suffix) (list_ascii_of_string ".avi")
      then write_avi_metadata_safe_inplace_modify flt dry_run primary
      else ffmpeg primary
  end.

Definition is_none {A} (x : option A) : bool := match x with None => true | Some _ => false end.

(** The metadata step of [process_single_file] for a suffix of
    [VIDEO_EXTENSIONS] outside a dry run: [result["metadata_updated"]].
    [modification_time] is [adjusted_filesystem_timestamps["modification_time"]]. *)
Definition process_video_metadata (ffmpeg : datetime -> M bool) (flt : faults) (suffix : list ascii)
    (adjusted_metadata_timestamps : dict (option datetime)) (modification_time : datetime) : M bool :=
  let should_write_metadata :=
    existsb (fun kv => negb (is_none (snd kv))) adjusted_metadata_timestamps
    || (if list_eq_dec ascii_dec (lower suffix) (list_ascii_of_string ".avi") then true else false) in
  if should_write_metadata then
    let adjusted_metadata_timestamps :=
      if forallb (fun kv => is_none (snd kv)) adjusted_metadata_timestamps
      then dict_set adjusted_metadata_timestamps "creation_time"%string (Some modification_time)
      else adjusted_metadata_timestamps in
    write_video_metadata_timestamps ffmpeg flt false suffix adjusted_metadata_timestamps
  else ret false.

End MetadataTimeChanger.

Module MTC := MetadataTimeChanger.
Module Fixer := AviRiffDateFixer.

Definition ascii_s (s : string) : list ascii := list_ascii_of_string s.

Definition sample_avi : list byte :=
  list_byte_of_string "RIFFxxxxAVI LISTIDIT" ++ [x1a; x00; x00; x00]
  ++ list_byte_of_string "MON AUG 28 14:14:28 2006" ++ [x00; x00]
  ++ list_byte_of_string "LIST".

Definition sample_avi_plus3 : list byte :=
  list_byte_of_string "RIFFxxxxAVI LISTIDIT" ++ [x1a; x00; x00; x00]
  ++ list_byte_of_string "THU AUG 31 14:14:28 2006" ++ [x00; x00]
  ++ list_byte_of_string "LIST".

(** ** Auxiliary definitions of the proofs *)

(** [data'] is [data] with the [L = length payload] bytes at [pos + 8]
    replaced by as many new bytes. *)
Definition patched_frame (data data' : list byte) (pos : nat) (payload : list byte) : Prop :=
  exists new_payload, length new_payload = length payload /\
    data' = firstn (pos + 8) data ++ new_payload ++ skipn (pos + 8 + length payload) data /\
    length data' = length data /\
    forall i, (i < pos + 8 \/ pos + 8 + length payload <= i)%nat -> nth_error data' i = nth_error data i.

(** The first match of a parser run. *)
Definition first_is {A} (l : list (A * list ascii)) (x : A * list ascii) : Prop :=
  exists tl, l = x :: tl.

(** A text that starts with a character [\s] does not match. *)
Definition nonspace_head (s : list ascii) : Prop :=
  match s with c :: _ => is_space c = false | [] => False end.

(** The canonical date text from its seven fields. *)
Definition canon_fields (wk mon ds hs ms ss ys : list ascii) : list ascii :=
  wk ++ " "%char :: mon ++ " "%char :: ds ++ " "%char :: hs ++ ":"%char :: ms
  ++ ":"%char :: ss ++ " "%char :: ys.

Definition NUL : ascii := ascii_of_nat 0.

(** The text [format_canon_date] writes, with a choice of how the hour,
    minute and second are written. *)
Definition canon_text (t : datetime) (hms : Z -> list ascii) : list ascii :=
  canon_fields (upper (nth (Z.to_nat (weekday t)) Strftime.weekday_abbr []))
    (upper (nth (Z.to_nat (month t)) Strftime.month_abbr []))
    (Strftime.pad2 (day t)) (hms (hour t)) (hms (minute t)) (hms (second t))
    (Strftime.dec (year t)).

(** The month computation at the end of [_ord2ymd], verbatim. *)
Definition _ord2ymd_month (year n : Z) (leapyear : bool) : Z * Z * Z :=
    let month := Z.shiftr (n + 50) 5 in
    let preceding := at_ _DAYS_BEFORE_MONTH month
                     + (if (month >? 2) && leapyear then 1 else 0) in
    let '(month, preceding) :=
      if preceding >? n then
        let month := month - 1 in
        (month, preceding - (at_ _DAYS_IN_MONTH month
                             + (if (month =? 2) && leapyear then 1 else 0)))
      else (month, preceding) in
    (year, month, n - preceding + 1).

(** The characters [str.encode("ascii")] accepts. *)
Definition ascii_ok (s : list ascii) : bool := forallb (fun c => (nat_of_ascii c <? 128)%nat) s.



(** A pair [re.findall] returns: a run of digits and one letter. *)
Definition unit_pair (m : list ascii * list ascii) : Prop :=
  fst m <> [] /\ forallb is_digit (fst m) = true /\ exists c, snd m = [c] /\ is_alpha c = true.







(** A chunk whose payload is not a date. *)
Definition sample_avi_bad_date : list byte :=
  list_byte_of_string "RIFFxxxxAVI LISTIDIT" ++ [x04; x00; x00; x00]
  ++ list_byte_of_string "JUNKLIST".

(** The sign character of a time adjustment. *)
Definition sign_char (positive : bool) : ascii := if positive then "+"%char else "-"%char.

Definition sign_mult (positive : bool) : Z := if positive then 1 else -1.

(** [t.replace(microsecond=0)] *)
Definition whole_seconds (t : datetime) : datetime :=
  mkDT (year t) (month t) (day t) (hour t) (minute t) (second t) 0.

(** The entry [adjust_timestamps] stores for one item. *)
Definition adjust_entry (time_delta : Z) (item : string * option datetime) : string * option datetime :=
  let '(k, v) := item in
  (k, match v with
      | Some t => match dt_add t time_delta with Ok t' => Some t' | Exc _ => Some t end
      | None => None
      end).

(** Whether [adjust_timestamps] reports an error for one item. *)
Definition adjust_fails (time_delta : Z) (item : string * option datetime) : bool :=
  match snd item with
  | Some t => match dt_add t time_delta with Ok _ => false | Exc _ => true end
  | None => false
  end.

(** EXIF timestamps of a photo, one of them at the end of the calendar. *)
Definition exif_sample : dict (option datetime) :=
  [("DateTime"%string, Some (mkDT 9999 12 31 12 0 0 0)); ("DateTimeOriginal"%string, None);
   ("DateTimeDigitized"%string, Some (mkDT 2006 8 28 14 14 28 0))].

(** A stand-in for [write_video_metadata_with_ffmpeg]. *)
Definition no_ffmpeg (_ : datetime) : M bool := ret false.

(** ** Proof tactics *)

(** Case analysis on the [Z] comparisons of the goal, each case closed by
    computation, arithmetic or a contradiction. *)
Ltac z_cmp_cases :=
  repeat match goal with
  | |- context [?a <=? ?b] => destruct (Z.leb_spec a b)
  | |- context [?a <? ?b] => destruct (Z.ltb_spec a b)
  end; cbn [andb orb]; first [reflexivity | exfalso; lia | f_equal; ring].

Ltac split_matches H :=
  repeat match type of H with
  | context [match ?x with _ => _ end] => let E := fresh "E" in destruct x eqn:E
  end.

Ltac inj_pairs :=
  repeat match goal with
  | E : @eq (prod _ _) _ (pair _ _) |- _ =>
      simpl in E;
      match type of E with
      | @eq (prod _ _) (pair _ _) (pair _ _) => inversion E; subst; try clear E
      end
  end.

Ltac enum_Z x N tac :=
  let k := fresh "k" in let Hk := fresh "Hk" in
  assert (exists k, (k <= N)%nat /\ x = Z.of_nat k) as [k [Hk ->]] by (exists (Z.to_nat x); lia);
  repeat (first [solve [lia] | destruct k as [|k]; [solve [lia | tac] |]]).

Ltac enum_tac := cbv; repeat split; try (intros; eexists; reflexivity); try reflexivity;
  try (intros ? E; injection E as <-; reflexivity).

(** * Properties *)

(** ** Evaluation on sample inputs *)
Example fmt_2006 :
  format_canon_date (mkDT 2006 8 28 14 14 28 0)
  = list_ascii_of_string "MON AUG 28 14:14:28 2006".
Proof. reflexivity. Qed.

Example parse_2006 :
  parse_canon_date (list_ascii_of_string "MON AUG 28 14:14:28 2006")
  = Some (mkDT 2006 8 28 14 14 28 0).
Proof. vm_compute. reflexivity. Qed.

Example parse_2006_nul :
  parse_canon_date (decode_ascii_ignore (list_byte_of_string "MON AUG 28 14:14:28 2006") ++ [ascii_of_nat 0; ascii_of_nat 0])
  = Some (mkDT 2006 8 28 14 14 28 0).
Proof. vm_compute. reflexivity. Qed.

Example parse_bad :
  parse_canon_date (list_ascii_of_string "MON AUG 30 14:14:60 2006") = None.
Proof. vm_compute. reflexivity. Qed.

Example add3 :
  dt_add (mkDT 2006 8 28 14 14 28 0) (3 * US_PER_DAY) = Ok (mkDT 2006 8 31 14 14 28 0).
Proof. vm_compute. reflexivity. Qed.

Example fmt_thu :
  format_canon_date (mkDT 2006 8 31 14 14 28 0)
  = list_ascii_of_string "THU AUG 31 14:14:28 2006".
Proof. reflexivity. Qed.

Example pta3 : MTC.parse_time_adjustment (ascii_s "+5h") = Ok (5 * 3600000000).
Proof. vm_compute. reflexivity. Qed.

Example pta5 : MTC.parse_time_adjustment (ascii_s "+3x") = Exc TimeParsingError.
Proof. vm_compute. reflexivity. Qed.

Example fix_plus3 :
  Fixer.fix_avi_date_inplace no_faults (3 * US_PER_DAY) (mkFS (Some sample_avi) None)
  = (Ok true, mkFS (Some sample_avi_plus3) None).
Proof. vm_compute. reflexivity. Qed.

Example fix_write_fault :
  Fixer.fix_avi_date_inplace (mkFaults false false (Some 5%nat) false) (3 * US_PER_DAY)
    (mkFS (Some sample_avi) None)
  = (Ok false, mkFS (Some sample_avi) None).
Proof. vm_compute. reflexivity. Qed.

Example mtc_plus3 :
  MTC.write_avi_metadata_safe_inplace_modify no_faults false (mkDT 2006 8 31 14 14 28 0)
    (mkFS (Some sample_avi) None)
  = (Ok true, mkFS (Some sample_avi_plus3) None).
Proof. vm_compute. reflexivity. Qed.

Example main1 : Fixer.main_time_delta (ascii_s "-5m") = Ok (-5 * 60000000).
Proof. vm_compute. reflexivity. Qed.

(** ** Recovery after a failure (C1) *)

Lemma fix_body_exc_keeps_backup : forall flt delta data e s',
  Fixer.fix_body flt delta (mkFS (Some data) (Some data)) = (Exc e, s') -> backup s' = Some data.
Proof.
  intros [fc fr fw fu] delta data e s' H.
  unfold Fixer.fix_body, bind, read_file, lift, backup_exists, ret, unlink_backup, write_file in H.
  destruct fr, fw, fu; simpl in H; split_matches H; try discriminate; inj_pairs; simpl; try congruence.
Qed.

Lemma write_body_exc_keeps_backup : forall flt ts data e s',
  MTC.write_body flt ts (mkFS (Some data) (Some data)) = (Exc e, s') -> backup s' = Some data.
Proof.
  intros [fc fr fw fu] delta data e s' H.
  unfold MTC.write_body, bind, read_file, lift, backup_exists, ret, unlink_backup, write_file in H.
  destruct fr, fw, fu; simpl in H; split_matches H; try discriminate; inj_pairs; simpl; try congruence.
Qed.

(** C1: when the body of the patch raises after the backup was made (a
    failed read, a [struct.error] while locating the chunk, a date overflow,
    an encoding error, a write that failed after truncating the file, ...),
    [fix_avi_date_inplace] and [write_avi_metadata_safe_inplace_modify]
    return [False], the file holds its original bytes again and the backup
    is gone. *)
Theorem failure_restores_original : forall flt data bk,
  f_copy flt = false ->
  (forall delta e s', Fixer.fix_body flt delta (mkFS (Some data) (Some data)) = (Exc e, s') ->
     Fixer.fix_avi_date_inplace flt delta (mkFS (Some data) bk) = (Ok false, mkFS (Some data) None)) /\
  (forall ts e s', MTC.write_body flt ts (mkFS (Some data) (Some data)) = (Exc e, s') ->
     MTC.write_avi_metadata_safe_inplace_modify flt false ts (mkFS (Some data) bk)
     = (Ok false, mkFS (Some data) None)).
Proof.
  intros flt data bk Hc; split.
  - intros delta e s' H.
    pose proof (fix_body_exc_keeps_backup _ _ _ _ _ H) as Hb.
    unfold Fixer.fix_avi_date_inplace, catch, bind, copy_to_backup, ret; rewrite Hc; simpl.
    rewrite H. destruct s' as [f b]; simpl in Hb; subst b. reflexivity.
  - intros ts e s' H.
    pose proof (write_body_exc_keeps_backup _ _ _ _ _ H) as Hb.
    unfold MTC.write_avi_metadata_safe_inplace_modify, catch, bind, copy_to_backup, ret; rewrite Hc; simpl.
    rewrite H. destruct s' as [f b]; simpl in Hb; subst b. reflexivity.
Qed.

(** ** The patch window (C2) *)

Lemma find_idit_chunk_bound : forall data pos payload,
  find_idit_chunk data = Ok (Some (pos, payload)) ->
  (pos + 8 + length payload <= length data)%nat.
Proof.
  intros data pos payload H. unfold find_idit_chunk in H.
  destruct (find_sub IDIT data) as [p|]; [|discriminate].
  destruct (length data <=? p + 4)%nat eqn:E1; [discriminate|].
  destruct (negb (length (slice data (p + 4) (p + 8)) =? 4)%nat); [discriminate|].
  destruct (unpack_le32 (slice data (p + 4) (p + 8))) as [cs|]; simpl in H; [|discriminate].
  destruct (length data <? p + 8 + Z.to_nat cs)%nat eqn:E2; [discriminate|].
  inversion H; subst. apply Nat.ltb_ge in E2.
  unfold slice. rewrite length_firstn, length_skipn. lia.
Qed.

Lemma mtc_find_idit_chunk_bound : forall data pos payload,
  MTC._find_idit_chunk data = Ok (Some (pos, payload)) ->
  (pos + 8 + length payload <= length data)%nat.
Proof.
  intros data pos payload H. unfold MTC._find_idit_chunk in H.
  destruct (find_sub IDIT data) as [p|]; [|discriminate].
  destruct (length data <=? p + 4)%nat eqn:E1; [discriminate|].
  destruct (unpack_le32 (slice data (p + 4) (p + 8))) as [cs|]; simpl in H; [|discriminate].
  destruct (length data <? p + 8 + Z.to_nat cs)%nat eqn:E2; [discriminate|].
  inversion H; subst. apply Nat.ltb_ge in E2.
  unfold slice. rewrite length_firstn, length_skipn. lia.
Qed.

Lemma pad_or_truncate_length : forall b n, length (pad_or_truncate b n) = n.
Proof.
  intros b n. unfold pad_or_truncate.
  destruct (length b <? n)%nat eqn:E1.
  - apply Nat.ltb_lt in E1. rewrite length_app, repeat_length. lia.
  - destruct (n <? length b)%nat eqn:E2.
    + apply Nat.ltb_lt in E2. rewrite length_firstn. lia.
    + apply Nat.ltb_ge in E1, E2. lia.
Qed.

Lemma slice_assign_frame : forall (data x : list byte) pos payload,
  (pos + 8 + length payload <= length data)%nat -> length x = length payload ->
  patched_frame data (slice_assign data (pos + 8) (pos + 8 + length payload) x) pos payload.
Proof.
  intros data x pos payload Hb Hx. exists x. unfold slice_assign.
  split; [exact Hx|]. split; [reflexivity|]. split.
  - rewrite !length_app, length_firstn, length_skipn. lia.
  - intros i Hi. destruct Hi as [Hi|Hi].
    + rewrite nth_error_app1 by (rewrite length_firstn; lia).
      rewrite nth_error_firstn. apply Nat.ltb_lt in Hi. rewrite Hi. reflexivity.
    + rewrite nth_error_app2 by (rewrite length_firstn; lia).
      rewrite nth_error_app2 by (rewrite length_firstn; lia).
      rewrite nth_error_skipn, length_firstn. f_equal. lia.
Qed.

Lemma fix_true_body : forall flt delta s0 s',
  Fixer.fix_avi_date_inplace flt delta s0 = (Ok true, s') ->
  exists data, file s0 = Some data /\ Fixer.fix_body flt delta (mkFS (Some data) (Some data)) = (Ok true, s').
Proof.
  intros [fc fr fw fu] delta [f b] s' H.
  unfold Fixer.fix_avi_date_inplace, catch, bind, copy_to_backup, ret in H.
  destruct fc; destruct f as [data|]; simpl in H; try discriminate.
  exists data; split; [reflexivity|].
  destruct (Fixer.fix_body _ delta _) as [[r|e] s1] eqn:E.
  - exact H.
  - unfold Fixer.fix_restore, catch, bind, restore_copy, remove_backup, ret in H.
    destruct (backup s1); simpl in H; discriminate.
Qed.

Lemma mtc_true_body : forall flt ts s0 s',
  MTC.write_avi_metadata_safe_inplace_modify flt false ts s0 = (Ok true, s') ->
  exists data, file s0 = Some data /\ MTC.write_body flt ts (mkFS (Some data) (Some data)) = (Ok true, s').
Proof.
  intros [fc fr fw fu] ts [f b] s' H.
  unfold MTC.write_avi_metadata_safe_inplace_modify, catch, bind, copy_to_backup, ret in H.
  destruct fc; destruct f as [data|]; simpl in H; try discriminate.
  exists data; split; [reflexivity|].
  destruct (MTC.write_body _ ts _) as [[r|e] s1] eqn:E.
  - exact H.
  - unfold MTC.write_restore, catch, bind, restore_copy, remove_backup, backup_exists, ret in H.
    destruct s1 as [f1 [b1|]]; simpl in H; discriminate.
Qed.

(** C2: a successful patch, by either operation, rewrites only the [L]
    payload bytes at [offset + 8] of the chunk it located: the new payload
    has the length of the old one, and every byte outside the window, the
    size field included, is unchanged. *)
Theorem patch_preserves_frame :
  (forall flt delta s0 s',
     Fixer.fix_avi_date_inplace flt delta s0 = (Ok true, s') ->
     exists data pos payload data',
       file s0 = Some data /\ Fixer.find_idit_chunk data = Ok (Some (pos, payload))
       /\ file s' = Some data' /\ patched_frame data data' pos payload) /\
  (forall flt ts s0 s',
     MTC.write_avi_metadata_safe_inplace_modify flt false ts s0 = (Ok true, s') ->
     exists data pos payload data',
       file s0 = Some data /\ MTC._find_idit_chunk data = Ok (Some (pos, payload))
       /\ file s' = Some data' /\ patched_frame data data' pos payload).
Proof.
  split.
  - intros flt delta s0 s' H0.
    destruct (fix_true_body _ _ _ _ H0) as [data [Hf H]].
    destruct flt as [fc fr fw fu].
    unfold Fixer.fix_body, bind, read_file, lift, backup_exists, ret, unlink_backup, write_file in H.
    destruct fr, fw, fu; simpl in H; split_matches H; try discriminate; inj_pairs; try discriminate.
    all: exists data; do 3 eexists; split; [exact Hf|]; split; [eassumption|]; split; [reflexivity|].
    all: apply slice_assign_frame; [apply find_idit_chunk_bound; assumption | apply pad_or_truncate_length].
  - intros flt ts s0 s' H0.
    destruct (mtc_true_body _ _ _ _ H0) as [data [Hf H]].
    destruct flt as [fc fr fw fu].
    unfold MTC.write_body, bind, read_file, lift, backup_exists, ret, unlink_backup, write_file in H.
    destruct fr, fw, fu; simpl in H; split_matches H; try discriminate; inj_pairs; try discriminate.
    all: exists data; do 3 eexists; split; [exact Hf|]; split; [eassumption|]; split; [reflexivity|].
    all: apply slice_assign_frame; [apply mtc_find_idit_chunk_bound; assumption | apply pad_or_truncate_length].
Qed.

(** ** Decimal text and [int] *)

Lemma digit_props : forall k, 0 <= k <= 9 ->
  is_digit (Strftime.digit k) = true /\ digit_val (Strftime.digit k) = k.
Proof.
  intros k Hk.
  assert (exists m, (m < 10)%nat /\ k = Z.of_nat m) as [m [Hm ->]] by (exists (Z.to_nat k); lia).
  do 10 (destruct m as [|m]; [split; reflexivity|]). lia.
Qed.

Lemma digit_not_space : forall c, is_digit c = true -> is_space c = false.
Proof.
  intros c H. unfold is_digit, is_space in *.
  apply andb_true_iff in H as [H1 H2]. apply Z.leb_le in H1, H2.
  apply orb_false_iff; split; apply andb_false_iff; right; apply Z.leb_gt; lia.
Qed.

Lemma digit_lower : forall c, is_digit c = true -> lower_char c = c.
Proof.
  intros c H. unfold is_digit, code, lower_char in *.
  apply andb_true_iff in H as [H1 H2]. apply Z.leb_le in H1, H2.
  destruct ((65 <=? nat_of_ascii c)%nat) eqn:E; [apply Nat.leb_le in E; lia|reflexivity].
Qed.

Lemma digits_value_snoc : forall D c,
  digits_value (D ++ [c]) = digits_value D * 10 + digit_val c.
Proof. intros. unfold digits_value. rewrite fold_left_app. reflexivity. Qed.

Lemma dec_aux_spec : forall f n acc, 0 <= n < 10 ^ Z.of_nat (S f) ->
  exists D, Strftime.dec_aux (S f) n acc = D ++ acc /\ D <> [] /\
    forallb is_digit D = true /\ digits_value D = n.
Proof.
  induction f as [|f IH]; intros n acc Hn;
    cbn [Strftime.dec_aux];
    (destruct (digit_props (n mod 10)) as [Hd Hv]; [pose proof (Z.mod_pos_bound n 10); lia|]);
    destruct (n <? 10) eqn:E.
  1,3: apply Z.ltb_lt in E; exists [Strftime.digit (n mod 10)];
      split; [reflexivity|]; split; [discriminate|]; cbn [forallb]; rewrite Hd; split; [reflexivity|];
      unfold digits_value; cbn [fold_left]; rewrite Hv; rewrite Z.mod_small; lia.
  - apply Z.ltb_ge in E. change (10 ^ Z.of_nat 1) with 10 in Hn. lia.
  - apply Z.ltb_ge in E.
    destruct (IH (n / 10) (Strftime.digit (n mod 10) :: acc)) as [D' [H1 [H2 [H3 H4]]]].
    { split; [apply Z.div_pos; lia|]. apply Z.div_lt_upper_bound; [lia|].
      rewrite (Nat2Z.inj_succ (S f)), Z.pow_succ_r in Hn by lia. lia. }
    exists (D' ++ [Strftime.digit (n mod 10)]).
    change (Strftime.dec_aux (S f) (n / 10) (Strftime.digit (n mod 10) :: acc) =
            D' ++ [Strftime.digit (n mod 10)] ++ acc) in H1.
    rewrite <- app_assoc. split; [exact H1|].
    split; [destruct D'; simpl; discriminate|].
    rewrite forallb_app, H3; cbn [forallb]; rewrite Hd; split; [reflexivity|].
    rewrite digits_value_snoc, H4, Hv. pose proof (Z.div_mod n 10). lia.
Qed.

Lemma dec_spec : forall n, 0 <= n < 10 ^ 20 ->
  Strftime.dec n <> [] /\ forallb is_digit (Strftime.dec n) = true /\
  digits_value (Strftime.dec n) = n.
Proof.
  intros n Hn. unfold Strftime.dec.
  destruct (dec_aux_spec 19 n []) as [D [H1 [H2 [H3 H4]]]]; [exact Hn|].
  rewrite H1, app_nil_r. auto.
Qed.

Lemma drop_while_head_false : forall (p : ascii -> bool) c s, p c = false ->
  drop_while p (c :: s) = c :: s.
Proof. intros p c s H. simpl. rewrite H. reflexivity. Qed.

Lemma strip_ends : forall c s d, is_space c = false -> is_space d = false ->
  strip (c :: s ++ [d]) = c :: s ++ [d].
Proof.
  intros c s d Hc Hd. unfold strip, lstrip_by, rstrip_by.
  rewrite drop_while_head_false by exact Hc.
  assert (E : rev ((c :: s) ++ [d]) = d :: rev (c :: s)) by (rewrite rev_app_distr; reflexivity).
  change (c :: s ++ [d]) with ((c :: s) ++ [d]).
  rewrite E, drop_while_head_false by exact Hd.
  rewrite <- E, rev_involutive. reflexivity.
Qed.

Lemma strip_single : forall c, is_space c = false -> strip [c] = [c].
Proof. intros c H. unfold strip, lstrip_by, rstrip_by. simpl. rewrite H. simpl. rewrite H. reflexivity. Qed.

Lemma strip_nonspace_ends : forall s, s <> [] ->
  (forall c, hd_error s = Some c -> is_space c = false) ->
  (forall c, hd_error (rev s) = Some c -> is_space c = false) ->
  strip s = s.
Proof.
  intros s Hne Hh Hl.
  destruct s as [|c s]; [congruence|].
  destruct (rev s) as [|d r] eqn:Er.
  - apply (f_equal (@rev ascii)) in Er. rewrite rev_involutive in Er. subst s.
    apply strip_single, Hh. reflexivity.
  - assert (s = rev r ++ [d]) as ->.
    { apply (f_equal (@rev ascii)) in Er. rewrite rev_involutive in Er. exact Er. }
    apply strip_ends; [apply Hh; reflexivity|].
    apply Hl. simpl. rewrite rev_app_distr. reflexivity.
Qed.

Lemma strip_digits : forall D, D <> [] -> forallb is_digit D = true -> strip D = D.
Proof.
  intros D Hne H. apply strip_nonspace_ends; [exact Hne| |].
  - intros c Hc. destruct D as [|x D]; [discriminate|]. injection Hc as ->.
    simpl in H. apply andb_true_iff in H as [H _]. apply digit_not_space, H.
  - intros c Hc. apply digit_not_space.
    assert (In c (rev D)) as Hin by (destruct (rev D); [discriminate|injection Hc as ->; left; reflexivity]).
    apply in_rev in Hin. rewrite forallb_forall in H. apply H, Hin.
Qed.

Lemma underscore_ok_digits : forall D, forallb is_digit D = true -> underscore_digits_ok D = true.
Proof.
  induction D as [|c D IH]; intros H; [reflexivity|].
  simpl in H. apply andb_true_iff in H as [H1 H2]. simpl. rewrite H1. apply IH, H2.
Qed.

Lemma filter_all : forall (f : ascii -> bool) l, forallb f l = true -> filter f l = l.
Proof.
  induction l as [|c l IH]; intros H; [reflexivity|].
  simpl in H. apply andb_true_iff in H as [H1 H2]. simpl. rewrite H1, IH by exact H2. reflexivity.
Qed.

Lemma py_int_digits_gen : forall D, D <> [] -> forallb is_digit D = true ->
  py_int D = if (4300 <? length D)%nat then Exc ValueError else Ok (digits_value D).
Proof.
  intros D Hne H. unfold py_int. rewrite strip_digits by assumption.
  destruct D as [|c D']; [congruence|].
  assert (Hc : is_digit c = true) by (simpl in H; apply andb_true_iff in H; apply H).
  destruct (Ascii.eqb_spec c "+"%char) as [->|_]; [discriminate|].
  destruct (Ascii.eqb_spec c "-"%char) as [->|_]; [discriminate|].
  rewrite Hc, underscore_ok_digits by exact H. simpl andb.
  rewrite filter_all by exact H. rewrite Z.mul_1_l. reflexivity.
Qed.

Lemma py_int_digits : forall D, D <> [] -> forallb is_digit D = true -> (length D <= 4300)%nat ->
  py_int D = Ok (digits_value D).
Proof.
  intros D Hne H Hl. rewrite py_int_digits_gen by assumption.
  destruct (4300 <? length D)%nat eqn:L; [apply Nat.ltb_lt in L; lia|reflexivity].
Qed.

Lemma py_int_long : forall D, D <> [] -> forallb is_digit D = true -> (4300 < length D)%nat ->
  py_int D = Exc ValueError.
Proof.
  intros D Hne H Hl. rewrite py_int_digits_gen by assumption.
  destruct (4300 <? length D)%nat eqn:L; [reflexivity|apply Nat.ltb_ge in L; lia].
Qed.

Lemma dec_aux_length : forall f n acc,
  (length (Strftime.dec_aux f n acc) <= f + length acc)%nat.
Proof.
  induction f as [|f IH]; intros n acc; cbn [Strftime.dec_aux]; [lia|].
  destruct (n <? 10); [simpl; lia|].
  specialize (IH (n / 10) (Strftime.digit (n mod 10) :: acc)). simpl in IH |- *. lia.
Qed.

Lemma dec_short : forall n, (length (Strftime.dec n) <= 4300)%nat.
Proof. intros n. unfold Strftime.dec. pose proof (dec_aux_length 20 n []) as H. cbn [length] in H. lia. Qed.

Lemma cls_star_run : forall f D r, forallb f D = true ->
  (forall c, hd_error r = Some c -> f c = false) ->
  exists tl, Strptime.cls_star f (D ++ r) = (tt, r) :: tl.
Proof.
  intros f D r HD Hr. induction D as [|c D IH].
  - destruct r as [|c r]; [exists []; reflexivity|].
    simpl. rewrite (Hr c eq_refl). exists []; reflexivity.
  - simpl in HD. apply andb_true_iff in HD as [H1 H2].
    destruct (IH H2) as [tl Htl]. simpl. rewrite H1, Htl.
    eexists; reflexivity.
Qed.

Lemma firstn_length_app : forall {A} (D r : list A),
  firstn (length (D ++ r) - length r) (D ++ r) = D.
Proof.
  intros A D r. rewrite length_app, Nat.add_sub.
  rewrite firstn_app, Nat.sub_diag, firstn_O, app_nil_r, firstn_all. reflexivity.
Qed.

Lemma capture_run : forall f D r, D <> [] -> forallb f D = true ->
  (forall c, hd_error r = Some c -> f c = false) ->
  exists tl, Strptime.capture (Strptime.cls_plus f) (D ++ r) = (D, r) :: tl.
Proof.
  intros f D r Hne HD Hr. destruct D as [|c D]; [congruence|].
  simpl in HD. apply andb_true_iff in HD as [H1 H2].
  destruct (cls_star_run f D r H2 Hr) as [tl Htl].
  assert (E : Strptime.cls_plus f ((c :: D) ++ r) = (tt, r) :: tl)
    by (simpl; rewrite H1; exact Htl).
  unfold Strptime.capture. rewrite E.
  exists (map (fun ur => (firstn (length ((c :: D) ++ r) - length (snd ur)) ((c :: D) ++ r), snd ur)) tl).
  cbn [map snd]. rewrite (firstn_length_app (c :: D) r). reflexivity.
Qed.

Lemma bind_head : forall {A B} (p : Strptime.parser A) (k : A -> Strptime.parser B) s a r tl b r' tl',
  p s = (a, r) :: tl -> k a r = (b, r') :: tl' ->
  exists tl'', Strptime.bind p k s = (b, r') :: tl''.
Proof.
  intros. unfold Strptime.bind. rewrite H. simpl. rewrite H0. eexists; reflexivity.
Qed.

Lemma alpha_not_digit : forall c, is_alpha c = true -> is_digit c = false.
Proof.
  intros c H. unfold is_alpha, is_digit in *.
  apply orb_true_iff in H as [H|H]; apply andb_true_iff in H as [H1 H2];
  apply Z.leb_le in H1, H2; apply andb_false_iff; right; apply Z.leb_gt; lia.
Qed.

Lemma pair_re_head : forall D u r, D <> [] -> forallb is_digit D = true -> is_alpha u = true ->
  exists tl, MTC.pair_re (D ++ u :: r) = ((D, [u]), r) :: tl.
Proof.
  intros D u r Hne HD Hu.
  destruct (capture_run is_digit D (u :: r) Hne HD) as [tl Htl].
  { intros c Hc. injection Hc as <-. apply alpha_not_digit, Hu. }
  unfold MTC.pair_re. eapply bind_head; [exact Htl|].
  unfold Strptime.bind, Strptime.capture, Strptime.cls. rewrite Hu. simpl.
  replace (match length r with O => S (length r) | S l => (length r - l)%nat end) with 1%nat by (destruct (length r); lia). reflexivity.
Qed.

Lemma findall_aux_nil : forall n, MTC.findall_aux n [] = [].
Proof. destruct n; reflexivity. Qed.

Lemma findall_single : forall D u, D <> [] -> forallb is_digit D = true -> is_alpha u = true ->
  MTC.findall (D ++ [u]) = [(D, [u])].
Proof.
  intros D u Hne HD Hu. unfold MTC.findall.
  destruct (pair_re_head D u [] Hne HD Hu) as [tl Htl].
  destruct D as [|c D]; [congruence|]. simpl length. cbn [MTC.findall_aux].
  rewrite Htl. simpl hd_error. cbv iota beta.
  rewrite findall_aux_nil. reflexivity.
Qed.

Lemma ends_with_snoc : forall c s d, ends_with c (s ++ [d]) = Ascii.eqb c d.
Proof. intros. unfold ends_with. rewrite rev_app_distr. reflexivity. Qed.

Lemma mk_timedelta_ok : forall us, Z.abs us <= MAX_DELTA_DAYS * US_PER_DAY ->
  mk_timedelta us = Ok us.
Proof.
  intros us H. unfold mk_timedelta.
  assert (- MAX_DELTA_DAYS <= us / US_PER_DAY <= MAX_DELTA_DAYS).
  { unfold MAX_DELTA_DAYS, US_PER_DAY in *. split.
    - apply Z.div_le_lower_bound; lia.
    - apply Z.div_le_upper_bound; lia. }
  destruct H0 as [H1 H2]. apply Z.leb_le in H1, H2. rewrite H1, H2. reflexivity.
Qed.

Lemma lower_digits : forall D, forallb is_digit D = true -> lower D = D.
Proof.
  induction D as [|c D IH]; intros H; [reflexivity|].
  simpl in H. apply andb_true_iff in H as [H1 H2].
  unfold lower in *. simpl. rewrite digit_lower, IH; auto.
Qed.

Lemma mk_timedelta_range : forall us,
  mk_timedelta us = if (- MAX_DELTA_DAYS * US_PER_DAY <=? us) && (us <? (MAX_DELTA_DAYS + 1) * US_PER_DAY)
                    then Ok us else Exc OverflowError.
Proof.
  intros us. unfold mk_timedelta.
  assert (Hd : - MAX_DELTA_DAYS <= us / US_PER_DAY <-> - MAX_DELTA_DAYS * US_PER_DAY <= us).
  { unfold MAX_DELTA_DAYS, US_PER_DAY. split; intros H.
    - pose proof (Z.mul_div_le us 86400000000 ltac:(lia)). lia.
    - apply Z.div_le_lower_bound; lia. }
  assert (Hu : us / US_PER_DAY <= MAX_DELTA_DAYS <-> us < (MAX_DELTA_DAYS + 1) * US_PER_DAY).
  { unfold MAX_DELTA_DAYS, US_PER_DAY. split; intros H.
    - pose proof (Z.mod_pos_bound us 86400000000 ltac:(lia)).
      pose proof (Z.div_mod us 86400000000 ltac:(lia)). lia.
    - apply Z.lt_succ_r. apply Z.div_lt_upper_bound; lia. }
  destruct (- MAX_DELTA_DAYS <=? us / US_PER_DAY) eqn:E1;
  destruct (us / US_PER_DAY <=? MAX_DELTA_DAYS) eqn:E2;
  destruct (- MAX_DELTA_DAYS * US_PER_DAY <=? us) eqn:E3;
  destruct (us <? (MAX_DELTA_DAYS + 1) * US_PER_DAY) eqn:E4; try reflexivity;
  rewrite ?Z.leb_le, ?Z.leb_gt, ?Z.ltb_lt, ?Z.ltb_ge in E1, E2, E3, E4; lia.
Qed.

Lemma main_minutes_digits : forall (positive : bool) D, D <> [] -> forallb is_digit D = true ->
  Fixer.main_time_delta ((if positive then "+" else "-")%char :: D ++ ["m"%char])
  = rbind (py_int D) (fun v => mk_timedelta (v * (if positive then 1 else -1) * 60000000)).
Proof.
  intros positive D Hne Hdig. unfold Fixer.main_time_delta.
  destruct positive; cbn [starts_with tl];
    [change (Ascii.eqb "+" "+") with true | change (Ascii.eqb "+" "-") with false;
     change (Ascii.eqb "-" "-") with true]; cbv iota beta;
    rewrite !ends_with_snoc; change (Ascii.eqb "d" "m") with false;
    change (Ascii.eqb "h" "m") with false; change (Ascii.eqb "m" "m") with true;
    cbv iota beta; rewrite removelast_last; reflexivity.
Qed.

Lemma parse_months_digits : forall (positive : bool) D, D <> [] -> forallb is_digit D = true ->
  MTC.parse_time_adjustment ((if positive then "+" else "-")%char :: D ++ ["m"%char])
  = rbind (py_int D) (fun v => mk_timedelta ((if positive then 1 else -1) * v * 30 * US_PER_DAY)).
Proof.
  intros positive D Hne Hdig.
  assert (Hsp : is_space (if positive then "+" else "-")%char = false) by (destruct positive; reflexivity).
  unfold MTC.parse_time_adjustment.
  rewrite strip_ends by (exact Hsp || reflexivity).
  assert (Hlow : lower (D ++ ["m"%char]) = D ++ ["m"%char])
    by (unfold lower; rewrite map_app; fold (lower D); rewrite lower_digits by exact Hdig; reflexivity).
  assert (Hisd : isdigit (D ++ ["m"%char]) = false).
  { assert (forallb is_digit (D ++ ["m"%char]) = false)
      by (rewrite forallb_app; simpl (forallb _ ["m"%char]); apply andb_false_r).
    destruct D as [|c D']; [congruence|]. exact H. }
  destruct positive; cbn [starts_with tl];
    [change (Ascii.eqb "+" "+") with true | change (Ascii.eqb "+" "-") with false;
     change (Ascii.eqb "-" "-") with true]; cbv iota beta; cbn [orb negb];
    rewrite Hisd, Hlow, findall_single by (assumption || reflexivity); cbv iota beta.
  all: cbn [MTC.sum_units]; destruct (py_int D) as [v|e]; cbn [rbind]; [|reflexivity];
    (destruct (list_eq_dec ascii_dec ["m"%char] ["y"%char]) as [E|_]; [discriminate|]);
    (destruct (list_eq_dec ascii_dec ["m"%char] ["m"%char]) as [_|E]; [|congruence]);
    cbn [MTC.sum_units MTC.num_add MTC.num_neg rbind MTC.timedelta_days]; f_equal; ring.
Qed.

(** C10: for 1 <= n <= 33333333, the parser of [main] reads [<sign><n>m]
    as n minutes and [parse_time_adjustment] reads it as n * 30 days, two
    different durations.  For a larger value [parse_time_adjustment]
    raises [OverflowError]; [main] still returns n minutes up to
    n = 1439999998560 (for the sign [+] up to 1439999999999) and raises
    [OverflowError] beyond.  A value of more than 4300 digits makes both
    raise [ValueError]. *)
Theorem minutes_vs_months :
  (forall (positive : bool) n, 1 <= n <= 33333333 ->
   let s := (if positive then "+" else "-")%char :: Strftime.dec n ++ ["m"%char] in
   let sg := if positive then 1 else -1 in
   Fixer.main_time_delta s = Ok (sg * n * 60000000) /\
   MTC.parse_time_adjustment s = Ok (sg * n * 30 * US_PER_DAY) /\
   sg * n * 60000000 <> sg * n * 30 * US_PER_DAY) /\
  (forall (positive : bool) D, D <> [] -> forallb is_digit D = true ->
   33333333 < digits_value D ->
   let s := (if positive then "+" else "-")%char :: D ++ ["m"%char] in
   let n := digits_value D in
   let sg := if positive then 1 else -1 in
   MTC.parse_time_adjustment s
     = Exc (if (4300 <? length D)%nat then ValueError else OverflowError) /\
   Fixer.main_time_delta s
     = if (4300 <? length D)%nat then Exc ValueError
       else if (n <=? 1439999998560) || (positive && (n <? 1440000000000))
       then Ok (sg * n * 60000000) else Exc OverflowError).
Proof.
  split.
  - intros positive n Hn s sg.
    destruct (dec_spec n) as [Hne [Hdig Hval]]; [lia|].
    pose proof (dec_short n) as Hlen.
    set (D := Strftime.dec n) in *.
    assert (Hpy : py_int D = Ok n) by (rewrite py_int_digits by assumption; congruence).
    unfold s. rewrite main_minutes_digits, parse_months_digits by assumption.
    rewrite Hpy. cbn [rbind]. rewrite !mk_timedelta_ok.
    + unfold sg, US_PER_DAY. split; [f_equal; ring|]. split; [reflexivity|]. destruct positive; lia.
    + unfold sg, MAX_DELTA_DAYS, US_PER_DAY. destruct positive; lia.
    + unfold sg, MAX_DELTA_DAYS, US_PER_DAY. destruct positive; lia.
  - intros positive D Hne Hdig Hn s n sg. unfold s.
    rewrite main_minutes_digits, parse_months_digits by assumption.
    destruct (4300 <? length D)%nat eqn:L.
    + apply Nat.ltb_lt in L. rewrite py_int_long by assumption. split; reflexivity.
    + apply Nat.ltb_ge in L. rewrite py_int_digits by assumption. cbn [rbind].
      fold n. rewrite !mk_timedelta_range. unfold sg, MAX_DELTA_DAYS, US_PER_DAY.
      split; destruct positive; z_cmp_cases.
Qed.

(** ** The compiled [strptime] pattern *)

Lemma nonspace_head_app : forall s r, nonspace_head s -> nonspace_head (s ++ r).
Proof. intros [|c s] r H; [contradiction|exact H]. Qed.

Lemma wk_field : forall w, 0 <= w <= 6 ->
  let s := upper (nth (Z.to_nat w) Strftime.weekday_abbr []) in
  (forall r, first_is (Strptime.re_a (s ++ " "%char :: r)) (tt, " "%char :: r)) /\
  Strptime.index Strptime.a_weekday (lower s) = Ok w /\ nonspace_head s.
Proof. intros w Hw. enum_Z w 6%nat enum_tac. Qed.

Lemma mon_field : forall m, 1 <= m <= 12 ->
  let s := upper (nth (Z.to_nat m) Strftime.month_abbr []) in
  (forall r, first_is (Strptime.re_b (s ++ " "%char :: r)) (tt, " "%char :: r)) /\
  Strptime.index Strptime.a_month (lower s) = Ok m /\ nonspace_head s.
Proof. intros m Hm. enum_Z m 12%nat enum_tac. Qed.

Lemma day_field : forall d, 1 <= d <= 31 -> forall r,
  first_is (Strptime.re_d (Strftime.pad2 d ++ " "%char :: r)) (tt, " "%char :: r).
Proof. intros d Hd r. enum_Z d 31%nat enum_tac. Qed.

Lemma hour_field : forall h, 0 <= h <= 23 -> forall r,
  first_is (Strptime.re_H (Strftime.pad2 h ++ ":"%char :: r)) (tt, ":"%char :: r) /\
  first_is (Strptime.re_H (Strftime.dec h ++ ":"%char :: r)) (tt, ":"%char :: r).
Proof. intros h Hh r. enum_Z h 23%nat enum_tac. Qed.

Lemma minute_field : forall h, 0 <= h <= 59 -> forall r,
  first_is (Strptime.re_M (Strftime.pad2 h ++ ":"%char :: r)) (tt, ":"%char :: r) /\
  first_is (Strptime.re_M (Strftime.dec h ++ ":"%char :: r)) (tt, ":"%char :: r).
Proof. intros h Hh r. enum_Z h 59%nat enum_tac. Qed.

Lemma second_field : forall h, 0 <= h <= 59 -> forall r,
  first_is (Strptime.re_S (Strftime.pad2 h ++ " "%char :: r)) (tt, " "%char :: r) /\
  first_is (Strptime.re_S (Strftime.dec h ++ " "%char :: r)) (tt, " "%char :: r).
Proof. intros h Hh r. enum_Z h 59%nat enum_tac. Qed.

Lemma bind_first : forall {A B} (p : Strptime.parser A) (k : A -> Strptime.parser B) s a r y,
  first_is (p s) (a, r) -> first_is (k a r) y -> first_is (Strptime.bind p k s) y.
Proof.
  intros A B p k s a r y [tl H1] [tl' H2]. unfold Strptime.bind, first_is.
  rewrite H1. simpl. rewrite H2. eexists; reflexivity.
Qed.

Lemma capture_first : forall p w r, first_is (p (w ++ r)) (tt, r) ->
  first_is (Strptime.capture p (w ++ r)) (w, r).
Proof.
  intros p w r [tl H]. unfold Strptime.capture, first_is. rewrite H. simpl map.
  rewrite firstn_length_app. eexists; reflexivity.
Qed.

Lemma capture_first_all : forall p w, first_is (p w) (tt, []) ->
  first_is (Strptime.capture p w) (w, []).
Proof.
  intros p w H. rewrite <- (app_nil_r w) in H.
  pose proof (capture_first p w [] H) as H'. rewrite app_nil_r in H'. exact H'.
Qed.

Lemma ws_first : forall r, nonspace_head r ->
  first_is (Strptime.ws_plus (" "%char :: r)) (tt, r).
Proof.
  intros r Hr. unfold Strptime.ws_plus, Strptime.cls_plus.
  change (is_space " ") with true. cbv iota.
  destruct (cls_star_run is_space [] r eq_refl) as [tl H].
  { destruct r as [|c r]; [contradiction|]. intros d E. injection E as <-. exact Hr. }
  exists tl. exact H.
Qed.

Lemma colon_first : forall r, first_is (Strptime.chr ":"%char (":"%char :: r)) (tt, r).
Proof. intros r. exists []. reflexivity. Qed.

Lemma ret_first : forall {A} (a : A) r, first_is (Strptime.ret a r) (a, r).
Proof. intros. exists []. reflexivity. Qed.

Lemma canon_regex_fields : forall wk mon ds hs ms ss ys,
  (forall r, first_is (Strptime.re_a (wk ++ " "%char :: r)) (tt, " "%char :: r)) ->
  (forall r, first_is (Strptime.re_b (mon ++ " "%char :: r)) (tt, " "%char :: r)) ->
  (forall r, first_is (Strptime.re_d (ds ++ " "%char :: r)) (tt, " "%char :: r)) ->
  (forall r, first_is (Strptime.re_H (hs ++ ":"%char :: r)) (tt, ":"%char :: r)) ->
  (forall r, first_is (Strptime.re_M (ms ++ ":"%char :: r)) (tt, ":"%char :: r)) ->
  (forall r, first_is (Strptime.re_S (ss ++ " "%char :: r)) (tt, " "%char :: r)) ->
  first_is (Strptime.re_Y ys) (tt, []) ->
  nonspace_head mon -> nonspace_head ds -> nonspace_head hs -> nonspace_head ys ->
  Strptime.regex_match (canon_fields wk mon ds hs ms ss ys)
  = Some (Strptime.mkFound wk mon ds hs ms ss ys, []).
Proof.
  intros wk mon ds hs ms ss ys Ha Hb Hd HH HM HS HY Nb Nd NH NY.
  assert (first_is (Strptime.canon_regex (canon_fields wk mon ds hs ms ss ys))
            (Strptime.mkFound wk mon ds hs ms ss ys, [])) as [tl E].
  { unfold Strptime.canon_regex, canon_fields.
    eapply bind_first; [apply capture_first, Ha|]; cbv beta.
    eapply bind_first; [apply ws_first, nonspace_head_app, Nb|]; cbv beta.
    eapply bind_first; [apply capture_first, Hb|]; cbv beta.
    eapply bind_first; [apply ws_first, nonspace_head_app, Nd|]; cbv beta.
    eapply bind_first; [apply capture_first, Hd|]; cbv beta.
    eapply bind_first; [apply ws_first, nonspace_head_app, NH|]; cbv beta.
    eapply bind_first; [apply capture_first, HH|]; cbv beta.
    eapply bind_first; [apply colon_first|]; cbv beta.
    eapply bind_first; [apply capture_first, HM|]; cbv beta.
    eapply bind_first; [apply colon_first|]; cbv beta.
    eapply bind_first; [apply capture_first, HS|]; cbv beta.
    eapply bind_first; [apply ws_first, NY|]; cbv beta.
    eapply bind_first; [apply capture_first_all, HY|]; cbv beta.
    apply ret_first. }
  unfold Strptime.regex_match. rewrite E. reflexivity.
Qed.

Lemma pad2_spec : forall n, 0 <= n <= 99 ->
  Strftime.pad2 n <> [] /\ forallb is_digit (Strftime.pad2 n) = true /\
  digits_value (Strftime.pad2 n) = n.
Proof.
  intros n Hn. unfold Strftime.pad2.
  destruct (digit_props (n / 10)) as [A1 A2];
    [split; [apply Z.div_pos; lia|]; cut (n / 10 < 10); [lia|apply Z.div_lt_upper_bound; lia]|].
  destruct (digit_props (n mod 10)) as [B1 B2]; [pose proof (Z.mod_pos_bound n 10); lia|].
  split; [discriminate|]. cbn [forallb]. rewrite A1, B1. split; [reflexivity|].
  unfold digits_value. cbn [fold_left]. rewrite A2, B2. pose proof (Z.div_mod n 10). lia.
Qed.

Lemma digits_nonspace_head : forall D, D <> [] -> forallb is_digit D = true -> nonspace_head D.
Proof.
  intros [|c D] Hne H; [congruence|]. simpl in H. apply andb_true_iff in H as [H _].
  apply digit_not_space, H.
Qed.

Lemma dec4 : forall y, 1000 <= y <= 9999 ->
  Strftime.dec y = [Strftime.digit (y / 1000); Strftime.digit (y / 100 mod 10);
                    Strftime.digit (y / 10 mod 10); Strftime.digit (y mod 10)].
Proof.
  intros y Hy. unfold Strftime.dec. cbn [Strftime.dec_aux].
  assert (E1 : (y <? 10) = false) by (apply Z.ltb_ge; lia).
  assert (E2 : (y / 10 <? 10) = false) by (apply Z.ltb_ge, Z.div_le_lower_bound; lia).
  assert (E3 : (y / 10 / 10 <? 10) = false)
    by (apply Z.ltb_ge; rewrite Z.div_div by lia; apply Z.div_le_lower_bound; lia).
  assert (E4 : (y / 10 / 10 / 10 <? 10) = true)
    by (apply Z.ltb_lt; rewrite !Z.div_div by lia; apply Z.div_lt_upper_bound; lia).
  rewrite E1, E2, E3, E4. rewrite !Z.div_div by lia.
  rewrite (Z.mod_small (y / 1000)) by (split; [apply Z.div_pos|apply Z.div_lt_upper_bound]; lia).
  reflexivity.
Qed.

Lemma year_field : forall y, 1000 <= y <= 9999 ->
  first_is (Strptime.re_Y (Strftime.dec y)) (tt, []).
Proof.
  intros y Hy. rewrite dec4 by exact Hy.
  destruct (digit_props (y / 1000)) as [A _];
    [split; [apply Z.div_pos; lia|]; cut (y / 1000 < 10); [lia|apply Z.div_lt_upper_bound; lia]|].
  destruct (digit_props (y / 100 mod 10)) as [B _]; [pose proof (Z.mod_pos_bound (y / 100) 10); lia|].
  destruct (digit_props (y / 10 mod 10)) as [C _]; [pose proof (Z.mod_pos_bound (y / 10) 10); lia|].
  destruct (digit_props (y mod 10)) as [D _]; [pose proof (Z.mod_pos_bound y 10); lia|].
  exists []. unfold Strptime.re_Y, Strptime.seq, Strptime.bind, Strptime.dgt, Strptime.cls.
  cbn [flat_map fst snd]. rewrite A. cbn [flat_map fst snd app]. rewrite B.
  cbn [flat_map fst snd app]. rewrite C. cbn [flat_map fst snd app]. rewrite D. reflexivity.
Qed.

Lemma strptime_fields : forall wk mon ds hs ms ss ys w y m d h mi s,
  Strptime.regex_match (canon_fields wk mon ds hs ms ss ys)
    = Some (Strptime.mkFound wk mon ds hs ms ss ys, []) ->
  py_int ys = Ok y -> Strptime.index Strptime.a_month (lower mon) = Ok m ->
  py_int ds = Ok d -> py_int hs = Ok h -> py_int ms = Ok mi -> py_int ss = Ok s ->
  Strptime.index Strptime.a_weekday (lower wk) = Ok w ->
  Strptime._strptime_datetime (canon_fields wk mon ds hs ms ss ys)
  = if valid_date y m d then mk_datetime y m d h mi s 0 else Exc ValueError.
Proof.
  intros wk mon ds hs ms ss ys w y m d h mi s HR HY Hm Hd Hh Hmi Hs Hw.
  unfold Strptime._strptime_datetime. rewrite HR.
  cbn [Strptime.f_Y Strptime.f_b Strptime.f_d Strptime.f_H Strptime.f_M Strptime.f_S Strptime.f_a].
  rewrite HY, Hm, Hd, Hh, Hmi, Hs, Hw. reflexivity.
Qed.

Lemma drop_while_nuls : forall k l, drop_while is_nul (repeat NUL k ++ l) = drop_while is_nul l.
Proof. induction k; intros l; [reflexivity|]. simpl. apply IHk. Qed.

Lemma canon_split : forall wk mon ds hs ms ss ys, exists X,
  canon_fields wk mon ds hs ms ss ys = wk ++ X ++ ys.
Proof.
  intros. exists (" "%char :: mon ++ " "%char :: ds ++ " "%char :: hs ++ ":"%char :: ms
                  ++ ":"%char :: ss ++ [" "%char]).
  unfold canon_fields. repeat (rewrite <- app_assoc || rewrite <- app_comm_cons). reflexivity.
Qed.

Lemma digit_not_nul : forall c, is_digit c = true -> is_nul c = false.
Proof.
  intros c H. unfold is_nul. destruct (Ascii.eqb_spec c (ascii_of_nat 0)) as [->|]; [discriminate|reflexivity].
Qed.

Lemma rev_digits_head : forall ys, ys <> [] -> forallb is_digit ys = true ->
  exists d r, rev ys = d :: r /\ is_digit d = true.
Proof.
  intros ys Hne H. destruct (rev ys) as [|d r] eqn:E.
  - apply (f_equal (@rev ascii)) in E. rewrite rev_involutive in E. subst. contradiction.
  - exists d, r. split; [reflexivity|]. rewrite forallb_forall in H. apply H.
    apply in_rev. rewrite E. left. reflexivity.
Qed.

Lemma strip_canon_nuls : forall wk X ys k, nonspace_head wk -> ys <> [] ->
  forallb is_digit ys = true ->
  strip ((wk ++ X ++ ys) ++ repeat NUL k) = (wk ++ X ++ ys) ++ repeat NUL k.
Proof.
  intros wk X ys k Hwk Hne Hd.
  destruct (rev_digits_head ys Hne Hd) as [d [r [Er Hdd]]].
  apply strip_nonspace_ends.
  - destruct wk; [contradiction|discriminate].
  - intros c Hc. destruct wk as [|c' wk]; [contradiction|]. injection Hc as <-. exact Hwk.
  - intros c Hc. rewrite rev_app_distr, rev_repeat in Hc. destruct k as [|k].
    + rewrite app_assoc, rev_app_distr, Er in Hc. injection Hc as <-. apply digit_not_space, Hdd.
    + injection Hc as <-. reflexivity.
Qed.

Lemma clean_canon : forall wk mon ds hs ms ss ys k, nonspace_head wk -> ys <> [] ->
  forallb is_digit ys = true ->
  strip (rstrip_by is_nul (strip (canon_fields wk mon ds hs ms ss ys ++ repeat NUL k)))
  = canon_fields wk mon ds hs ms ss ys.
Proof.
  intros wk mon ds hs ms ss ys k Hwk Hne Hd.
  destruct (canon_split wk mon ds hs ms ss ys) as [X ->].
  rewrite strip_canon_nuls by assumption.
  destruct (rev_digits_head ys Hne Hd) as [d [r [Er Hdd]]].
  unfold rstrip_by at 1. rewrite rev_app_distr, rev_repeat, drop_while_nuls.
  rewrite app_assoc, rev_app_distr, Er. cbn [app].
  rewrite drop_while_head_false by (apply digit_not_nul, Hdd).
  change (d :: r ++ rev (wk ++ X)) with ((d :: r) ++ rev (wk ++ X)).
  rewrite <- Er, <- rev_app_distr, rev_involutive, <- app_assoc.
  pose proof (strip_canon_nuls wk X ys 0 Hwk Hne Hd) as H. simpl repeat in H.
  rewrite app_nil_r in H. exact H.
Qed.

Lemma upper_digits : forall D, forallb is_digit D = true -> map upper_char D = D.
Proof.
  induction D as [|c D IH]; intros H; [reflexivity|].
  simpl in H. apply andb_true_iff in H as [H1 H2]. simpl. rewrite IH by exact H2.
  f_equal. unfold is_digit, code, upper_char in *.
  apply andb_true_iff in H1 as [H1 H3]. apply Z.leb_le in H1, H3.
  destruct ((97 <=? nat_of_ascii c)%nat) eqn:E; [apply Nat.leb_le in E; lia|reflexivity].
Qed.

Lemma days_in_month_le : forall y m, 1 <= m <= 12 -> _days_in_month y m <= 31.
Proof.
  intros y m Hm. unfold _days_in_month.
  enum_Z m 12%nat ltac:(destruct (_is_leap y); cbv; discriminate).
Qed.

Lemma valid_bounds : forall t, valid_datetime t = true ->
  MINYEAR <= year t <= MAXYEAR /\ 1 <= month t <= 12 /\ 1 <= day t <= _days_in_month (year t) (month t) /\
  0 <= hour t <= 23 /\ 0 <= minute t <= 59 /\ 0 <= second t <= 59 /\
  0 <= microsecond t <= 999999.
Proof.
  intros t H. unfold valid_datetime, valid_date, valid_time in H.
  repeat rewrite andb_true_iff in H. repeat rewrite Z.leb_le in H. lia.
Qed.

Lemma format_canon_text : forall t, valid_datetime t = true -> 1000 <= year t <= 9999 ->
  format_canon_date t = canon_text t Strftime.pad2.
Proof.
  intros t Hv Hy. destruct (valid_bounds t Hv) as (Hy' & Hm & Hd & Hh & Hmi & Hs & _).
  pose proof (days_in_month_le (year t) (month t) Hm).
  unfold format_canon_date, Strftime.strftime_canon, canon_text, canon_fields, upper.
  rewrite !map_app. cbn [map]. change (upper_char " ") with " "%char. change (upper_char ":") with ":"%char.
  destruct (pad2_spec (day t)) as (_ & D1 & _); [lia|].
  destruct (pad2_spec (hour t)) as (_ & H1 & _); [lia|].
  destruct (pad2_spec (minute t)) as (_ & M1 & _); [lia|].
  destruct (pad2_spec (second t)) as (_ & S1 & _); [lia|].
  destruct (dec_spec (year t)) as (_ & Y1 & _); [lia|].
  rewrite (upper_digits _ D1), (upper_digits _ H1), (upper_digits _ M1), (upper_digits _ S1),
    (upper_digits _ Y1). reflexivity.
Qed.

Lemma pad2_short : forall n, (length (Strftime.pad2 n) <= 4300)%nat.
Proof. intros n. unfold Strftime.pad2. simpl. lia. Qed.

Lemma digits_py_int : forall D n, D <> [] -> forallb is_digit D = true -> digits_value D = n ->
  (length D <= 4300)%nat -> py_int D = Ok n /\ nonspace_head D.
Proof.
  intros D n Hne Hd Hv Hl. split; [rewrite py_int_digits by assumption; congruence|].
  apply digits_nonspace_head; assumption.
Qed.

Lemma hms_spec : forall (padded : bool) n, 0 <= n <= 59 ->
  let D := (if padded then Strftime.pad2 else Strftime.dec) n in
  py_int D = Ok n /\ nonspace_head D.
Proof.
  intros padded n Hn D. subst D. destruct padded.
  - destruct (pad2_spec n) as (A & B & C); [lia|]. apply digits_py_int; [assumption..|apply pad2_short].
  - destruct (dec_spec n) as (A & B & C); [lia|]. apply digits_py_int; [assumption..|apply dec_short].
Qed.

Lemma weekday_bound : forall t, 0 <= weekday t <= 6.
Proof. intros t. unfold weekday. pose proof (Z.mod_pos_bound (toordinal t + 6) 7). lia. Qed.

Lemma canon_text_parse : forall (padded : bool) t k,
  valid_datetime t = true -> 1000 <= year t <= 9999 -> microsecond t = 0 ->
  parse_canon_date (canon_text t (if padded then Strftime.pad2 else Strftime.dec)
                    ++ repeat NUL k) = Some t.
Proof.
  intros padded t k Hv Hy Hus.
  destruct (valid_bounds t Hv) as (Hy' & Hm & Hd & Hh & Hmi & Hs & _).
  pose proof (days_in_month_le (year t) (month t) Hm) as Hd31.
  destruct (wk_field (weekday t) (weekday_bound t)) as (Wa & Wi & Wn).
  destruct (mon_field (month t) Hm) as (Ma & Mi & Mn).
  destruct (pad2_spec (day t)) as (D0 & D1 & D2); [lia|].
  destruct (digits_py_int _ _ D0 D1 D2 (pad2_short _)) as [Dp Dn].
  destruct (dec_spec (year t)) as (Y0 & Y1 & Y2); [lia|].
  destruct (digits_py_int _ _ Y0 Y1 Y2 (dec_short _)) as [Yp Yn].
  destruct (hms_spec padded (hour t)) as [Hp Hn]; [lia|].
  destruct (hms_spec padded (minute t)) as [Mip Min]; [lia|].
  destruct (hms_spec padded (second t)) as [Sp Sn]; [lia|].
  unfold parse_canon_date, canon_text.
  rewrite clean_canon by assumption.
  erewrite strptime_fields; [| | exact Yp | exact Mi | exact Dp | exact Hp | exact Mip | exact Sp | exact Wi].
  - assert (Hvd : valid_date (year t) (month t) (day t) = true)
      by (unfold valid_datetime in Hv; apply andb_true_iff in Hv; apply Hv).
    assert (Hvt : valid_time (hour t) (minute t) (second t) 0 = true)
      by (unfold valid_datetime in Hv; apply andb_true_iff in Hv; rewrite <- Hus; apply Hv).
    rewrite Hvd. unfold mk_datetime. rewrite Hvd, Hvt. cbn -[Z.of_nat].
    destruct t; cbn in Hus |- *; subst; reflexivity.
  - apply canon_regex_fields; try assumption.
    + intros r. apply day_field. lia.
    + intros r. destruct padded; apply (hour_field (hour t) Hh r).
    + intros r. destruct padded; apply (minute_field (minute t) Hmi r).
    + intros r. destruct padded; apply (second_field (second t) Hs r).
    + apply year_field, Hy.
Qed.

(** ** The proleptic Gregorian calendar *)

Lemma ord2ymd_split : forall n0, _ord2ymd n0 =
  let n := n0 - 1 in
  let n400 := n / _DI400Y in let n := n mod _DI400Y in
  let year := n400 * 400 + 1 in
  let n100 := n / _DI100Y in let n := n mod _DI100Y in
  let n4 := n / _DI4Y in let n := n mod _DI4Y in
  let n1 := n / 365 in let n := n mod 365 in
  let year := year + n100 * 100 + n4 * 4 + n1 in
  if (n1 =? 4) || (n100 =? 4) then (year - 1, 12, 31)
  else _ord2ymd_month year n ((n1 =? 3) && (negb (n4 =? 24) || (n100 =? 3))).
Proof. reflexivity. Qed.

Lemma month_fragment : forall (L : bool) m d year, 1 <= m <= 12 ->
  1 <= d <= (if (m =? 2) && L then 29 else at_ _DAYS_IN_MONTH m) ->
  _ord2ymd_month year (at_ _DAYS_BEFORE_MONTH m + (if (m >? 2) && L then 1 else 0) + d - 1) L
  = (year, m, d).
Proof.
  intros L m d year Hm Hd.
  remember (if (m =? 2) && L then 29 else at_ _DAYS_IN_MONTH m) as D eqn:ED.
  destruct L; enum_Z m 12%nat ltac:(vm_compute in ED; subst D;
    enum_Z d 31%nat ltac:(cbv; reflexivity)).
Qed.

Lemma dbm_bounds : forall (L : bool) m d, 1 <= m <= 12 ->
  1 <= d <= (if (m =? 2) && L then 29 else at_ _DAYS_IN_MONTH m) ->
  let r := at_ _DAYS_BEFORE_MONTH m + (if (m >? 2) && L then 1 else 0) + d - 1 in
  0 <= r /\ r <= (if L then 365 else 364) /\ (r = 365 -> m = 12 /\ d = 31).
Proof.
  intros L m d Hm Hd r. subst r.
  remember (if (m =? 2) && L then 29 else at_ _DAYS_IN_MONTH m) as D eqn:ED.
  remember (at_ _DAYS_BEFORE_MONTH m + (if (m >? 2) && L then 1 else 0)) as B eqn:EB.
  destruct L; enum_Z m 12%nat ltac:(vm_compute in ED, EB; subst D B; lia).
Qed.

Lemma leap_decomp : forall a c b e, 0 <= a -> 0 <= c <= 3 -> 0 <= b <= 24 -> 0 <= e <= 3 ->
  _is_leap (400 * a + 100 * c + 4 * b + e + 1) = (e =? 3) && (negb (b =? 24) || (c =? 3)).
Proof.
  intros a c b e Ha Hc Hb He. unfold _is_leap.
  set (X := 100 * c + 4 * b + e + 1).
  assert (M4 : (400 * a + 100 * c + 4 * b + e + 1) mod 4 = X mod 4)
    by (rewrite <- (Z_mod_plus_full X (100 * a) 4); f_equal; unfold X; ring).
  assert (M100 : (400 * a + 100 * c + 4 * b + e + 1) mod 100 = X mod 100)
    by (rewrite <- (Z_mod_plus_full X (4 * a) 100); f_equal; unfold X; ring).
  assert (M400 : (400 * a + 100 * c + 4 * b + e + 1) mod 400 = X mod 400)
    by (rewrite <- (Z_mod_plus_full X a 400); f_equal; unfold X; ring).
  rewrite M4, M100, M400. unfold X. clear M4 M100 M400 X.
  assert (c = 0 \/ c = 1 \/ c = 2 \/ c = 3) as Hc2 by lia.
  assert (e = 0 \/ e = 1 \/ e = 2 \/ e = 3) as He2 by lia.
  destruct Hc2 as [ -> | [ -> | [ -> | -> ] ] ]; destruct He2 as [ -> | [ -> | [ -> | -> ] ] ];
  repeat match goal with |- context [?x =? ?y] => destruct (Z.eqb_spec x y) end;
    cbn [andb orb negb]; try reflexivity; exfalso; Z.div_mod_to_equations; lia.
Qed.

Lemma dby_decomp : forall a c b e, 0 <= a -> 0 <= c <= 3 -> 0 <= b <= 24 -> 0 <= e <= 3 ->
  _days_before_year (400 * a + 100 * c + 4 * b + e + 1) = 146097 * a + 36524 * c + 1461 * b + 365 * e.
Proof. intros. unfold _days_before_year. Z.div_mod_to_equations. lia. Qed.

Lemma dmd : forall k q x, 0 <= x < k -> (k * q + x) / k = q /\ (k * q + x) mod k = x.
Proof.
  intros k q x H. split.
  - symmetry. apply Z.div_unique with x; [left; lia|ring].
  - symmetry. apply Z.mod_unique with q; [left; lia|ring].
Qed.

Ltac dm k q x :=
  let H := fresh in
  assert (H : 0 <= x < k) by (unfold _DI400Y, _DI100Y, _DI4Y in *; lia);
  rewrite (proj1 (dmd k q x H)), (proj2 (dmd k q x H)); clear H.

Lemma valid_date_decomp : forall y m d, valid_date y m d = true ->
  exists a c b e, y = 400 * a + 100 * c + 4 * b + e + 1 /\ 0 <= a /\ 0 <= c <= 3 /\
    0 <= b <= 24 /\ 0 <= e <= 3 /\ 1 <= m <= 12 /\
    1 <= d <= (if (m =? 2) && _is_leap y then 29 else at_ _DAYS_IN_MONTH m) /\ y <= 9999.
Proof.
  intros y m d Hv. unfold valid_date, _days_in_month, MINYEAR, MAXYEAR in Hv.
  repeat rewrite andb_true_iff in Hv. repeat rewrite Z.leb_le in Hv.
  exists ((y - 1) / 400), ((y - 1) mod 400 / 100), ((y - 1) mod 100 / 4), ((y - 1) mod 4).
  split; [|split; [|split; [|split; [|split]]]]; try (Z.div_mod_to_equations; lia).
Qed.

Lemma ord2ymd_ymd2ord : forall y m d, valid_date y m d = true ->
  _ord2ymd (_ymd2ord y m d) = (y, m, d).
Proof.
  intros y m d Hv.
  destruct (valid_date_decomp y m d Hv) as (a & c & b & e & Ey & Ha & Hc & Hb & He & Hm & Hd & Hy).
  pose proof (dbm_bounds (_is_leap y) m d Hm Hd) as (R0 & R1 & R2).
  pose proof (leap_decomp a c b e Ha Hc Hb He) as HL. rewrite <- Ey in HL.
  unfold _ymd2ord, _days_before_month. rewrite Ey at 1. rewrite dby_decomp by assumption.
  set (r := at_ _DAYS_BEFORE_MONTH m + (if (m >? 2) && _is_leap y then 1 else 0) + d - 1) in *.
  rewrite ord2ymd_split. cbv zeta.
  replace (146097 * a + 36524 * c + 1461 * b + 365 * e +
      (at_ _DAYS_BEFORE_MONTH m + (if (m >? 2) && _is_leap y then 1 else 0)) + d - 1)
    with (_DI400Y * a + (_DI100Y * c + (_DI4Y * b + (365 * e + r))))
    by (unfold r, _DI400Y, _DI100Y, _DI4Y; ring).
  destruct (Z.eq_dec r 365) as [E|E].
  - destruct (R2 E) as [-> ->].
    destruct (_is_leap y) eqn:EL; [|lia].
    symmetry in HL. apply andb_true_iff in HL as [He3 HL]. apply Z.eqb_eq in He3. subst e.
    rewrite E.
    destruct (Z.eq_dec c 3) as [->|Hc3]; [destruct (Z.eq_dec b 24) as [->|Hb24]|].
    + dm _DI400Y a (_DI100Y * 3 + (_DI4Y * 24 + (365 * 3 + 365))).
      change (_DI100Y * 3 + (_DI4Y * 24 + (365 * 3 + 365))) with (_DI100Y * 4 + 0).
      dm _DI100Y 4 0. cbn. f_equal. f_equal. lia.
    + dm _DI400Y a (_DI100Y * 3 + (_DI4Y * b + (365 * 3 + 365))).
      dm _DI100Y 3 (_DI4Y * b + (365 * 3 + 365)).
      dm _DI4Y b (365 * 3 + 365).
      change (365 * 3 + 365) with (365 * 4 + 0). dm 365 4 0. cbn. f_equal. f_equal. lia.
    + assert (b <> 24) by (destruct (Z.eqb_spec b 24), (Z.eqb_spec c 3); cbn in HL; congruence || lia).
      dm _DI400Y a (_DI100Y * c + (_DI4Y * b + (365 * 3 + 365))).
      dm _DI100Y c (_DI4Y * b + (365 * 3 + 365)).
      dm _DI4Y b (365 * 3 + 365).
      change (365 * 3 + 365) with (365 * 4 + 0). dm 365 4 0. cbn. f_equal. f_equal. lia.
  - assert (r <= 364) by (destruct (_is_leap y); lia).
    dm _DI400Y a (_DI100Y * c + (_DI4Y * b + (365 * e + r))).
    dm _DI100Y c (_DI4Y * b + (365 * e + r)).
    dm _DI4Y b (365 * e + r).
    dm 365 e r.
    rewrite (proj2 (Z.eqb_neq e 4)) by lia. rewrite (proj2 (Z.eqb_neq c 4)) by lia.
    cbn [orb]. rewrite <- HL. unfold r. rewrite month_fragment by assumption.
    f_equal. f_equal. lia.
Qed.

Lemma ymd2ord_bounds : forall y m d, valid_date y m d = true ->
  1 <= _ymd2ord y m d <= MAXORDINAL.
Proof.
  intros y m d Hv.
  destruct (valid_date_decomp y m d Hv) as (a & c & b & e & Ey & Ha & Hc & Hb & He & Hm & Hd & Hy).
  pose proof (dbm_bounds (_is_leap y) m d Hm Hd) as (R0 & R1 & R2).
  pose proof (leap_decomp a c b e Ha Hc Hb He) as HL. rewrite <- Ey in HL.
  assert (Hdby : _days_before_year y = 146097 * a + 36524 * c + 1461 * b + 365 * e)
    by (rewrite Ey; apply dby_decomp; assumption).
  unfold _ymd2ord, _days_before_month. rewrite Hdby. unfold MAXORDINAL.
  assert (a <= 23 \/ (a = 24 /\ c <= 2) \/ (a = 24 /\ c = 3 /\ b <= 23) \/ (a = 24 /\ c = 3 /\ b = 24))
    as [Ha24 | [[-> Hc2] | [(-> & -> & Hb23) | (-> & -> & ->)]]] by lia;
  (destruct (_is_leap y);
   [symmetry in HL; apply andb_true_iff in HL as [He3 _]; apply Z.eqb_eq in He3; subst e; lia | lia]).
Qed.

Lemma dt_add_zero : forall t, valid_datetime t = true -> dt_add t 0 = Ok t.
Proof.
  intros t Hv.
  destruct (valid_bounds t Hv) as (Hy & Hm & Hd & Hh & Hmi & Hs & Hus).
  assert (Hvd : valid_date (year t) (month t) (day t) = true)
    by (unfold valid_datetime in Hv; apply andb_true_iff in Hv; apply Hv).
  pose proof (ymd2ord_bounds _ _ _ Hvd) as Ho. unfold MAXORDINAL in Ho.
  unfold dt_add. fold (toordinal t) in *.
  set (o := toordinal t) in *.
  set (S := hour t * 3600 + minute t * 60 + second t).
  assert (HS : 0 <= S < 86400) by (unfold S; lia).
  rewrite mk_timedelta_ok by (unfold MAX_DELTA_DAYS, US_PER_DAY; lia). cbn [rbind].
  rewrite Z.add_0_r, mk_timedelta_ok by (unfold MAX_DELTA_DAYS, US_PER_DAY; lia). cbn [rbind].
  replace (o * US_PER_DAY + (S * 1000000 + microsecond t))
    with (US_PER_DAY * o + (S * 1000000 + microsecond t)) by ring.
  unfold td_seconds, td_days, td_microseconds.
  assert (D1 := dmd US_PER_DAY o (S * 1000000 + microsecond t) ltac:(unfold US_PER_DAY; lia)).
  rewrite (proj1 D1), (proj2 D1).
  replace (S * 1000000 + microsecond t) with (1000000 * S + microsecond t) by ring.
  assert (D2 := dmd 1000000 S (microsecond t) ltac:(lia)).
  rewrite (proj1 D2).
  replace (US_PER_DAY * o + (1000000 * S + microsecond t))
    with (1000000 * (86400 * o + S) + microsecond t) by (unfold US_PER_DAY; ring).
  assert (D3 := dmd 1000000 (86400 * o + S) (microsecond t) ltac:(lia)).
  rewrite (proj2 D3).
  replace S with (3600 * hour t + (60 * minute t + second t)) by (unfold S; ring).
  assert (D4 := dmd 3600 (hour t) (60 * minute t + second t) ltac:(lia)).
  rewrite (proj1 D4), (proj2 D4).
  assert (D5 := dmd 60 (minute t) (second t) ltac:(lia)).
  rewrite (proj1 D5), (proj2 D5).
  assert (E1 : (0 <? o) = true) by (apply Z.ltb_lt; lia).
  assert (E2 : (o <=? MAXORDINAL) = true) by (apply Z.leb_le; unfold MAXORDINAL; lia).
  rewrite E1, E2. unfold o, toordinal. rewrite ord2ymd_ymd2ord by exact Hvd.
  destruct t; reflexivity.
Qed.

(** ** Zero-delta patches (C8) *)

Lemma to_nat_byte_of_ascii : forall c, Byte.to_nat (byte_of_ascii c) = nat_of_ascii c.
Proof. intros [[] [] [] [] [] [] [] []]; reflexivity. Qed.

Lemma decode_encode_nuls : forall s k, ascii_ok s = true ->
  decode_ascii_ignore (map byte_of_ascii s ++ repeat x00 k) = s ++ repeat NUL k.
Proof.
  intros s k H. unfold decode_ascii_ignore. rewrite filter_app, map_app. f_equal.
  - induction s as [|c s IH]; [reflexivity|].
    simpl in H. apply andb_true_iff in H as [H1 H2]. simpl.
    rewrite to_nat_byte_of_ascii, H1. simpl. rewrite ascii_of_byte_of_ascii, IH by exact H2. reflexivity.
  - induction k as [|k IH]; [reflexivity|]. simpl. rewrite IH. reflexivity.
Qed.

Lemma encode_ok : forall s, ascii_ok s = true -> encode_ascii s = Ok (map byte_of_ascii s).
Proof. intros s H. unfold encode_ascii. fold (ascii_ok s). rewrite H. reflexivity. Qed.

Lemma pad_or_truncate_nuls : forall b k,
  pad_or_truncate b (length (b ++ repeat x00 k)) = b ++ repeat x00 k.
Proof.
  intros b k. unfold pad_or_truncate. rewrite length_app, repeat_length.
  destruct k as [|k].
  - rewrite Nat.add_0_r, Nat.ltb_irrefl, app_nil_r. reflexivity.
  - rewrite (proj2 (Nat.ltb_lt _ _)) by lia. f_equal. f_equal. lia.
Qed.

Lemma digits_ascii_ok : forall D, forallb is_digit D = true -> ascii_ok D = true.
Proof.
  induction D as [|c D IH]; intros H; [reflexivity|].
  simpl in H. apply andb_true_iff in H as [H1 H2]. simpl. rewrite IH by exact H2.
  unfold is_digit, code in H1. apply andb_true_iff in H1 as [_ H1]. apply Z.leb_le in H1.
  rewrite andb_true_r. apply Nat.ltb_lt. lia.
Qed.

Lemma format_ascii_ok : forall t, valid_datetime t = true -> 1000 <= year t <= 9999 ->
  ascii_ok (format_canon_date t) = true.
Proof.
  intros t Hv Hy. rewrite format_canon_text by assumption.
  destruct (valid_bounds t Hv) as (Hy' & Hm & Hd & Hh & Hmi & Hs & _).
  pose proof (days_in_month_le (year t) (month t) Hm).
  assert (Hw : ascii_ok (upper (nth (Z.to_nat (weekday t)) Strftime.weekday_abbr [])) = true).
  { pose proof (weekday_bound t) as Hwb. remember (weekday t) as w eqn:Ew. clear Ew.
    enum_Z w 6%nat ltac:(reflexivity). }
  assert (Hmo : ascii_ok (upper (nth (Z.to_nat (month t)) Strftime.month_abbr [])) = true).
  { remember (month t) as m eqn:Em. clear Em. enum_Z m 12%nat ltac:(reflexivity). }
  destruct (pad2_spec (day t)) as (_ & D1 & _); [lia|].
  destruct (pad2_spec (hour t)) as (_ & H1 & _); [lia|].
  destruct (pad2_spec (minute t)) as (_ & M1 & _); [lia|].
  destruct (pad2_spec (second t)) as (_ & S1 & _); [lia|].
  destruct (dec_spec (year t)) as (_ & Y1 & _); [lia|].
  apply digits_ascii_ok in D1, H1, M1, S1, Y1.
  unfold canon_text, canon_fields. unfold ascii_ok in *.
  repeat (rewrite forallb_app || cbn [forallb]).
  rewrite Hw, Hmo, D1, H1, M1, S1, Y1. reflexivity.
Qed.

Lemma find_idit_chunk_window : forall data pos payload,
  find_idit_chunk data = Ok (Some (pos, payload)) ->
  slice data (pos + 8) (pos + 8 + length payload) = payload /\
  (pos + 8 + length payload <= length data)%nat.
Proof.
  intros data pos payload H. unfold find_idit_chunk in H.
  destruct (find_sub IDIT data) as [p|]; [|discriminate].
  destruct (length data <=? p + 4)%nat eqn:E1; [discriminate|].
  destruct (negb (length (slice data (p + 4) (p + 8)) =? 4)%nat); [discriminate|].
  destruct (unpack_le32 (slice data (p + 4) (p + 8))) as [cs|]; simpl in H; [|discriminate].
  destruct (length data <? p + 8 + Z.to_nat cs)%nat eqn:E2; [discriminate|].
  injection H as <- <-. apply Nat.ltb_ge in E2.
  assert (HL : length (slice data (p + 8) (p + 8 + Z.to_nat cs)) = Z.to_nat cs)
    by (unfold slice; rewrite length_firstn, length_skipn; lia).
  rewrite HL. split; [reflexivity|lia].
Qed.

Lemma slice_assign_self : forall {A} (l : list A) a b, (a <= b <= length l)%nat ->
  slice_assign l a b (slice l a b) = l.
Proof.
  intros A l a b H. unfold slice_assign, slice.
  rewrite <- (firstn_skipn a l) at 4. f_equal.
  rewrite <- (firstn_skipn (b - a) (skipn a l)) at 2. f_equal.
  rewrite skipn_skipn. f_equal. lia.
Qed.

Lemma bind_ok : forall {A B} (m : M A) (k : A -> M B) s a s',
  m s = (Ok a, s') -> bind m k s = k a s'.
Proof. intros. unfold bind. rewrite H. reflexivity. Qed.

Lemma catch_ok : forall {A} (m : M A) h s a s', m s = (Ok a, s') -> catch m h s = (Ok a, s').
Proof. intros. unfold catch. rewrite H. reflexivity. Qed.


(** ** Errors of [parse_time_adjustment] (C7) *)

Lemma cls_star_in : forall f s x, In x (Strptime.cls_star f s) ->
  exists D, forallb f D = true /\ s = D ++ snd x.
Proof.
  intros f s. induction s as [|c s IH]; intros x Hx.
  - destruct Hx as [<-|[]]. exists []. split; reflexivity.
  - simpl in Hx. destruct (f c) eqn:Hc.
    + apply in_app_or in Hx as [Hx|[<-|[]]].
      * destruct (IH x Hx) as [D [HD ->]]. exists (c :: D). simpl. rewrite Hc, HD. split; reflexivity.
      * exists []. split; reflexivity.
    + destruct Hx as [<-|[]]. exists []. split; reflexivity.
Qed.

Lemma cls_plus_in : forall f s x, In x (Strptime.cls_plus f s) ->
  exists D, D <> [] /\ forallb f D = true /\ s = D ++ snd x.
Proof.
  intros f [|c s] x Hx; [destruct Hx|]. simpl in Hx.
  destruct (f c) eqn:Hc; [|destruct Hx].
  destruct (cls_star_in f s x Hx) as [D [HD ->]].
  exists (c :: D). split; [discriminate|]. simpl. rewrite Hc, HD. split; reflexivity.
Qed.

Lemma cls_in : forall f s x, In x (Strptime.cls f s) ->
  exists c, f c = true /\ s = [c] ++ snd x.
Proof.
  intros f [|c s] x Hx; [destruct Hx|]. simpl in Hx.
  destruct (f c) eqn:Hc; [|destruct Hx]. destruct Hx as [<-|[]].
  exists c. split; [exact Hc|reflexivity].
Qed.

Lemma capture_in : forall (p : Strptime.parser unit) (P : list ascii -> Prop) s y,
  (forall x, In x (p s) -> exists D, P D /\ s = D ++ snd x) ->
  In y (Strptime.capture p s) -> P (fst y) /\ s = fst y ++ snd y.
Proof.
  intros p P s y Hp Hy. unfold Strptime.capture in Hy.
  apply in_map_iff in Hy as [x [<- Hx]].
  destruct (Hp x Hx) as [D [HD Hs]]. simpl.
  assert (E : firstn (length s - length (snd x)) s = D) by (rewrite Hs; apply firstn_length_app).
  rewrite E. split; assumption.
Qed.

Lemma pair_re_in : forall s m r, In (m, r) (MTC.pair_re s) ->
  unit_pair m /\ s = fst m ++ snd m ++ r.
Proof.
  intros s m r H. unfold MTC.pair_re, Strptime.bind in H.
  apply in_flat_map in H as [[v r1] [Hv H]].
  apply in_flat_map in H as [[u r2] [Hu H]].
  simpl in H. destruct H as [H|[]]. injection H as <- <-.
  assert (H1 : forall x, In x (Strptime.cls_plus is_digit s) ->
            exists D, (D <> [] /\ forallb is_digit D = true) /\ s = D ++ snd x).
  { intros x Hx. destruct (cls_plus_in is_digit s x Hx) as [D [Ha [Hb Hc]]]. exists D. auto. }
  destruct (capture_in _ _ _ _ H1 Hv) as [[Hne HD] Hs].
  assert (H2 : forall x, In x (Strptime.cls is_alpha r1) ->
            exists D, (exists c, D = [c] /\ is_alpha c = true) /\ r1 = D ++ snd x).
  { intros x Hx. destruct (cls_in is_alpha r1 x Hx) as [c [Hc E]]. exists [c]. eauto. }
  destruct (capture_in _ _ _ _ H2 Hu) as [Hc Hr1].
  simpl in *. split.
  - split; [exact Hne|]. split; [exact HD|exact Hc].
  - rewrite Hs, Hr1. reflexivity.
Qed.











(** ** Floats of [parse_time_adjustment] *)















(** An hour count goes through a float: [1000000 + 1/24] days is rounded
    to a float before the conversion to microseconds, as in CPython. *)
Lemma hours_through_float :
  MTC.parse_time_adjustment (ascii_s "+1000000d 1h") = Ok 86400003599999997 /\
  MTC.parse_time_adjustment (ascii_s "-1000000d 1h") = Ok (-86400003599999997).
Proof. split; vm_compute; reflexivity. Qed.

(** ** Decode failures and short size fields (C3, C4) *)

Lemma find_idit_chunk_agree : forall data x,
  find_idit_chunk data = Ok (Some x) -> MTC._find_idit_chunk data = Ok (Some x).
Proof.
  intros data x H. unfold find_idit_chunk in H. unfold MTC._find_idit_chunk.
  destruct (find_sub IDIT data) as [p|]; [|discriminate].
  destruct (length data <=? p + 4)%nat; [discriminate|].
  destruct (negb _); [discriminate|]. exact H.
Qed.

Lemma unpack_le32_len : forall b, length b <> 4%nat -> unpack_le32 b = Exc StructError.
Proof.
  intros b H. destruct b as [|b0 [|b1 [|b2 [|b3 [|b4 b]]]]]; simpl in *; try reflexivity; lia.
Qed.

(** C3: when the chunk is found but its payload does not decode, both
    operations return [False] with the file untouched;
    [write_avi_metadata_safe_inplace_modify] removes its backup, but
    [fix_avi_date_inplace] returns without removing it. *)
Theorem decode_failure_backup : forall flt delta ts data bk pos payload,
  f_copy flt = false -> f_read flt = false ->
  find_idit_chunk data = Ok (Some (pos, payload)) ->
  parse_canon_date (decode_ascii_ignore payload) = None ->
  Fixer.fix_avi_date_inplace flt delta (mkFS (Some data) bk) = (Ok false, mkFS (Some data) (Some data)) /\
  MTC.write_avi_metadata_safe_inplace_modify flt false ts (mkFS (Some data) bk)
  = (Ok false, mkFS (Some data) None).
Proof.
  intros [fc fr fw fu] delta ts data bk pos payload Hc Hr Hf Hp. simpl in Hc, Hr. subst fc fr.
  pose proof (find_idit_chunk_agree _ _ Hf) as Hm.
  split.
  - unfold Fixer.fix_avi_date_inplace.
    erewrite bind_ok by reflexivity. cbn [negb].
    apply catch_ok. unfold Fixer.fix_body.
    erewrite bind_ok by reflexivity.
    erewrite bind_ok by (unfold lift, Fixer.find_idit_chunk; rewrite Hf; reflexivity).
    cbv iota beta. unfold Fixer.parse_canon_date. rewrite Hp. reflexivity.
  - unfold MTC.write_avi_metadata_safe_inplace_modify. cbv iota.
    apply catch_ok. erewrite bind_ok by reflexivity.
    assert (Hb : MTC.write_body (mkFaults false false fw fu) ts (mkFS (Some data) (Some data))
               = if fu then (Exc OSError, mkFS (Some data) (Some data))
                 else (Ok false, mkFS (Some data) None)).
    { unfold MTC.write_body. erewrite bind_ok by reflexivity.
      erewrite bind_ok by (unfold lift; rewrite Hm; reflexivity). cbv iota beta.
      unfold MTC._parse_canon_date. rewrite Hp. destruct fu; reflexivity. }
    unfold catch. rewrite Hb. destruct fu; reflexivity.
Qed.

Lemma decode_failure_backup_witness :
  find_idit_chunk sample_avi_bad_date = Ok (Some (16%nat, list_byte_of_string "JUNK")) /\
  Fixer.fix_avi_date_inplace no_faults 0 (mkFS (Some sample_avi_bad_date) None)
  = (Ok false, mkFS (Some sample_avi_bad_date) (Some sample_avi_bad_date)).
Proof.
  split; [vm_compute; reflexivity|].
  apply (decode_failure_backup no_faults 0 (mkDT 2006 8 28 14 14 28 0) sample_avi_bad_date None
           16 (list_byte_of_string "JUNK")); vm_compute; reflexivity.
Defined.

(** C4: when the first [IDIT] has fewer than 4 bytes after it,
    [find_idit_chunk] returns [(None, None)]; [_find_idit_chunk] returns
    [(None, None)] only when no byte follows the tag, and raises
    [struct.error] when 1 to 3 bytes follow. *)
Theorem short_size_field : forall data pos,
  find_sub IDIT data = Some pos -> (length data < pos + 8)%nat ->
  find_idit_chunk data = Ok None /\
  MTC._find_idit_chunk data = (if (length data <=? pos + 4)%nat then Ok None else Exc StructError).
Proof.
  intros data pos Hs Hl. unfold find_idit_chunk, MTC._find_idit_chunk. rewrite Hs.
  destruct (length data <=? pos + 4)%nat eqn:E; [split; reflexivity|].
  apply Nat.leb_gt in E.
  assert (HL : length (slice data (pos + 4) (pos + 8)) = (length data - (pos + 4))%nat)
    by (unfold slice; rewrite length_firstn, length_skipn; lia).
  rewrite HL. split.
  - replace (length data - (pos + 4) =? 4)%nat with false by (symmetry; apply Nat.eqb_neq; lia).
    reflexivity.
  - rewrite unpack_le32_len by (rewrite HL; lia). reflexivity.
Qed.

Lemma short_size_field_witness :
  find_sub IDIT (list_byte_of_string "xxIDIT12") = Some 2%nat /\
  find_idit_chunk (list_byte_of_string "xxIDIT12") = Ok None /\
  MTC._find_idit_chunk (list_byte_of_string "xxIDIT12") = Exc StructError.
Proof.
  split; [reflexivity|].
  apply (short_size_field (list_byte_of_string "xxIDIT12") 2); [reflexivity|simpl; lia].
Defined.

(** ** Round trip of the date text (C5, C9) *)

(** C5: for every datetime of year 1000 to 9999 without microseconds,
    decoding its encoding gives it back. *)
Theorem canon_date_roundtrip : forall t,
  valid_datetime t = true -> 1000 <= year t <= 9999 -> microsecond t = 0 ->
  parse_canon_date (format_canon_date t) = Some t.
Proof.
  intros t Hv Hy Hus. rewrite format_canon_text by assumption.
  pose proof (canon_text_parse true t 0 Hv Hy Hus) as H.
  rewrite app_nil_r in H. exact H.
Qed.

Lemma canon_date_roundtrip_witness :
  parse_canon_date (format_canon_date (mkDT 2006 8 28 14 14 28 0)) = Some (mkDT 2006 8 28 14 14 28 0).
Proof. apply canon_date_roundtrip; [reflexivity | simpl; lia | reflexivity]. Defined.

Lemma drop_while_snoc : forall (p : ascii -> bool) l c, p c = false ->
  drop_while p (l ++ [c]) = drop_while p l ++ [c].
Proof.
  intros p l c Hc. induction l as [|x l IH]; simpl; [rewrite Hc; reflexivity|].
  destruct (p x); [exact IH|reflexivity].
Qed.

Lemma strip_cons_nonspace : forall c r, is_space c = false ->
  strip (c :: r) = c :: rstrip_by is_space r.
Proof.
  intros c r Hc. unfold strip, lstrip_by, rstrip_by.
  rewrite drop_while_head_false by exact Hc. cbn [rev].
  rewrite drop_while_snoc by exact Hc. rewrite rev_app_distr. reflexivity.
Qed.

Lemma round_div_opp : forall num den,
  Float.round_div (- num) den
  = match Float.round_div num den with Some (m, e) => Some (- m, e) | None => None end.
Proof.
  intros num den. unfold Float.round_div.
  rewrite Z.abs_opp, Z.sgn_opp.
  replace (- num =? 0) with (num =? 0) by (destruct (Z.eqb_spec num 0); destruct (Z.eqb_spec (- num) 0); lia).
  destruct (num =? 0); [reflexivity|]. cbv zeta.
  destruct (0 <=? _); destruct (_ || _); destruct (_ && _); try reflexivity; f_equal; f_equal; ring.
Qed.

Lemma timedelta_days_neg : forall x,
  (exists e, MTC.timedelta_days x = Exc e /\ MTC.timedelta_days (MTC.num_neg x) = Exc e) \/
  (exists us, MTC.timedelta_days x = mk_timedelta us /\
              MTC.timedelta_days (MTC.num_neg x) = mk_timedelta (- us)).
Proof.
  intros [z|[m e|b|]]; cbn [MTC.num_neg Float.opp].
  - right. exists (z * US_PER_DAY). split; [reflexivity|]. cbn [MTC.timedelta_days]. f_equal; ring.
  - unfold MTC.timedelta_days. destruct (Z.leb_spec 0 e) as [He|He].
    + right. eexists. split; [reflexivity|]. f_equal; ring.
    + assert (Hp : 2 ^ (- e) <> 0) by (apply Z.pow_nonzero; lia).
      rewrite Z.quot_opp_l, Z.rem_opp_l by exact Hp.
      replace (- Z.rem m (2 ^ (- e)) =? 0) with (Z.rem m (2 ^ (- e)) =? 0)
        by (destruct (Z.eqb_spec (Z.rem m (2 ^ (- e))) 0); destruct (Z.eqb_spec (- Z.rem m (2 ^ (- e))) 0); lia).
      destruct (Z.rem m (2 ^ (- e)) =? 0).
      * right. eexists. split; [reflexivity|]. f_equal; ring.
      * replace (US_PER_DAY * - Z.rem m (2 ^ (- e))) with (- (US_PER_DAY * Z.rem m (2 ^ (- e)))) by ring.
        rewrite round_div_opp.
        destruct (Float.round_div _ _) as [[m2 e2]|]; [|left; eexists; split; reflexivity].
        right. destruct (Z.leb_spec 0 e2) as [He2|He2]; cbv iota beta zeta;
          (eexists; split; [reflexivity|]).
        -- f_equal. cbn [Z.abs]. ring_simplify. reflexivity.
        -- assert (Hp2 : 2 ^ (- e2) <> 0) by (apply Z.pow_nonzero; lia).
           rewrite Z.quot_opp_l, Z.rem_opp_l, Z.abs_opp, Z.sgn_opp by exact Hp2.
           set (x := Z.quot m (2 ^ (- e)) * US_PER_DAY + Z.quot m2 (2 ^ (- e2))).
           replace (- Z.quot m (2 ^ (- e)) * US_PER_DAY + - Z.quot m2 (2 ^ (- e2))) with (- x)
             by (unfold x; ring).
           rewrite Z.odd_opp.
           destruct (_ <? _); [f_equal; ring|].
           destruct (_ && _); f_equal; ring.
  - left. eexists. split; reflexivity.
  - left. eexists. split; reflexivity.
Qed.

(** C6: the sign applies to the summed total: for every text [r] after
    the sign, [-r] gives the negation of the total microseconds of [+r]
    (or the same exception), the range of [timedelta] being checked after
    the sign is applied.  So [-2w 1d] is -15 days and [+1y 2m 3d] is
    365 + 60 + 3 = 428 days. *)
Theorem total_sign :
  (forall r,
    (exists e, MTC.parse_time_adjustment ("+"%char :: r) = Exc e /\
               MTC.parse_time_adjustment ("-"%char :: r) = Exc e) \/
    (exists us, MTC.parse_time_adjustment ("+"%char :: r) = mk_timedelta us /\
                MTC.parse_time_adjustment ("-"%char :: r) = mk_timedelta (- us))) /\
  MTC.parse_time_adjustment (ascii_s "-2w 1d") = Ok (-15 * US_PER_DAY) /\
  MTC.parse_time_adjustment (ascii_s "+1y 2m 3d") = Ok (428 * US_PER_DAY).
Proof.
  split; [|split; vm_compute; reflexivity].
  intros r. unfold MTC.parse_time_adjustment.
  rewrite !strip_cons_nonspace by reflexivity.
  cbn [starts_with tl]. change (Ascii.eqb "+" "+") with true.
  change (Ascii.eqb "+" "-") with false. change (Ascii.eqb "-" "-") with true.
  cbn [negb orb]. cbv iota beta.
  set (rest := rstrip_by is_space r).
  destruct (isdigit rest).
  - destruct (py_int rest) as [v|e]; cbn [rbind]; [|left; exists e; split; reflexivity].
    destruct (timedelta_days_neg (MTC.Int v)) as [(e & A & B)|(us & A & B)];
      cbn [MTC.num_neg] in B; [left; exists e|right; exists us]; split; assumption.
  - destruct (MTC.findall (lower rest)) as [|p l];
      [left; exists TimeParsingError; split; reflexivity|].
    destruct (MTC.sum_units (MTC.Int 0) (p :: l)) as [t|e]; cbn [rbind];
      [|left; exists e; split; reflexivity].
    destruct (timedelta_days_neg t) as [(e & A & B)|(us & A & B)];
      [left; exists e|right; exists us]; split; assumption.
Qed.




(** C9: [parse_canon_date] accepts hour, minute and second fields of one
    digit: the canonical text of a datetime with these fields written
    without padding decodes to it. *)
Theorem unpadded_fields : forall t,
  valid_datetime t = true -> 1000 <= year t <= 9999 -> microsecond t = 0 ->
  parse_canon_date (canon_text t Strftime.dec) = Some t.
Proof.
  intros t Hv Hy Hus.
  pose proof (canon_text_parse false t 0 Hv Hy Hus) as H.
  rewrite app_nil_r in H. exact H.
Qed.

Lemma unpadded_fields_witness :
  canon_text (mkDT 2006 8 28 4 5 6 0) Strftime.dec = ascii_s "MON AUG 28 4:5:6 2006" /\
  parse_canon_date (canon_text (mkDT 2006 8 28 4 5 6 0) Strftime.dec) = Some (mkDT 2006 8 28 4 5 6 0).
Proof.
  split; [vm_compute; reflexivity|].
  apply unpadded_fields; [reflexivity | simpl; lia | reflexivity].
Defined.

(** A one-digit hour is accepted. *)
Lemma one_digit_hour :
  parse_canon_date (ascii_s "MON AUG 28 4:14:28 2006") = Some (mkDT 2006 8 28 4 14 28 0).
Proof. vm_compute. reflexivity. Qed.

Lemma minutes_vs_months_witness :
  (Fixer.main_time_delta (ascii_s "+5m") = Ok (1 * 5 * 60000000) /\
   MTC.parse_time_adjustment (ascii_s "+5m") = Ok (1 * 5 * 30 * US_PER_DAY) /\
   1 * 5 * 60000000 <> 1 * 5 * 30 * US_PER_DAY) /\
  (MTC.parse_time_adjustment (ascii_s "-50000000m") = Exc OverflowError /\
   Fixer.main_time_delta (ascii_s "-50000000m") = Ok (-1 * 50000000 * 60000000)) /\
  (MTC.parse_time_adjustment (ascii_s "+2000000000000m") = Exc OverflowError /\
   Fixer.main_time_delta (ascii_s "+2000000000000m") = Exc OverflowError).
Proof.
  split; [|split].
  - apply (proj1 minutes_vs_months true 5). lia.
  - pose proof (proj2 minutes_vs_months false (ascii_s "50000000")
                  ltac:(discriminate) ltac:(reflexivity) ltac:(vm_compute; reflexivity)) as H.
    vm_compute in H. vm_compute. exact H.
  - pose proof (proj2 minutes_vs_months true (ascii_s "2000000000000")
                  ltac:(discriminate) ltac:(reflexivity) ltac:(vm_compute; reflexivity)) as H.
    vm_compute in H. vm_compute. exact H.
Defined.

(** For n = 33333334, [parse_time_adjustment] raises [OverflowError]. *)
Lemma months_overflow :
  Fixer.main_time_delta (ascii_s "+33333334m") = Ok (33333334 * 60000000) /\
  MTC.parse_time_adjustment (ascii_s "+33333334m") = Exc OverflowError.
Proof. split; vm_compute; reflexivity. Qed.

(** A write that fails after 5 bytes. *)
Lemma failure_restores_original_witness :
  f_copy (mkFaults false false (Some 5%nat) false) = false /\
  Fixer.fix_avi_date_inplace (mkFaults false false (Some 5%nat) false) (3 * US_PER_DAY)
    (mkFS (Some sample_avi) None) = (Ok false, mkFS (Some sample_avi) None).
Proof.
  split; [reflexivity|].
  apply (proj1 (failure_restores_original (mkFaults false false (Some 5%nat) false) sample_avi None eq_refl)
           (3 * US_PER_DAY) OSError (mkFS (Some (firstn 5 sample_avi_plus3)) (Some sample_avi))).
  vm_compute. reflexivity.
Defined.

(** ** More of the code *)

(** bytes.find *)
Lemma find_sub_from_succ : forall pat data i,
  find_sub_from pat data (S i) = option_map S (find_sub_from pat data i).
Proof.
  intros pat data. induction data as [|b data IH]; intros i; simpl.
  - destruct pat; reflexivity.
  - destruct (bytes_prefix pat (b :: data)); [reflexivity|]. apply IH.
Qed.

Lemma find_sub_spec : forall pat, pat <> [] -> forall data k,
  find_sub pat data = Some k <->
  bytes_prefix pat (skipn k data) = true /\
  (forall j, (j < k)%nat -> bytes_prefix pat (skipn j data) = false).
Proof.
  intros pat Hp data. induction data as [|b data IH]; intros k.
  - unfold find_sub. simpl. destruct pat as [|p pat]; [congruence|].
    split; [discriminate|]. intros [H _]. rewrite skipn_nil in H. discriminate.
  - unfold find_sub. simpl find_sub_from.
    destruct (bytes_prefix pat (b :: data)) eqn:E.
    + split.
      * intros H; injection H as <-. split; [exact E|]. intros j Hj; lia.
      * intros [H1 H2]. destruct k as [|k]; [reflexivity|].
        specialize (H2 0%nat ltac:(lia)). simpl in H2. congruence.
    + rewrite find_sub_from_succ. fold (find_sub pat data).
      destruct k as [|k].
      * split; [destruct (find_sub pat data); discriminate|]. intros [H _]. simpl in H. congruence.
      * split.
        -- intros H. assert (F : find_sub pat data = Some k)
             by (destruct (find_sub pat data); simpl in H; congruence).
           apply IH in F as [F1 F2].
           split; [exact F1|]. intros [|j] Hj; [exact E|]. simpl. apply F2. lia.
        -- intros [H1 H2]. assert (F : find_sub pat data = Some k).
           { apply IH. split; [exact H1|]. intros j Hj. apply (H2 (S j)). lia. }
           rewrite F. reflexivity.
Qed.

Lemma bytes_prefix_firstn : forall pat l, bytes_prefix pat l = true <-> firstn (length pat) l = pat.
Proof.
  induction pat as [|p pat IH]; intros l; [split; reflexivity|].
  destruct l as [|d l]; [split; discriminate|]. simpl.
  rewrite andb_true_iff, IH. split.
  - intros [H1 H2]. apply Byte.byte_dec_bl in H1. congruence.
  - intros H. injection H as -> ->. split; [apply Byte.byte_dec_lb|]; reflexivity.
Qed.

Lemma idit_at : forall data j, bytes_prefix IDIT (skipn j data) = true <-> slice data j (j + 4) = IDIT.
Proof.
  intros data j. rewrite bytes_prefix_firstn. unfold slice.
  replace (j + 4 - j)%nat with 4%nat by lia. reflexivity.
Qed.

Lemma find_idit : forall data pos,
  find_sub IDIT data = Some pos <->
  slice data pos (pos + 4) = IDIT /\ (forall j, (j < pos)%nat -> slice data j (j + 4) <> IDIT).
Proof.
  intros data pos. rewrite find_sub_spec by discriminate. rewrite idit_at.
  split; intros [H1 H2]; split; try exact H1; intros j Hj.
  - rewrite <- idit_at, H2 by exact Hj. discriminate.
  - specialize (H2 j Hj). rewrite <- idit_at in H2. destruct (bytes_prefix _ _); congruence.
Qed.

Lemma unpack_le32_ok : forall b cs, unpack_le32 b = Ok cs -> length b = 4%nat /\ 0 <= cs.
Proof.
  intros b cs H. destruct b as [|b0 [|b1 [|b2 [|b3 [|b4 b]]]]]; unfold unpack_le32 in H; try discriminate.
  match type of H with
  | @Ok _ ?v = Ok _ => assert (Hv : 0 <= v) by lia; assert (E : v = cs) by congruence
  end.
  split; [reflexivity|lia].
Qed.

(** Py *)
Lemma lower_char_cases : forall c, lower_char c = c \/
  (65 <= code c <= 90 /\ code (lower_char c) = code c + 32).
Proof.
  intros c. unfold lower_char, code.
  destruct ((65 <=? nat_of_ascii c)%nat && (nat_of_ascii c <=? 90)%nat) eqn:E; [right|left; reflexivity].
  apply andb_true_iff in E as [E1 E2]. apply Nat.leb_le in E1, E2.
  rewrite nat_ascii_embedding by lia. lia.
Qed.

Lemma lower_char_class : forall (f : ascii -> bool),
  (forall c, 65 <= code c <= 122 -> f c = false) -> forall c, f (lower_char c) = f c.
Proof.
  intros f Hf c. destruct (lower_char_cases c) as [->|[H1 H2]]; [reflexivity|].
  rewrite !Hf by lia. reflexivity.
Qed.

Lemma space_lower : forall c, is_space (lower_char c) = is_space c.
Proof.
  apply lower_char_class. intros c Hc. unfold is_space.
  apply orb_false_iff; split; apply andb_false_iff; right; apply Z.leb_gt; lia.
Qed.

Lemma digit_lower_class : forall c, is_digit (lower_char c) = is_digit c.
Proof.
  apply lower_char_class. intros c Hc. unfold is_digit.
  apply andb_false_iff; right; apply Z.leb_gt; lia.
Qed.

Lemma eqb_code : forall a b, code a <> code b -> Ascii.eqb a b = false.
Proof.
  intros a b H. destruct (Ascii.eqb_spec a b) as [->|]; [congruence|reflexivity].
Qed.

Lemma sign_lower : forall k c, code k < 65 -> Ascii.eqb k (lower_char c) = Ascii.eqb k c.
Proof.
  intros k c Hk. apply (lower_char_class (Ascii.eqb k)). intros x Hx. apply eqb_code. lia.
Qed.

Lemma lower_char_idem : forall c, lower_char (lower_char c) = lower_char c.
Proof.
  intros c. destruct (lower_char_cases c) as [E|[H1 H2]]; [rewrite E; exact E|].
  destruct (lower_char_cases (lower_char c)) as [E|[H3 H4]]; [exact E|lia].
Qed.

Lemma drop_while_map : forall (p : ascii -> bool) f, (forall c, p (f c) = p c) ->
  forall l, drop_while p (map f l) = map f (drop_while p l).
Proof.
  intros p f Hf l. induction l as [|c l IH]; [reflexivity|]. simpl. rewrite Hf.
  destruct (p c); [exact IH|reflexivity].
Qed.

Lemma strip_lower : forall s, strip (lower s) = lower (strip s).
Proof.
  intros s. unfold strip, rstrip_by, lstrip_by, lower.
  rewrite drop_while_map by exact space_lower. rewrite <- map_rev.
  rewrite drop_while_map by exact space_lower. rewrite map_rev. reflexivity.
Qed.

Lemma forallb_lower : forall (f : ascii -> bool), (forall c, f (lower_char c) = f c) ->
  forall s, forallb f (lower s) = forallb f s.
Proof.
  intros f Hf s. induction s as [|c s IH]; [reflexivity|]. simpl. rewrite Hf, IH. reflexivity.
Qed.

Lemma strip_all_nonspace : forall s, s <> [] -> (forall c, In c s -> is_space c = false) ->
  strip s = s.
Proof.
  intros s Hne H. apply strip_nonspace_ends; [exact Hne| |].
  - intros c Hc. apply H. destruct s; [discriminate|]. injection Hc as ->. left; reflexivity.
  - intros c Hc. apply H. apply in_rev. destruct (rev s); [discriminate|].
    injection Hc as ->. left; reflexivity.
Qed.

Lemma digits_value_nonneg : forall D, forallb is_digit D = true -> 0 <= digits_value D.
Proof.
  intros D. induction D as [|c D IH] using rev_ind; intros H; [reflexivity|].
  rewrite forallb_app in H. apply andb_true_iff in H as [H1 H2].
  rewrite digits_value_snoc. simpl in H2. rewrite andb_true_r in H2.
  unfold is_digit, digit_val in *. apply andb_true_iff in H2 as [H2 _]. apply Z.leb_le in H2.
  specialize (IH H1). lia.
Qed.

Lemma digit_not_sign : forall k c, code k < 48 -> is_digit c = true -> Ascii.eqb k c = false.
Proof.
  intros k c Hk Hc. apply eqb_code. unfold is_digit in Hc.
  apply andb_true_iff in Hc as [Hc _]. apply Z.leb_le in Hc. lia.
Qed.

Lemma alpha_not_space : forall c, is_alpha c = true -> is_space c = false.
Proof.
  intros c H. unfold is_alpha, is_space in *.
  apply orb_true_iff in H as [H|H]; apply andb_true_iff in H as [H1 H2]; apply Z.leb_le in H1, H2;
  apply orb_false_iff; split; apply andb_false_iff; right; apply Z.leb_gt; lia.
Qed.


Lemma py_int_signed : forall (positive : bool) D, D <> [] -> forallb is_digit D = true ->
  py_int (sign_char positive :: D)
  = if (4300 <? length D)%nat then Exc ValueError else Ok (sign_mult positive * digits_value D).
Proof.
  intros positive D Hne HD. unfold py_int.
  rewrite strip_all_nonspace.
  2: discriminate.
  2: { intros c [<-|Hc]; [destruct positive; reflexivity|].
       apply digit_not_space. eapply forallb_forall; eassumption. }
  destruct D as [|d D']; [congruence|].
  assert (Hd : is_digit d = true) by (simpl in HD; apply andb_true_iff in HD; apply HD).
  destruct positive; cbn [sign_char sign_mult Ascii.eqb Bool.eqb andb];
    rewrite Hd, underscore_ok_digits, filter_all by exact HD; reflexivity.
Qed.

(** find_sub on its own output *)
Lemma pair_re_no_digit : forall s, forallb (fun c => negb (is_digit c)) s = true -> MTC.pair_re s = [].
Proof.
  intros s Hs. destruct (MTC.pair_re s) as [|[m r] tl] eqn:E; [reflexivity|].
  destruct (pair_re_in s m r) as [[Hne [Hd _]] Heq]; [rewrite E; left; reflexivity|].
  destruct (fst m) as [|c D] eqn:Em; [congruence|].
  rewrite Heq in Hs. simpl in Hs, Hd. apply andb_true_iff in Hd as [Hd _].
  rewrite Hd in Hs. discriminate.
Qed.

Lemma findall_aux_no_digit : forall n s, forallb (fun c => negb (is_digit c)) s = true ->
  MTC.findall_aux n s = [].
Proof.
  induction n as [|n IH]; intros s Hs; [reflexivity|].
  destruct s as [|c s]; [reflexivity|]. simpl.
  rewrite pair_re_no_digit by exact Hs. simpl.
  apply IH. simpl in Hs. apply andb_true_iff in Hs. apply Hs.
Qed.

Lemma findall_tail : forall D u w, D <> [] -> forallb is_digit D = true -> is_alpha u = true ->
  forallb (fun c => negb (is_digit c)) w = true ->
  MTC.findall (D ++ u :: w) = [(D, [u])].
Proof.
  intros D u w Hne HD Hu Hw. unfold MTC.findall.
  destruct (pair_re_head D u w Hne HD Hu) as [tl Htl].
  destruct D as [|c D]; [congruence|]. simpl length. cbn [MTC.findall_aux].
  rewrite Htl. simpl hd_error. cbv iota beta.
  rewrite findall_aux_no_digit by exact Hw. reflexivity.
Qed.

Lemma existsb_drop_while : forall (p q : ascii -> bool), (forall c, q c = true -> p c = false) ->
  forall l, existsb p (drop_while q l) = existsb p l.
Proof.
  intros p q H l. induction l as [|c l IH]; [reflexivity|]. simpl.
  destruct (q c) eqn:E; [rewrite H by exact E; exact IH|reflexivity].
Qed.

Lemma existsb_rev : forall (p : ascii -> bool) l, existsb p (rev l) = existsb p l.
Proof.
  intros p l. apply eq_true_iff_eq. rewrite !existsb_exists.
  split; intros [x [Hx Hp]]; exists x; split; try exact Hp; apply in_rev; [exact Hx|].
  rewrite rev_involutive. exact Hx.
Qed.

Lemma strip_alpha : forall s, existsb is_alpha (strip s) = existsb is_alpha s.
Proof.
  intros s. unfold strip, rstrip_by, lstrip_by.
  assert (H : forall c, is_space c = true -> is_alpha c = false).
  { intros c Hc. destruct (is_alpha c) eqn:E; [|reflexivity]. rewrite alpha_not_space in Hc; auto. }
  rewrite existsb_rev, existsb_drop_while, existsb_rev, existsb_drop_while by exact H. reflexivity.
Qed.

Lemma underscore_ok_no_alpha : forall b, underscore_digits_ok b = true -> existsb is_alpha b = false.
Proof.
  induction b as [|c b IH]; intros H; [reflexivity|]. simpl in H |- *.
  destruct (is_digit c) eqn:Hd.
  - destruct (is_alpha c) eqn:Ha; [rewrite alpha_not_digit in Hd by exact Ha; discriminate|].
    apply IH, H.
  - destruct (Ascii.eqb_spec c "_"%char) as [->|]; [|discriminate].
    destruct b as [|d b]; [discriminate|]. apply andb_true_iff in H as [_ H].
    apply IH, H.
Qed.

Lemma py_int_alpha : forall t, existsb is_alpha t = true -> py_int t = Exc ValueError.
Proof.
  intros t Ht. rewrite <- strip_alpha in Ht. unfold py_int.
  destruct (strip t) as [|c t'] eqn:E; [reflexivity|].
  assert (Hbody : forall body, existsb is_alpha body = true ->
            match body with
            | d :: _ => if is_digit d && underscore_digits_ok body
                        then if (4300 <? length (filter is_digit body))%nat then Exc ValueError
                             else Ok (sign_mult true * digits_value (filter is_digit body))
                        else Exc ValueError
            | [] => Exc ValueError end = Exc ValueError /\
            match body with
            | d :: _ => if is_digit d && underscore_digits_ok body
                        then if (4300 <? length (filter is_digit body))%nat then Exc ValueError
                             else Ok (sign_mult false * digits_value (filter is_digit body))
                        else Exc ValueError
            | [] => Exc ValueError end = Exc ValueError).
  { intros [|d b] Hb; [split; reflexivity|].
    destruct (underscore_digits_ok (d :: b)) eqn:U.
    - rewrite underscore_ok_no_alpha in Hb by exact U. discriminate.
    - rewrite andb_false_r. split; reflexivity. }
  destruct (Ascii.eqb_spec c "+"%char) as [->|_].
  - apply (Hbody t'). exact Ht.
  - destruct (Ascii.eqb_spec c "-"%char) as [->|_].
    + apply (Hbody t'). exact Ht.
    + apply (Hbody (c :: t')). exact Ht.
Qed.

Lemma existsb_removelast : forall (p : ascii -> bool) l,
  existsb p (removelast l) = true -> existsb p l = true.
Proof.
  intros p l H. destruct l as [|c l] using rev_ind; [exact H|].
  rewrite removelast_last in H. rewrite existsb_app, H. reflexivity.
Qed.

(** The IDIT chunk of a buffer *)

Lemma find_idit_chunk_elim : forall data pos payload,
  find_idit_chunk data = Ok (Some (pos, payload)) ->
  slice data pos (pos + 4) = IDIT /\
  (forall j, (j < pos)%nat -> slice data j (j + 4) <> IDIT) /\
  unpack_le32 (slice data (pos + 4) (pos + 8)) = Ok (Z.of_nat (length payload)) /\
  (pos + 8 + length payload <= length data)%nat /\
  payload = slice data (pos + 8) (pos + 8 + length payload).
Proof.
  intros data pos payload H. destruct (find_idit_chunk_window _ _ _ H) as [Hw Hb].
  unfold find_idit_chunk in H.
  destruct (find_sub IDIT data) as [p|] eqn:F; [|discriminate].
  destruct (length data <=? p + 4)%nat; [discriminate|].
  destruct (negb (length (slice data (p + 4) (p + 8)) =? 4)%nat); [discriminate|].
  destruct (unpack_le32 (slice data (p + 4) (p + 8))) as [cs|] eqn:U; simpl in H; [|discriminate].
  destruct (length data <? p + 8 + Z.to_nat cs)%nat eqn:E2; [discriminate|].
  apply Nat.ltb_ge in E2. injection H as <- Hp. apply find_idit in F as [F1 F2].
  destruct (unpack_le32_ok _ _ U) as [_ Hcs].
  assert (HL : length payload = Z.to_nat cs).
  { rewrite <- Hp. unfold slice. rewrite length_firstn, length_skipn. lia. }
  rewrite HL, Z2Nat.id by exact Hcs. rewrite <- HL. auto.
Qed.

Lemma find_idit_chunk_intro : forall data pos payload,
  slice data pos (pos + 4) = IDIT ->
  (forall j, (j < pos)%nat -> slice data j (j + 4) <> IDIT) ->
  unpack_le32 (slice data (pos + 4) (pos + 8)) = Ok (Z.of_nat (length payload)) ->
  (pos + 8 + length payload <= length data)%nat ->
  payload = slice data (pos + 8) (pos + 8 + length payload) ->
  find_idit_chunk data = Ok (Some (pos, payload)).
Proof.
  intros data pos payload H1 H2 H3 H4 H5.
  assert (F : find_sub IDIT data = Some pos) by (apply find_idit; auto).
  destruct (unpack_le32_ok _ _ H3) as [Hl _].
  unfold find_idit_chunk. rewrite F.
  replace (length data <=? pos + 4)%nat with false by (symmetry; apply Nat.leb_gt; lia).
  rewrite Hl. cbn [Nat.eqb negb]. rewrite H3. cbn [rbind]. rewrite Nat2Z.id.
  replace (length data <? pos + 8 + length payload)%nat with false by (symmetry; apply Nat.ltb_ge; lia).
  rewrite <- H5. reflexivity.
Qed.

(** X1: [find_idit_chunk] returns [(pos, payload)] exactly when [pos] is the first occurrence of [b"IDIT"], the 4 bytes after it hold the little-endian size of [payload], the chunk lies inside the data, and [payload] is the bytes following the size field. *)
Theorem find_idit_chunk_spec : forall data pos payload,
  find_idit_chunk data = Ok (Some (pos, payload)) <->
  slice data pos (pos + 4) = IDIT /\
  (forall j, (j < pos)%nat -> slice data j (j + 4) <> IDIT) /\
  unpack_le32 (slice data (pos + 4) (pos + 8)) = Ok (Z.of_nat (length payload)) /\
  (pos + 8 + length payload <= length data)%nat /\
  payload = slice data (pos + 8) (pos + 8 + length payload).
Proof.
  intros data pos payload. split.
  - apply find_idit_chunk_elim.
  - intros (H1 & H2 & H3 & H4 & H5). apply find_idit_chunk_intro; assumption.
Qed.

(** X2: when the first occurrence of [b"IDIT"] leaves room for the whole 8-byte header, the [_find_idit_chunk] method of metadata_time_changer.py and [find_idit_chunk] of avi_riff_utils.py return the same result. *)
Theorem find_idit_chunk_variants_agree : forall data,
  (forall pos, find_sub IDIT data = Some pos -> (pos + 8 <= length data)%nat) ->
  MTC._find_idit_chunk data = find_idit_chunk data.
Proof.
  intros data H. unfold MTC._find_idit_chunk, find_idit_chunk.
  destruct (find_sub IDIT data) as [pos|] eqn:F; [|reflexivity].
  specialize (H pos eq_refl).
  destruct (length data <=? pos + 4)%nat; [reflexivity|].
  replace (length (slice data (pos + 4) (pos + 8))) with 4%nat
    by (unfold slice; rewrite length_firstn, length_skipn; lia).
  reflexivity.
Qed.

(** X3: [pad_or_truncate b n] is the first [n] bytes of [b] followed by [n - len(b)] NUL bytes. *)
Theorem pad_or_truncate_spec : forall b n,
  pad_or_truncate b n = firstn n b ++ repeat x00 (n - length b).
Proof.
  intros b n. unfold pad_or_truncate.
  destruct (length b <? n)%nat eqn:E1.
  - apply Nat.ltb_lt in E1. rewrite firstn_all2 by lia. reflexivity.
  - apply Nat.ltb_ge in E1. replace (n - length b)%nat with 0%nat by lia.
    rewrite app_nil_r. destruct (n <? length b)%nat eqn:E2; [reflexivity|].
    apply Nat.ltb_ge in E2. rewrite firstn_all2 by lia. reflexivity.
Qed.

Lemma wk_len : forall w, 0 <= w <= 6 -> length (nth (Z.to_nat w) Strftime.weekday_abbr []) = 3%nat.
Proof.
  intros w Hw. assert (exists k, (k < 7)%nat /\ w = Z.of_nat k) as [k [Hk ->]] by (exists (Z.to_nat w); lia).
  rewrite Nat2Z.id. do 7 (destruct k as [|k]; [reflexivity|]). lia.
Qed.

Lemma mon_len : forall m, 1 <= m <= 12 -> length (nth (Z.to_nat m) Strftime.month_abbr []) = 3%nat.
Proof.
  intros m Hm. assert (exists k, (1 <= k < 13)%nat /\ m = Z.of_nat k) as [k [Hk ->]] by (exists (Z.to_nat m); lia).
  rewrite Nat2Z.id. destruct k as [|k]; [lia|]. do 12 (destruct k as [|k]; [reflexivity|]). lia.
Qed.

Lemma canon_date_length : forall t,
  valid_datetime t = true -> 1000 <= year t <= 9999 -> length (format_canon_date t) = 24%nat.
Proof.
  intros t Hv Hy. destruct (valid_bounds t Hv) as (_ & Hm & _).
  rewrite format_canon_text by assumption.
  unfold canon_text, canon_fields, upper. rewrite dec4 by exact Hy.
  rewrite !length_app. cbn [length]. rewrite !length_app, !length_map.
  rewrite wk_len by apply weekday_bound. rewrite mon_len by exact Hm. reflexivity.
Qed.

(** X4: for a valid datetime with a four-digit year, [format_canon_date] gives a string of exactly 24 characters. *)
Theorem format_canon_date_length : forall t,
  valid_datetime t = true -> 1000 <= year t <= 9999 -> length (format_canon_date t) = 24%nat.
Proof. exact canon_date_length. Qed.

(** The time parsers *)

(** X5: a sign followed by digits only is read by [parse_time_adjustment] as that many days with that sign, raises OverflowError when the number exceeds the largest timedelta day count, and raises ValueError when it has more than 4300 digits. *)
Theorem parse_time_adjustment_whole_days : forall (positive : bool) D,
  D <> [] -> forallb is_digit D = true ->
  MTC.parse_time_adjustment (sign_char positive :: D) =
  if (4300 <? length D)%nat then Exc ValueError
  else if digits_value D <=? MAX_DELTA_DAYS
  then Ok (sign_mult positive * digits_value D * US_PER_DAY)
  else Exc OverflowError.
Proof.
  intros positive D Hne HD. pose proof (digits_value_nonneg D HD) as Hn.
  unfold MTC.parse_time_adjustment. cbv zeta.
  rewrite strip_all_nonspace.
  2: discriminate.
  2: { intros c [<-|Hc]; [destruct positive; reflexivity|].
       apply digit_not_space. eapply forallb_forall; eassumption. }
  assert (Hid : isdigit D = true) by (destruct D; [congruence|exact HD]).
  destruct positive; cbn [sign_char sign_mult starts_with tl Ascii.eqb Bool.eqb orb negb];
    rewrite Hid, py_int_digits_gen by assumption;
    (destruct (4300 <? length D)%nat; [reflexivity|]); cbn [rbind MTC.timedelta_days];
    rewrite mk_timedelta_range; unfold MAX_DELTA_DAYS, US_PER_DAY in *; z_cmp_cases.
Qed.

(** X6: [parse_time_adjustment] gives the same result for a string and its lower-case version. *)
Theorem parse_time_adjustment_case_insensitive : forall s,
  MTC.parse_time_adjustment (lower s) = MTC.parse_time_adjustment s.
Proof.
  intros s. unfold MTC.parse_time_adjustment. cbv zeta.
  rewrite strip_lower. set (t := strip s).
  assert (Hs : forall k, code k < 65 -> starts_with k (lower t) = starts_with k t).
  { intros k Hk. destruct t as [|c t']; [reflexivity|]. simpl. apply sign_lower, Hk. }
  rewrite !Hs by (vm_compute; reflexivity).
  replace (tl (lower t)) with (lower (tl t)) by (destruct t; reflexivity).
  set (r := tl t).
  assert (Hd : isdigit (lower r) = isdigit r).
  { destruct r as [|c r']; [reflexivity|]. unfold isdigit.
    change (forallb is_digit (lower (c :: r')) = forallb is_digit (c :: r')).
    apply forallb_lower, digit_lower_class. }
  rewrite Hd. destruct (isdigit r) eqn:E.
  - assert (HD : forallb is_digit r = true) by (destruct r; [discriminate|exact E]).
    rewrite lower_digits by exact HD. reflexivity.
  - replace (lower (lower r)) with (lower r)
      by (unfold lower; rewrite map_map; apply map_ext; intros c; symmetry; apply lower_char_idem).
    reflexivity.
Qed.

(** X7: in [parse_time_adjustment], letters written after the unit letter are ignored: "+3days" means the same as "+3d". *)
Theorem parse_time_adjustment_unit_word : forall (positive : bool) D u w,
  D <> [] -> forallb is_digit D = true -> is_alpha u = true -> forallb is_alpha w = true ->
  MTC.parse_time_adjustment (sign_char positive :: D ++ u :: w)
  = MTC.parse_time_adjustment (sign_char positive :: D ++ [u]).
Proof.
  intros positive D u w Hne HD Hu Hw.
  assert (Hns : forall l, forallb is_alpha l = true -> forall c, In c (sign_char positive :: D ++ l) ->
            is_space c = false).
  { intros l Hl c [<-|Hc]; [destruct positive; reflexivity|].
    apply in_app_or in Hc as [Hc|Hc].
    - apply digit_not_space. eapply forallb_forall; eassumption.
    - apply alpha_not_space. eapply forallb_forall; eassumption. }
  unfold MTC.parse_time_adjustment. cbv zeta.
  rewrite strip_all_nonspace by (discriminate || (apply Hns; simpl; rewrite Hu, Hw; reflexivity)).
  rewrite (strip_all_nonspace (sign_char positive :: D ++ [u]))
    by (discriminate || (apply Hns; simpl; rewrite Hu; reflexivity)).
  cbn [starts_with tl].
  assert (Hnd : forall l, isdigit (D ++ u :: l) = false).
  { intros l. unfold isdigit. destruct (D ++ u :: l) as [|x y] eqn:Eq; [reflexivity|].
    rewrite <- Eq, forallb_app. cbn [forallb]. rewrite alpha_not_digit by exact Hu.
    rewrite andb_false_l, andb_false_r. reflexivity. }
  rewrite !Hnd.
  unfold lower. rewrite !map_app. cbn [map]. fold (lower D) (lower w).
  rewrite lower_digits by exact HD.
  assert (Hlu : is_alpha (lower_char u) = true).
  { destruct (lower_char_cases u) as [->|[H1 H2]]; [exact Hu|].
    unfold is_alpha. rewrite H2. apply orb_true_iff; right. apply andb_true_iff; split; apply Z.leb_le; lia. }
  rewrite findall_tail, findall_single; try assumption; [reflexivity|].
  rewrite forallb_lower by (intros c; rewrite digit_lower_class; reflexivity).
  apply forallb_forall. intros c Hc. rewrite alpha_not_digit; [reflexivity|].
  eapply forallb_forall; eassumption.
Qed.

(** X8: [main] of avi_riff_date_fixer.py accepts a doubled sign such as "--3d": both signs are applied, so "--3d" adds three days (for a day count of at most 4300 digits within the timedelta range). *)
Theorem main_time_delta_double_sign : forall (s1 s2 : bool) D,
  D <> [] -> forallb is_digit D = true -> (length D <= 4300)%nat -> digits_value D <= MAX_DELTA_DAYS ->
  Fixer.main_time_delta (sign_char s1 :: sign_char s2 :: D ++ ["d"%char])
  = Ok (sign_mult s2 * digits_value D * sign_mult s1 * US_PER_DAY).
Proof.
  intros s1 s2 D Hne HD Hlen Hle. pose proof (digits_value_nonneg D HD) as Hn.
  unfold Fixer.main_time_delta.
  assert (E : forall x, sign_char s2 :: D ++ [x] = (sign_char s2 :: D) ++ [x]) by reflexivity.
  assert (Hd : ends_with "d" ((sign_char s2 :: D) ++ ["d"%char]) = true) by (rewrite ends_with_snoc; reflexivity).
  assert (Hpi := py_int_signed s2 D Hne HD).
  replace (4300 <? length D)%nat with false in Hpi by (symmetry; apply Nat.ltb_ge; exact Hlen).
  destruct s1; cbn [sign_char starts_with tl Ascii.eqb Bool.eqb andb];
    rewrite E, Hd, removelast_last, Hpi; cbn [rbind];
    apply mk_timedelta_ok; unfold MAX_DELTA_DAYS, US_PER_DAY in *;
    destruct s2; cbn [sign_mult]; lia.
Qed.

(** X9: an unsigned day count such as "3d" (at most 4300 digits, within the timedelta range) is accepted by [main] of avi_riff_date_fixer.py as positive, while [parse_time_adjustment] rejects it with TimeParsingError. *)
Theorem unsigned_days : forall D,
  D <> [] -> forallb is_digit D = true -> (length D <= 4300)%nat -> digits_value D <= MAX_DELTA_DAYS ->
  Fixer.main_time_delta (D ++ ["d"%char]) = Ok (digits_value D * US_PER_DAY) /\
  MTC.parse_time_adjustment (D ++ ["d"%char]) = Exc TimeParsingError.
Proof.
  intros D Hne HD Hlen Hle. pose proof (digits_value_nonneg D HD) as Hn.
  destruct D as [|c D']; [congruence|].
  assert (Hc : is_digit c = true) by (simpl in HD; apply andb_true_iff in HD; apply HD).
  split.
  - unfold Fixer.main_time_delta. rewrite <- app_comm_cons. cbn [starts_with].
    rewrite !digit_not_sign by (exact Hc || (vm_compute; reflexivity)).
    rewrite app_comm_cons, ends_with_snoc, removelast_last. cbn [Ascii.eqb Bool.eqb andb].
    rewrite py_int_digits by assumption. cbn [rbind].
    rewrite mk_timedelta_ok by (unfold MAX_DELTA_DAYS, US_PER_DAY in *; lia). f_equal. ring.
  - unfold MTC.parse_time_adjustment.
    rewrite strip_all_nonspace.
    2: discriminate.
    2: { intros x Hx. apply in_app_or in Hx as [Hx|[<-|[]]]; [|reflexivity].
         apply digit_not_space. eapply forallb_forall; eassumption. }
    rewrite <- app_comm_cons. cbn [starts_with].
    rewrite !digit_not_sign by (exact Hc || (vm_compute; reflexivity)). reflexivity.
Qed.

(** X10: [main] of avi_riff_date_fixer.py rejects with ValueError any time string with a letter before its last character, such as "+1y 2m 3d". *)
Theorem main_time_delta_letter : forall s,
  existsb is_alpha (removelast s) = true -> Fixer.main_time_delta s = Exc ValueError.
Proof.
  intros s Hs. unfold Fixer.main_time_delta.
  assert (Ht : existsb is_alpha (removelast (fst (if starts_with "+" s then (tl s, 1)
                 else if starts_with "-" s then (tl s, -1) else (s, 1)))) = true).
  { destruct s as [|c r]; [discriminate|].
    destruct r as [|c' r]; [discriminate|].
    change (removelast (c :: c' :: r)) with (c :: removelast (c' :: r)) in Hs.
    cbn [starts_with tl].
    destruct (Ascii.eqb_spec "+" c) as [<-|_]; [exact Hs|].
    destruct (Ascii.eqb_spec "-" c) as [<-|_]; [exact Hs|].
    exact Hs. }
  destruct (if starts_with "+" s then (tl s, 1) else if starts_with "-" s then (tl s, -1)
            else (s, 1)) as [t m]. cbn [fst] in Ht.
  rewrite (py_int_alpha _ Ht), (py_int_alpha t (existsb_removelast _ _ Ht)).
  destruct (ends_with "d" t), (ends_with "h" t), (ends_with "m" t); reflexivity.
Qed.

Lemma find_none_mtc : forall data, find_idit_chunk data = Ok None ->
  MTC._find_idit_chunk data = Ok None \/ MTC._find_idit_chunk data = Exc StructError.
Proof.
  intros data H. unfold find_idit_chunk in H. unfold MTC._find_idit_chunk.
  destruct (find_sub IDIT data) as [p|]; [|left; reflexivity].
  destruct (length data <=? p + 4)%nat; [left; reflexivity|].
  destruct (negb (length (slice data (p + 4) (p + 8)) =? 4)%nat) eqn:E.
  - right. apply negb_true_iff, Nat.eqb_neq in E. rewrite unpack_le32_len by exact E. reflexivity.
  - left. exact H.
Qed.

Lemma mtc_find_some : forall data x,
  MTC._find_idit_chunk data = Ok (Some x) -> find_idit_chunk data = Ok (Some x).
Proof.
  intros data x H. unfold MTC._find_idit_chunk in H. unfold find_idit_chunk.
  destruct (find_sub IDIT data) as [p|]; [|discriminate].
  destruct (length data <=? p + 4)%nat; [discriminate|].
  destruct (unpack_le32 (slice data (p + 4) (p + 8))) as [cs|] eqn:U; [|discriminate].
  destruct (unpack_le32_ok _ _ U) as [Hl _]. rewrite Hl. exact H.
Qed.

Lemma slice_app_l : forall {A} (l1 l2 : list A) i j, (j <= length l1)%nat ->
  slice (l1 ++ l2) i j = slice l1 i j.
Proof.
  intros A l1 l2 i j H. unfold slice.
  destruct (Nat.le_gt_cases j i) as [Hji|Hij].
  - replace (j - i)%nat with 0%nat by lia. reflexivity.
  - rewrite skipn_app, firstn_app, length_skipn.
    replace (j - i - (length l1 - i))%nat with 0%nat by lia. apply app_nil_r.
Qed.

Lemma slice_firstn : forall {A} (l : list A) a i j, (j <= a)%nat ->
  slice (firstn a l) i j = slice l i j.
Proof.
  intros A l a i j H. unfold slice. rewrite skipn_firstn_comm, firstn_firstn.
  f_equal. lia.
Qed.

Lemma slice_assign_before : forall {A} (l x : list A) a b i j, (j <= a <= length l)%nat ->
  slice (slice_assign l a b x) i j = slice l i j.
Proof.
  intros A l x a b i j H. unfold slice_assign.
  rewrite slice_app_l by (rewrite length_firstn; lia). apply slice_firstn. lia.
Qed.

Lemma slice_assign_at : forall {A} (l x : list A) a b, (a <= length l)%nat ->
  slice (slice_assign l a b x) a (a + length x) = x.
Proof.
  intros A l x a b H. unfold slice_assign, slice.
  rewrite skipn_app, length_firstn, skipn_all2 by (rewrite length_firstn; lia).
  replace (a - Nat.min a (length l))%nat with 0%nat by lia.
  replace (a + length x - a)%nat with (length x + 0)%nat by lia.
  simpl. rewrite firstn_app_2. simpl. apply app_nil_r.
Qed.

Lemma slice_assign_length : forall {A} (l x : list A) a b, (a <= b <= length l)%nat ->
  length x = (b - a)%nat -> length (slice_assign l a b x) = length l.
Proof.
  intros A l x a b H Hx. unfold slice_assign. rewrite !length_app, length_firstn, length_skipn. lia.
Qed.

(** Rewriting the payload of the chunk in place keeps the chunk where it
    was, with the new payload. *)
Lemma find_idit_chunk_patched : forall data pos payload x,
  find_idit_chunk data = Ok (Some (pos, payload)) -> length x = length payload ->
  find_idit_chunk (slice_assign data (pos + 8) (pos + 8 + length payload) x) = Ok (Some (pos, x)).
Proof.
  intros data pos payload x H Hx.
  destruct (find_idit_chunk_elim _ _ _ H) as (H1 & H2 & H3 & H4 & H5).
  apply find_idit_chunk_intro.
  - rewrite slice_assign_before by lia. exact H1.
  - intros j Hj. rewrite slice_assign_before by lia. apply H2, Hj.
  - rewrite slice_assign_before by lia. rewrite Hx. exact H3.
  - rewrite slice_assign_length by lia. lia.
  - rewrite slice_assign_at by lia. reflexivity.
Qed.

Lemma write_body_true : forall flt ts data s',
  MTC.write_body flt ts (mkFS (Some data) (Some data)) = (Ok true, s') ->
  exists pos payload bytes,
    MTC._find_idit_chunk data = Ok (Some (pos, payload)) /\
    encode_ascii (MTC._format_canon_date ts) = Ok bytes /\
    s' = mkFS (Some (slice_assign data (pos + 8) (pos + 8 + length payload)
                       (pad_or_truncate bytes (length payload)))) None.
Proof.
  intros [fc fr fw fu] ts data s' H. destruct fr; [discriminate H|].
  unfold MTC.write_body in H. erewrite bind_ok in H by reflexivity.
  destruct (MTC._find_idit_chunk data) as [[[pos payload]|]|e] eqn:F.
  - erewrite bind_ok in H by reflexivity. cbv iota beta in H.
    destruct (MTC._parse_canon_date _) as [cur|].
    + destruct (encode_ascii (MTC._format_canon_date ts)) as [bytes|e] eqn:En; [|discriminate H].
      erewrite bind_ok in H by reflexivity.
      destruct fw as [j|]; [discriminate H|].
      erewrite bind_ok in H by reflexivity.
      erewrite bind_ok in H by reflexivity.
      destruct fu; [discriminate H|].
      exists pos, payload, bytes. split; [reflexivity|]. split; [reflexivity|].
      cbn in H. injection H as <-. reflexivity.
    + destruct fu; discriminate H.
  - erewrite bind_ok in H by reflexivity. destruct fu; discriminate H.
  - discriminate H.
Qed.

Lemma mtc_write_result : forall flt ts data bk s',
  valid_datetime ts = true -> 1000 <= year ts <= 9999 ->
  MTC.write_avi_metadata_safe_inplace_modify flt false ts (mkFS (Some data) bk) = (Ok true, s') ->
  exists pos payload,
    find_idit_chunk data = Ok (Some (pos, payload)) /\
    s' = mkFS (Some (slice_assign data (pos + 8) (pos + 8 + length payload)
                       (pad_or_truncate (map byte_of_ascii (format_canon_date ts)) (length payload)))) None.
Proof.
  intros flt ts data bk s' Hv Hy H.
  destruct (mtc_true_body _ _ _ _ H) as [d [Hd Hb]]. simpl in Hd. injection Hd as <-.
  destruct (write_body_true _ _ _ _ Hb) as (pos & payload & bytes & F & En & ->).
  exists pos, payload. split; [apply mtc_find_some, F|].
  unfold MTC._format_canon_date in En. rewrite encode_ok in En by (apply format_ascii_ok; assumption).
  injection En as <-. reflexivity.
Qed.

Lemma whole_seconds_valid : forall t, valid_datetime t = true -> valid_datetime (whole_seconds t) = true.
Proof.
  intros t Hv. unfold valid_datetime, valid_time in *. cbn [whole_seconds year month day hour minute second microsecond].
  repeat rewrite andb_true_iff in *. intuition.
Qed.

Lemma readback : forall t L, valid_datetime t = true -> 1000 <= year t <= 9999 -> (24 <= L)%nat ->
  parse_canon_date (decode_ascii_ignore (pad_or_truncate (map byte_of_ascii (format_canon_date t)) L))
  = Some (whole_seconds t).
Proof.
  intros t L Hv Hy HL.
  pose proof (canon_date_length t Hv Hy) as Hlen.
  replace L with (length (map byte_of_ascii (format_canon_date t) ++ repeat x00 (L - 24)))
    by (rewrite length_app, length_map, repeat_length; lia).
  rewrite pad_or_truncate_nuls, decode_encode_nuls by (apply format_ascii_ok; assumption).
  rewrite format_canon_text by assumption.
  change (canon_text t Strftime.pad2) with (canon_text (whole_seconds t) Strftime.pad2).
  apply (canon_text_parse true); [apply whole_seconds_valid, Hv | exact Hy | reflexivity].
Qed.

(** X11: on a file without a complete IDIT chunk, both AVI writers return False, leave the file unchanged and delete the backup, whatever faults the read, write or unlink steps would raise. *)
Theorem no_idit_chunk : forall flt delta ts data bk,
  f_copy flt = false -> find_idit_chunk data = Ok None ->
  Fixer.fix_avi_date_inplace flt delta (mkFS (Some data) bk) = (Ok false, mkFS (Some data) None) /\
  MTC.write_avi_metadata_safe_inplace_modify flt false ts (mkFS (Some data) bk)
  = (Ok false, mkFS (Some data) None).
Proof.
  intros [fc fr fw fu] delta ts data bk Hc Hf. simpl in Hc. subst fc. split.
  - unfold Fixer.fix_avi_date_inplace. erewrite bind_ok by reflexivity. cbn [negb].
    assert (Hb : Fixer.fix_body (mkFaults false fr fw fu) delta (mkFS (Some data) (Some data)) =
       if fr || fu then (Exc OSError, mkFS (Some data) (Some data)) else (Ok false, mkFS (Some data) None)).
    { destruct fr; [reflexivity|]. unfold Fixer.fix_body.
      erewrite bind_ok by reflexivity.
      erewrite bind_ok by (unfold lift, Fixer.find_idit_chunk; rewrite Hf; reflexivity).
      cbv iota beta. destruct fu; reflexivity. }
    unfold catch. rewrite Hb. destruct (fr || fu); reflexivity.
  - unfold MTC.write_avi_metadata_safe_inplace_modify. cbv iota.
    apply catch_ok. erewrite bind_ok by reflexivity.
    assert (Hb : MTC.write_body (mkFaults false fr fw fu) ts (mkFS (Some data) (Some data))
                 = (Ok false, mkFS (Some data) None) \/
                 exists e, MTC.write_body (mkFaults false fr fw fu) ts (mkFS (Some data) (Some data))
                 = (Exc e, mkFS (Some data) (Some data))).
    { destruct fr; [right; eexists; reflexivity|]. unfold MTC.write_body.
      erewrite bind_ok by reflexivity.
      destruct (find_none_mtc data Hf) as [Hm|Hm].
      - erewrite bind_ok by (unfold lift; rewrite Hm; reflexivity). cbv iota beta.
        destruct fu; [right; eexists; reflexivity|left; reflexivity].
      - right. exists StructError. unfold bind at 1, lift. rewrite Hm. reflexivity. }
    destruct Hb as [Hb|[e Hb]]; unfold catch; rewrite Hb; reflexivity.
Qed.

(** X12: for a valid timestamp with a four-digit year (1000 to 9999), after a successful [write_avi_metadata_safe_inplace_modify], the IDIT chunk sits at the same place with the same size, holds the padded Canon date of the timestamp, and when the chunk has room for 24 characters, reading it back gives the timestamp without its microseconds. *)
Theorem write_then_read : forall flt ts data bk s',
  valid_datetime ts = true -> 1000 <= year ts <= 9999 ->
  MTC.write_avi_metadata_safe_inplace_modify flt false ts (mkFS (Some data) bk) = (Ok true, s') ->
  exists pos payload data' payload',
    find_idit_chunk data = Ok (Some (pos, payload)) /\
    s' = mkFS (Some data') None /\
    find_idit_chunk data' = Ok (Some (pos, payload')) /\
    payload' = pad_or_truncate (map byte_of_ascii (format_canon_date ts)) (length payload) /\
    ((24 <= length payload)%nat ->
     parse_canon_date (decode_ascii_ignore payload') = Some (whole_seconds ts)).
Proof.
  intros flt ts data bk s' Hv Hy H.
  destruct (mtc_write_result _ _ _ _ _ Hv Hy H) as (pos & payload & F & ->).
  eexists pos, payload, _, _. split; [exact F|]. split; [reflexivity|].
  split; [apply find_idit_chunk_patched; [exact F|apply pad_or_truncate_length]|].
  split; [reflexivity|]. intros HL. apply readback; assumption.
Qed.

(** X13: for a valid timestamp with a four-digit year (1000 to 9999), when the IDIT chunk has room for 24 characters, repeating a successful [write_avi_metadata_safe_inplace_modify] with the same timestamp returns True and leaves the file as it is. *)
Theorem write_idempotent : forall flt ts data bk s',
  valid_datetime ts = true -> 1000 <= year ts <= 9999 ->
  MTC.write_avi_metadata_safe_inplace_modify flt false ts (mkFS (Some data) bk) = (Ok true, s') ->
  exists pos payload,
    find_idit_chunk data = Ok (Some (pos, payload)) /\
    ((24 <= length payload)%nat ->
     MTC.write_avi_metadata_safe_inplace_modify no_faults false ts s' = (Ok true, s')).
Proof.
  intros flt ts data bk s' Hv Hy H.
  destruct (mtc_write_result _ _ _ _ _ Hv Hy H) as (pos & payload & F & ->).
  exists pos, payload. split; [exact F|]. intros HL.
  set (x := pad_or_truncate (map byte_of_ascii (format_canon_date ts)) (length payload)).
  set (data' := slice_assign data (pos + 8) (pos + 8 + length payload) x).
  assert (Hx : length x = length payload) by apply pad_or_truncate_length.
  assert (F' : find_idit_chunk data' = Ok (Some (pos, x))) by (apply find_idit_chunk_patched; assumption).
  destruct (find_idit_chunk_elim _ _ _ F') as (_ & _ & _ & Hb & Hs).
  unfold MTC.write_avi_metadata_safe_inplace_modify. cbv iota.
  apply catch_ok. erewrite bind_ok by reflexivity. apply catch_ok.
  unfold MTC.write_body.
  erewrite bind_ok by reflexivity.
  erewrite bind_ok by (unfold lift; rewrite (find_idit_chunk_agree _ _ F'); reflexivity).
  cbv iota beta.
  assert (Hr : parse_canon_date (decode_ascii_ignore x) = Some (whole_seconds ts)) by (apply readback; assumption).
  unfold MTC._parse_canon_date. rewrite Hr.
  unfold MTC._format_canon_date. rewrite encode_ok by (apply format_ascii_ok; assumption).
  erewrite bind_ok by reflexivity.
  replace (pad_or_truncate (map byte_of_ascii (format_canon_date ts)) (length x)) with x
    by (rewrite Hx; reflexivity).
  pose proof (slice_assign_self data' (pos + 8) (pos + 8 + length x) ltac:(lia)) as E.
  rewrite <- Hs in E. rewrite E. reflexivity.
Qed.

Lemma year_field_tail : forall y r, 1000 <= y <= 9999 ->
  first_is (Strptime.re_Y (Strftime.dec y ++ r)) (tt, r).
Proof.
  intros y r Hy. rewrite dec4 by exact Hy.
  destruct (digit_props (y / 1000)) as [A _];
    [split; [apply Z.div_pos; lia|]; cut (y / 1000 < 10); [lia|apply Z.div_lt_upper_bound; lia]|].
  destruct (digit_props (y / 100 mod 10)) as [B _]; [pose proof (Z.mod_pos_bound (y / 100) 10); lia|].
  destruct (digit_props (y / 10 mod 10)) as [C _]; [pose proof (Z.mod_pos_bound (y / 10) 10); lia|].
  destruct (digit_props (y mod 10)) as [D _]; [pose proof (Z.mod_pos_bound y 10); lia|].
  exists []. unfold Strptime.re_Y, Strptime.seq, Strptime.bind, Strptime.dgt, Strptime.cls.
  cbn [flat_map fst snd app]. rewrite A. cbn [flat_map fst snd app]. rewrite B.
  cbn [flat_map fst snd app]. rewrite C. cbn [flat_map fst snd app]. rewrite D. reflexivity.
Qed.

Lemma month_num_field : forall m, 1 <= m <= 12 -> forall r,
  first_is (Strptime.re_m (Strftime.pad2 m ++ ":"%char :: r)) (tt, ":"%char :: r).
Proof. intros m Hm r. enum_Z m 12%nat enum_tac. Qed.

Lemma second_end_field : forall s, 0 <= s <= 59 ->
  first_is (Strptime.re_S (Strftime.pad2 s)) (tt, []).
Proof. intros s Hs. enum_Z s 59%nat enum_tac. Qed.

Lemma pad2_head : forall n r, 0 <= n <= 99 -> nonspace_head (Strftime.pad2 n ++ r).
Proof.
  intros n r Hn. destruct (pad2_spec n Hn) as (A & B & _). apply nonspace_head_app.
  apply digits_nonspace_head; assumption.
Qed.

Lemma exif_text_parse : forall t, valid_datetime t = true -> 1000 <= year t <= 9999 ->
  Strptime._strptime_exif (Strftime.strftime_exif t) = Ok (whole_seconds t).
Proof.
  intros t Hv Hy.
  destruct (valid_bounds t Hv) as (Hy' & Hm & Hd & Hh & Hmi & Hs & _).
  pose proof (days_in_month_le (year t) (month t) Hm) as Hd31.
  assert (E : first_is (Strptime.exif_regex (Strftime.strftime_exif t))
    (Strptime.mkFoundNum (Strftime.dec (year t)) (Strftime.pad2 (month t)) (Strftime.pad2 (day t))
       (Strftime.pad2 (hour t)) (Strftime.pad2 (minute t)) (Strftime.pad2 (second t)), [])).
  { unfold Strptime.exif_regex, Strftime.strftime_exif.
    eapply bind_first; [apply capture_first, year_field_tail, Hy|]; cbv beta.
    eapply bind_first; [apply colon_first|]; cbv beta.
    eapply bind_first; [apply capture_first, month_num_field, Hm|]; cbv beta.
    eapply bind_first; [apply colon_first|]; cbv beta.
    eapply bind_first; [apply capture_first, day_field; lia|]; cbv beta.
    eapply bind_first; [apply ws_first, pad2_head; lia|]; cbv beta.
    eapply bind_first; [apply capture_first, hour_field, Hh|]; cbv beta.
    eapply bind_first; [apply colon_first|]; cbv beta.
    eapply bind_first; [apply capture_first, minute_field, Hmi|]; cbv beta.
    eapply bind_first; [apply colon_first|]; cbv beta.
    eapply bind_first; [apply capture_first_all, second_end_field, Hs|]; cbv beta.
    apply ret_first. }
  destruct E as [tl E]. unfold Strptime._strptime_exif. rewrite E. cbn [hd_error].
  cbn [Strptime.g_Y Strptime.g_m Strptime.g_d Strptime.g_H Strptime.g_M Strptime.g_S].
  destruct (dec_spec (year t)) as (Y0 & Y1 & Y2); [lia|].
  rewrite (py_int_digits _ Y0 Y1 (dec_short _)), Y2. cbn [rbind].
  assert (P : forall n, 0 <= n <= 99 -> py_int (Strftime.pad2 n) = Ok n).
  { intros n Hn. destruct (pad2_spec n Hn) as (A & B & C).
    rewrite py_int_digits by (assumption || apply pad2_short). congruence. }
  rewrite !P by lia. cbn [rbind].
  assert (Hvd : valid_date (year t) (month t) (day t) = true)
    by (unfold valid_datetime in Hv; apply andb_true_iff in Hv; apply Hv).
  assert (Hvt : valid_time (hour t) (minute t) (second t) 0 = true).
  { unfold valid_datetime, valid_time in *. apply andb_true_iff in Hv as [_ Hv].
    repeat rewrite andb_true_iff in *. intuition. }
  rewrite Hvd. unfold mk_datetime. rewrite Hvd, Hvt. reflexivity.
Qed.

(** X16: [_parse_exif_datetime_string] reads back the ["%Y:%m:%d %H:%M:%S"] format used by [write_photo_metadata_timestamps], without the microseconds, for every valid datetime with a four-digit year. *)
Theorem exif_roundtrip : forall t, valid_datetime t = true -> 1000 <= year t <= 9999 ->
  MTC._parse_exif_datetime_string (Strftime.strftime_exif t) = Some (whole_seconds t).
Proof.
  intros t Hv Hy. unfold MTC._parse_exif_datetime_string. rewrite exif_text_parse by assumption.
  reflexivity.
Qed.

Lemma exif_short_year :
  Strftime.strftime_exif (mkDT 999 12 31 23 59 59 0) = list_ascii_of_string "999:12:31 23:59:59" /\
  MTC._parse_exif_datetime_string (Strftime.strftime_exif (mkDT 999 12 31 23 59 59 0)) = None.
Proof. split; vm_compute; reflexivity. Qed.

Lemma dict_set_new : forall {V} (d : dict V) k v, ~ In k (map fst d) -> dict_set d k v = d ++ [(k, v)].
Proof.
  intros V d k v. induction d as [|[k' v'] d IH]; intros H; [reflexivity|].
  simpl in H |- *. destruct (String.eqb_spec k k') as [->|Hne]; [exfalso; apply H; left; reflexivity|].
  rewrite IH by tauto. reflexivity.
Qed.

Lemma dict_get_set : forall {V} (d : dict V) k v, dict_get (dict_set d k v) k = Some v.
Proof.
  intros V d k v. induction d as [|[k' v'] d IH]; simpl.
  - rewrite String.eqb_refl. reflexivity.
  - destruct (String.eqb_spec k k') as [->|Hne]; simpl.
    + rewrite String.eqb_refl. reflexivity.
    + destruct (String.eqb_spec k k') as [|_]; [congruence|]. exact IH.
Qed.

Lemma dict_get_in : forall {V} (d : dict V) k v, dict_get d k = Some v -> In (k, v) d.
Proof.
  intros V d k v. induction d as [|[k' v'] d IH]; intros H; [discriminate|].
  simpl in H. destruct (String.eqb_spec k k') as [->|_].
  - injection H as ->. left; reflexivity.
  - right. apply IH, H.
Qed.

Lemma adjust_fold : forall delta d p errs,
  NoDup (map fst (p ++ d)) ->
  fold_left (fun (st : dict (option datetime) * list string) (item : string * option datetime) =>
    let '(adjusted_timestamps, errors) := st in
    let '(field_name, timestamp_value) := item in
    match timestamp_value with
    | Some t =>
        match dt_add t delta with
        | Ok t' => (dict_set adjusted_timestamps field_name (Some t'), errors)
        | Exc _ => (dict_set adjusted_timestamps field_name (Some t), errors ++ [field_name])
        end
    | None => (dict_set adjusted_timestamps field_name None, errors)
    end) d (map (adjust_entry delta) p, errs)
  = (map (adjust_entry delta) (p ++ d), errs ++ map fst (filter (adjust_fails delta) d)).
Proof.
  intros delta d. induction d as [|[k v] d IH]; intros p errs Hnd.
  - rewrite !app_nil_r. reflexivity.
  - assert (Hk : ~ In k (map fst (map (adjust_entry delta) p))).
    { rewrite map_map. replace (map (fun x => fst (adjust_entry delta x)) p) with (map fst p)
        by (apply map_ext; intros [a b]; reflexivity).
      rewrite map_app in Hnd. apply NoDup_remove_2 in Hnd. simpl in Hnd. rewrite in_app_iff in Hnd. tauto. }
    assert (Hnd' : NoDup (map fst ((p ++ [(k, v)]) ++ d))) by (rewrite <- app_assoc; exact Hnd).
    cbn [fold_left].
    replace (p ++ (k, v) :: d) with ((p ++ [(k, v)]) ++ d) by (rewrite <- app_assoc; reflexivity).
    destruct v as [t|].
    + destruct (dt_add t delta) as [t'|e] eqn:E.
      * rewrite dict_set_new by exact Hk.
        replace (map (adjust_entry delta) p ++ [(k, Some t')]) with (map (adjust_entry delta) (p ++ [(k, Some t)]))
          by (rewrite map_app; simpl; rewrite E; reflexivity).
        rewrite IH by exact Hnd'. cbn [filter adjust_fails snd]. rewrite E. reflexivity.
      * rewrite dict_set_new by exact Hk.
        replace (map (adjust_entry delta) p ++ [(k, Some t)]) with (map (adjust_entry delta) (p ++ [(k, Some t)]))
          by (rewrite map_app; simpl; rewrite E; reflexivity).
        rewrite IH by exact Hnd'. cbn [filter adjust_fails snd]. rewrite E.
        cbn [map fst]. rewrite <- !app_assoc. reflexivity.
    + rewrite dict_set_new by exact Hk.
      replace (map (adjust_entry delta) p ++ [(k, None)]) with (map (adjust_entry delta) (p ++ [(k, None)]))
        by (rewrite map_app; reflexivity).
      rewrite IH by exact Hnd'. reflexivity.
Qed.

Lemma adjust_closed : forall delta d, NoDup (map fst d) ->
  MTC.adjust_timestamps delta d = (map (adjust_entry delta) d, map fst (filter (adjust_fails delta) d)).
Proof.
  intros delta d Hnd. unfold MTC.adjust_timestamps.
  exact (adjust_fold delta d [] [] Hnd).
Qed.

(** X14: [adjust_timestamps] keeps the keys in their order, keeps None values, shifts each date by the delta, keeps a date whose shift overflows, and reports the overflowing fields in order. *)
Theorem adjust_timestamps_entries : forall time_delta d, NoDup (map fst d) ->
  let '(adjusted, errors) := MTC.adjust_timestamps time_delta d in
  Forall2 (fun item item' =>
    fst item' = fst item /\
    match snd item with
    | None => snd item' = None
    | Some t =>
        match dt_add t time_delta with
        | Ok t' => snd item' = Some t'
        | Exc _ => snd item' = Some t
        end
    end) d adjusted /\
  errors = map fst (filter (fun item =>
    match snd item with
    | Some t => match dt_add t time_delta with Ok _ => false | Exc _ => true end
    | None => false
    end) d).
Proof.
  intros delta d Hnd. rewrite adjust_closed by exact Hnd. split; [|reflexivity].
  clear Hnd. induction d as [|[k v] d IH]; constructor; [|exact IH].
  split; [reflexivity|]. cbn [snd adjust_entry]. destruct v as [t|]; [|reflexivity].
  destruct (dt_add t delta); reflexivity.
Qed.

(** X15: with a zero delta, [adjust_timestamps] returns its input unchanged and reports no error. *)
Theorem adjust_timestamps_zero : forall d, NoDup (map fst d) ->
  (forall k t, In (k, Some t) d -> valid_datetime t = true) ->
  MTC.adjust_timestamps 0 d = (d, []).
Proof.
  intros d Hnd Hv. rewrite adjust_closed by exact Hnd. clear Hnd.
  induction d as [|[k v] d IH]; [reflexivity|].
  assert (IH' : map (adjust_entry 0) d = d /\ filter (adjust_fails 0) d = []).
  { assert (Hv' : forall k t, In (k, Some t) d -> valid_datetime t = true)
      by (intros k' t' Hi; apply (Hv k' t'); right; exact Hi).
    specialize (IH Hv'). injection IH as A B. split; [exact A|].
    destruct (filter (adjust_fails 0) d); [reflexivity|discriminate]. }
  destruct IH' as [A B].
  destruct v as [t|].
  - cbn [map filter adjust_entry adjust_fails snd].
    rewrite dt_add_zero by (apply (Hv k t); left; reflexivity). rewrite A, B. reflexivity.
  - cbn [map filter adjust_entry adjust_fails snd]. rewrite A, B. reflexivity.
Qed.

Lemma primary_none : forall fields d,
  (forall k t, In (k, Some t) d -> ~ In k fields) ->
  MTC.primary_timestamp fields d = None.
Proof.
  intros fields d H. induction fields as [|f fs IH]; [reflexivity|].
  cbn [MTC.primary_timestamp].
  destruct (dict_get d f) as [[t|]|] eqn:E.
  - exfalso. apply (H f t (dict_get_in _ _ _ E)). left; reflexivity.
  - apply IH. intros k t Hi Hk. apply (H k t Hi). right; exact Hk.
  - apply IH. intros k t Hi Hk. apply (H k t Hi). right; exact Hk.
Qed.

(** X17: in [process_single_file], a video whose adjusted metadata holds no date writes nothing unless the suffix is ".avi"; for an AVI file, the adjusted modification time goes to the AVI writer. *)
Theorem video_metadata_fallback : forall ffmpeg flt suffix d modification_time s,
  (forall k v, In (k, v) d -> v = None) ->
  MTC.process_video_metadata ffmpeg flt suffix d modification_time s
  = if list_eq_dec ascii_dec (lower suffix) (list_ascii_of_string ".avi")
    then MTC.write_avi_metadata_safe_inplace_modify flt false modification_time s
    else (Ok false, s).
Proof.
  intros ffmpeg flt suffix d m s H.
  assert (A : forallb (fun kv => MTC.is_none (snd kv)) d = true).
  { apply forallb_forall. intros [k v] Hi. rewrite (H k v Hi). reflexivity. }
  assert (B : existsb (fun kv => negb (MTC.is_none (snd kv))) d = false).
  { apply not_true_is_false. intros Hx. apply existsb_exists in Hx as [[k v] [Hi Hv]].
    rewrite (H k v Hi) in Hv. discriminate. }
  unfold MTC.process_video_metadata. rewrite A, B. cbn [orb].
  destruct (list_eq_dec ascii_dec (lower suffix) (list_ascii_of_string ".avi")) as [E|E]; [|reflexivity].
  unfold MTC.write_video_metadata_timestamps, MTC.timestamp_priority.
  cbn [MTC.primary_timestamp]. rewrite dict_get_set.
  destruct (list_eq_dec ascii_dec (lower suffix) (list_ascii_of_string ".avi")) as [_|E']; [reflexivity|].
  contradiction.
Qed.

(** X18: in [process_single_file], a video whose metadata dates all sit in fields outside the priority list of [write_video_metadata_timestamps] gets no metadata write, the result is False and the file is unchanged, even for an AVI file. *)
Theorem video_metadata_non_priority : forall ffmpeg flt suffix d modification_time s,
  (exists k t, In (k, Some t) d) ->
  (forall k t, In (k, Some t) d -> ~ In k MTC.timestamp_priority) ->
  MTC.process_video_metadata ffmpeg flt suffix d modification_time s = (Ok false, s).
Proof.
  intros ffmpeg flt suffix d m s [k0 [t0 Hi0]] H.
  assert (A : forallb (fun kv => MTC.is_none (snd kv)) d = false).
  { apply not_true_is_false. intros Hx. rewrite forallb_forall in Hx.
    specialize (Hx _ Hi0). discriminate. }
  assert (B : existsb (fun kv => negb (MTC.is_none (snd kv))) d = true).
  { apply existsb_exists. exists (k0, Some t0). split; [exact Hi0|reflexivity]. }
  unfold MTC.process_video_metadata. rewrite A, B. cbn [orb].
  unfold MTC.write_video_metadata_timestamps. rewrite primary_none by exact H. reflexivity.
Qed.

Lemma find_idit_chunk_variants_agree_witness :
  MTC._find_idit_chunk sample_avi = find_idit_chunk sample_avi.
Proof.
  apply find_idit_chunk_variants_agree. intros pos E. vm_compute in E. injection E as <-.
  vm_compute. lia.
Defined.

Lemma format_canon_date_length_witness :
  length (format_canon_date (mkDT 2006 8 28 14 14 28 0)) = 24%nat.
Proof. apply format_canon_date_length; [reflexivity | simpl; lia]. Defined.

Lemma parse_time_adjustment_whole_days_witness :
  MTC.parse_time_adjustment (ascii_s "+3") = Ok (3 * US_PER_DAY) /\
  MTC.parse_time_adjustment (ascii_s "-1000000000") = Exc OverflowError.
Proof.
  split.
  - replace (ascii_s "+3") with (sign_char true :: ascii_s "3") by reflexivity.
    rewrite parse_time_adjustment_whole_days by (vm_compute; congruence). vm_compute. reflexivity.
  - replace (ascii_s "-1000000000") with (sign_char false :: ascii_s "1000000000") by reflexivity.
    rewrite parse_time_adjustment_whole_days by (vm_compute; congruence). vm_compute. reflexivity.
Defined.

Lemma parse_time_adjustment_unit_word_witness :
  MTC.parse_time_adjustment (ascii_s "+3days") = Ok (3 * US_PER_DAY).
Proof.
  replace (ascii_s "+3days") with (sign_char true :: ascii_s "3" ++ "d"%char :: ascii_s "ays") by reflexivity.
  rewrite parse_time_adjustment_unit_word by (vm_compute; congruence). vm_compute. reflexivity.
Defined.

Lemma main_time_delta_double_sign_witness :
  Fixer.main_time_delta (ascii_s "--3d") = Ok (3 * US_PER_DAY) /\
  Fixer.main_time_delta (ascii_s "-+3d") = Ok (-3 * US_PER_DAY).
Proof.
  split.
  - replace (ascii_s "--3d") with (sign_char false :: sign_char false :: ascii_s "3" ++ ["d"%char]) by reflexivity.
    rewrite main_time_delta_double_sign by first [vm_compute; congruence | simpl; lia]. vm_compute. reflexivity.
  - replace (ascii_s "-+3d") with (sign_char false :: sign_char true :: ascii_s "3" ++ ["d"%char]) by reflexivity.
    rewrite main_time_delta_double_sign by first [vm_compute; congruence | simpl; lia]. vm_compute. reflexivity.
Defined.

Lemma unsigned_days_witness :
  Fixer.main_time_delta (ascii_s "3d") = Ok (3 * US_PER_DAY) /\
  MTC.parse_time_adjustment (ascii_s "3d") = Exc TimeParsingError.
Proof.
  replace (ascii_s "3d") with (ascii_s "3" ++ ["d"%char]) by reflexivity.
  replace 3 with (digits_value (ascii_s "3")) at 2 by reflexivity.
  apply unsigned_days; first [vm_compute; congruence | simpl; lia].
Defined.

Lemma main_time_delta_letter_witness :
  Fixer.main_time_delta (ascii_s "+1y 2m 3d") = Exc ValueError.
Proof. apply main_time_delta_letter. vm_compute. reflexivity. Defined.

Lemma no_idit_chunk_witness :
  Fixer.fix_avi_date_inplace no_faults (3 * US_PER_DAY)
    (mkFS (Some (list_byte_of_string "RIFFxxxxAVI LIST")) None)
  = (Ok false, mkFS (Some (list_byte_of_string "RIFFxxxxAVI LIST")) None) /\
  MTC.write_avi_metadata_safe_inplace_modify no_faults false (mkDT 2006 8 31 14 14 28 0)
    (mkFS (Some (list_byte_of_string "RIFFxxxxAVI LIST")) None)
  = (Ok false, mkFS (Some (list_byte_of_string "RIFFxxxxAVI LIST")) None).
Proof. apply no_idit_chunk; vm_compute; reflexivity. Defined.

Lemma write_then_read_witness :
  exists pos payload data' payload',
    find_idit_chunk sample_avi = Ok (Some (pos, payload)) /\
    mkFS (Some sample_avi_plus3) None = mkFS (Some data') None /\
    find_idit_chunk data' = Ok (Some (pos, payload')) /\
    payload' = pad_or_truncate (map byte_of_ascii (format_canon_date (mkDT 2006 8 31 14 14 28 0)))
                 (length payload) /\
    ((24 <= length payload)%nat ->
     parse_canon_date (decode_ascii_ignore payload') = Some (whole_seconds (mkDT 2006 8 31 14 14 28 0))).
Proof.
  apply (write_then_read no_faults (mkDT 2006 8 31 14 14 28 0) sample_avi None);
    [reflexivity | simpl; lia | vm_compute; reflexivity].
Defined.

Lemma write_idempotent_witness :
  exists pos payload,
    find_idit_chunk sample_avi = Ok (Some (pos, payload)) /\
    ((24 <= length payload)%nat ->
     MTC.write_avi_metadata_safe_inplace_modify no_faults false (mkDT 2006 8 31 14 14 28 0)
       (mkFS (Some sample_avi_plus3) None) = (Ok true, mkFS (Some sample_avi_plus3) None)).
Proof.
  apply (write_idempotent no_faults (mkDT 2006 8 31 14 14 28 0) sample_avi None);
    [reflexivity | simpl; lia | vm_compute; reflexivity].
Defined.

Lemma adjust_timestamps_entries_witness :
  NoDup (map fst exif_sample) /\
  snd (MTC.adjust_timestamps US_PER_DAY exif_sample) = ["DateTime"%string].
Proof.
  assert (Hn : NoDup (map fst exif_sample)).
  { vm_compute. repeat constructor; simpl; intuition discriminate. }
  split; [exact Hn|].
  pose proof (adjust_timestamps_entries US_PER_DAY exif_sample Hn) as H.
  destruct (MTC.adjust_timestamps US_PER_DAY exif_sample) as [a e]. destruct H as [_ He].
  cbn [snd]. rewrite He. vm_compute. reflexivity.
Defined.

Lemma adjust_timestamps_zero_witness :
  MTC.adjust_timestamps 0 exif_sample = (exif_sample, []).
Proof.
  apply adjust_timestamps_zero.
  - vm_compute. repeat constructor; simpl; intuition discriminate.
  - intros k t Hi. simpl in Hi. repeat destruct Hi as [Hi|Hi]; try contradiction;
      inversion Hi; subst; reflexivity.
Defined.

Lemma exif_roundtrip_witness :
  Strftime.strftime_exif (mkDT 2006 8 28 14 14 28 0) = ascii_s "2006:08:28 14:14:28" /\
  MTC._parse_exif_datetime_string (ascii_s "2006:08:28 14:14:28") = Some (mkDT 2006 8 28 14 14 28 0).
Proof.
  split; [reflexivity|].
  change (ascii_s "2006:08:28 14:14:28") with (Strftime.strftime_exif (mkDT 2006 8 28 14 14 28 0)).
  apply exif_roundtrip; [reflexivity | simpl; lia].
Defined.

Lemma video_metadata_fallback_witness :
  MTC.process_video_metadata no_ffmpeg no_faults (ascii_s ".AVI") [("recorded_date"%string, None)]
    (mkDT 2006 8 31 14 14 28 0) (mkFS (Some sample_avi) None)
  = (Ok true, mkFS (Some sample_avi_plus3) None).
Proof.
  rewrite video_metadata_fallback by (intros k v [Hi|[]]; congruence).
  vm_compute. reflexivity.
Defined.

Lemma video_metadata_non_priority_witness :
  MTC.process_video_metadata no_ffmpeg no_faults (ascii_s ".avi")
    [("file_last_modification_date"%string, Some (mkDT 2006 8 31 14 14 28 0))]
    (mkDT 2006 8 31 14 14 28 0) (mkFS (Some sample_avi) None)
  = (Ok false, mkFS (Some sample_avi) None).
Proof.
  apply video_metadata_non_priority.
  - exists "file_last_modification_date"%string, (mkDT 2006 8 31 14 14 28 0). left; reflexivity.
  - intros k t [Hi|[]]. injection Hi as <- _. vm_compute. intuition discriminate.
Defined.
